(* ===== verification/_CoqProject ===== *)
-Q . S2P
Prelude.v
PyText.v
PyValue.v
Json.v
Store.v
Prompts.v
Proc.v
Handlers.v
Lifecycle.v
JsonProps.v
Summary.v
PromptProps.v
ReprProps.v
Concurrency.v
Liveness.v
Isolation.v
Serial.v
