(* ===== verification/Prelude.v ===== *)
(** * weekly-checkin: a verification development of [src/main.py]

    The program is a FastAPI service (one file, [src/main.py]) that runs a
    scripted check-in interview through the OpenAI chat API, summarises the
    finished conversation into a JSON record and posts that record to a
    webhook.  Its parts, and how they interact:

    - the session store: the module-level dict [sessions] (line 28) from a
      client-chosen session id to the list of chat turns
      [{"role": ..., "content": ...}];
    - the prompts: [CHAT_SYSTEM_PROMPT] (lines 31-79), the date string
      [get_current_date_string] (lines 83-85) and the f-string
      [SUMMARY_SYSTEM_PROMPT] (lines 87-103), evaluated once at import;
    - the conversation driver [get_ai_response] (lines 196-212): sends the
      whole turn list to the model, appends the reply as an assistant turn;
    - the summarizer [get_conversation_summary] (lines 214-234): a fresh
      two-message request whose user turn is [str(sessions[id])], then
      [json.loads] of the reply with every single quote replaced by a
      double quote;
    - the delivery step inside [submit_chat] (lines 158-182): a blocking
      [requests.post] of the summary, [raise_for_status], 502 on failure;
    - the HTTP handlers [start_chat], [send_message], [submit_chat]
      (lines 114-194), each wrapping its body in [try ... except Exception]
      that re-raises every error, HTTP errors included, as a 500.

    The handlers are coroutines: they suspend at each [await] of the model
    service, and the event loop may run other requests in between, all of
    them sharing the one [sessions] dict.

    ** Files (in dependency order, as listed in _CoqProject)

    - [Prelude]: this header, the [checkin_scope] notation for store
      lookups, the [checkin] hint databases, the tactics [nbool] and
      [nbool_goal] for boolean comparisons on [N], generic list lemmas.
    - [PyText]: Python [str] as a list of code points; [str.__repr__]
      (CPython's [unicode_repr]: quote choice, escapes), [str.replace] of one
      character, [", ".join], decimal and hexadecimal digits.  The printable
      test of the Unicode database is a class ([UnicodeDB]).
    - [PyValue]: the Python values the program builds (None, bool, int,
      float, str, list, dict with str keys in insertion order), dict item
      assignment, [repr]/[str] of values, the exceptions the code raises
      and catches, and [str(e)] of each ([exc_str]).  Float printing is a
      class ([FloatRuntime]).
    - [Json]: [json.loads] as CPython's scanner implements it (whitespace,
      literals, numbers, strings with escapes and surrogate pairs, arrays,
      objects built by item assignment, "Extra data", the BOM check) and
      [json.dumps(allow_nan=False)].
    - [Store]: the [sessions] dict as a [gmap] from session id to turns and
      the five dict operations of the handlers with their [KeyError]s.
    - [Prompts]: the two prompt literals and [strftime("%B %d, %Y")].
    - [Proc]: a handler as a finite tree of effects (store actions, model
      calls, webhook posts) with [bind] and [try/except]; [run] executes a
      tree sequentially against the services' replies.  [py_post] models
      [requests.post(json=...)], whose body ([json_body]) is the JSON text
      of the value, or nothing for [None].
    - [Handlers]: one definition per function of the file, composed as the
      code composes them, each with a functional specification
      ([*_spec], [*_correct]); the behaviour claims C1-C9.
    - [Lifecycle]: the session invariant [wf_store] and its preservation by
      every endpoint (C10), the turn order (C11), the abstract lifecycle
      of an id and the refinement theorem (C12, C13), the HTTP status
      every endpoint answers (C26).
    - [JsonProps]: [json.loads] inverts [json.dumps] (C14) and builds an
      object with repeated keys as CPython does (C27).
    - [Summary]: what the decoding line 232 accepts and rejects (C15-C17).
    - [PromptProps]: the date string is injective on calendar dates (C23)
      and the summary prompt embeds one date only when the two clock
      readings agree (C24).
    - [ReprProps]: a reader of Python str literals and of the turn list;
      the summary request carries the whole history, decodable (C25).
    - [Concurrency]: the endpoints as asyncio tasks over one [sessions]:
      a task runs to its next await of the model, a schedule chooses which
      request to accept, start or resume; the invariant and isolation that
      survive every schedule (C18, C19), three races on one id (C20-C22).
    - [Liveness]: every endpoint awaits the model at most once on every
      path ([awaits]); the loop keeps that bound for every task, so each
      task finishes when given its turns (C28).
    - [Isolation]: every endpoint reads and writes only the session its
      request names ([local]); a request whose session no other request
      names runs in any schedule as with the loop to itself (C29).
    - [Serial]: a task alone on the loop does a stretch of one sequential
      [run] of its handler; so a finished request on a private session
      is serializable (C30).

    ** What the theorems show

    - Handlers (C1-C9): every endpoint on every branch, with the exact
      store, calls and response: the 404s and the 502 of the source are
      caught by the outer [except Exception] and become 500s; a failed
      message keeps the user turn; a failed start has already reset the
      session; only a delivered summary deletes the session, and any
      webhook status outside 400-599 counts as delivered.
    - Lifecycle (C10-C13, C26): served one at a time, requests keep each
      session well formed (system prompt first, no two assistant turns in
      a row), and the phase of each id moves as the lifecycle says; the
      client only ever sees 200 or 500.
    - JSON (C14, C27): the webhook receives the summary intact, and a
      reply that repeats a key keeps the key's first place and last value.
    - Summary (C15-C17): Python-literal replies decode; replies of any
      shape are accepted; an apostrophe in a JSON reply breaks it.
    - Prompts (C23, C24): the date the summary must echo identifies the
      day; a prompt built across midnight carries two dates.
    - History (C25): the summarizer's input determines the conversation.
    - Concurrency (C18-C22, C28-C30): every task finishes after at most
      one start and one resumption, whatever the model answers; requests
      on different sessions do not interfere, and a finished request on a
      private session has the outcome and session effect of one
      sequential run of its handler, so C1-C13 and C26 describe it; under
      interleaving on one id only the weaker shape invariant survives;
      the session of an id changes only in steps of requests for that id;
      overlapping requests on one id interleave turns, lose an exchange,
      or report a store error as a model error.

    ** Bounds and fuel

    The handler trees are finite inductive values, so [run] and [advance]
    are structural.  The JSON scanner takes fuel: [loads] gives it
    [2 * length s + 1], and [JsonProps.scan_fuel] shows that more than
    twice the input length is enough, since every level of nesting or item
    consumes input, so the fallback [ValueError] of the model is never
    reached; [dec_N] takes [n + 1] steps of fuel for [n], more than its
    [log10 n] divisions.  Integers are unbounded as in Python; status
    codes are [Z].

    ** Not modelled

    FastAPI routing, static files and [read_root] (lines 18-25), and the
    validation of request bodies by pydantic (a 422 before any handler
    runs, whose coercions depend on the library version the repository
    does not pin); the spec also leaves the serving layer out.  The
    response FastAPI builds ([Handlers.respond]) is modelled from the
    spec's status list, not from code of the repository.
    [load_dotenv] and the API key (lines 12-16), logging through [print],
    the network services themselves (their replies are inputs: a list of
    replies for [run], the labels of a schedule and the [post] parameter
    for [Concurrency]; [post] is a function of the request, so a webhook
    answering the same body differently at two times is not represented
    in the loop, only in [run]), and the Unicode database and float
    printing (classes [UnicodeDB], [FloatRuntime]).  CPython's recursion
    limit is not modelled: [json.loads] and [json.dumps] raise
    [RecursionError] on text or values nested about a thousand deep,
    which [loads] and [dumps] here decode and encode.

    ** Plan left

    Schedules with more than one request per session beyond the three
    races (which interleavings of one id still match some sequential
    order); the body of the FastAPI reply beyond its status. *)

From stdpp Require Export base gmap strings list.
From Stdlib Require Export ZArith NArith Lia ZifyN.

Declare Scope checkin_scope.
Delimit Scope checkin_scope with checkin.
Open Scope checkin_scope.

(** [sessions[sid]] is [ts] in the store [st]. *)
Notation "sid ↦ ts 'in' st" := (st !! sid = Some ts)
  (at level 70, ts at next level, st at next level) : checkin_scope.

Create HintDb checkin.
Create Rewrite HintDb checkin_rw.

(** Python [str]: a sequence of Unicode code points. *)
Abbreviation pystr := (list N).

(** A Python string literal of the source, written with ASCII characters. *)
Definition txt (s : string) : pystr :=
  map (fun a => Ascii.N_of_ascii a) (String.list_ascii_of_string s).

#[global] Arguments txt : simpl never.

(** ** Tactics *)

(** Turn the boolean comparisons on [N] in the hypotheses into
    propositions, for [lia]. *)
Ltac nbool :=
  repeat match goal with
  | H : (_ =? _)%N = true |- _ => apply N.eqb_eq in H
  | H : (_ =? _)%N = false |- _ => apply N.eqb_neq in H
  | H : (_ <=? _)%N = true |- _ => apply N.leb_le in H
  | H : (_ <=? _)%N = false |- _ => apply N.leb_gt in H
  | H : (_ <? _)%N = true |- _ => apply N.ltb_lt in H
  | H : (_ <? _)%N = false |- _ => apply N.ltb_ge in H
  | H : (_ && _) = true |- _ => apply andb_true_iff in H as [? ?]
  | H : (_ || _) = false |- _ => apply orb_false_iff in H as [? ?]
  | H : negb _ = true |- _ => apply negb_true_iff in H
  | H : negb _ = false |- _ => apply negb_false_iff in H
  end.

(** Close a goal built from boolean comparisons on [N], by cases on each
    comparison in the goal and the hypotheses. *)
Ltac nbool_goal :=
  repeat match goal with
  | |- context [(?a =? ?b)%N] => destruct (N.eqb_spec a b)
  | |- context [(?a <=? ?b)%N] => destruct (N.leb_spec a b)
  | |- context [(?a <? ?b)%N] => destruct (N.ltb_spec a b)
  | H : context [(?a =? ?b)%N] |- _ => destruct (N.eqb_spec a b)
  | H : context [(?a <=? ?b)%N] |- _ => destruct (N.leb_spec a b)
  | H : context [(?a <? ?b)%N] |- _ => destruct (N.ltb_spec a b)
  end; cbn [andb orb negb] in *; (done || congruence || lia).

(** ** Generic lemmas *)

Lemma forallb_Forall {A} (f : A -> bool) (l : list A) :
  forallb f l = true <-> Forall (fun x => f x = true) l.
Proof.
  induction l as [|x l IH]; simpl; [split; auto|].
  rewrite andb_true_iff, Forall_cons, IH. done.
Qed.

Lemma Forall_mp {A} (P Q : A -> Prop) (l : list A) :
  Forall (fun x => P x -> Q x) l -> Forall P l -> Forall Q l.
Proof. induction 1; inversion 1; constructor; auto. Qed.

Lemma sum_list_with_le {A} (f g : A -> nat) (l : list A) :
  Forall (fun x => f x <= g x)%nat l -> (sum_list_with f l <= sum_list_with g l)%nat.
Proof. induction 1; simpl; lia. Qed.

Lemma sum_list_with_plus {A} (f g : A -> nat) (l : list A) :
  sum_list_with (fun x => f x + g x)%nat l = (sum_list_with f l + sum_list_with g l)%nat.
Proof. induction l; simpl; lia. Qed.

Lemma sum_list_with_const {A} (c : nat) (l : list A) :
  sum_list_with (fun _ => c) l = (c * length l)%nat.
Proof. induction l; simpl; lia. Qed.

Lemma sum_list_with_S {A} (f : A -> nat) (l : list A) :
  sum_list_with (fun x => S (f x)) l = (sum_list_with f l + length l)%nat.
Proof. induction l; simpl; lia. Qed.

(** Two lists that agree up to the first occurrence of a delimiter that
    neither prefix holds have equal prefixes and equal rests. *)
Lemma app_delim_inj (d : N) (l1 l2 r1 r2 : list N) :
  d ∉ l1 -> d ∉ l2 -> l1 ++ d :: r1 = l2 ++ d :: r2 -> l1 = l2 /\ r1 = r2.
Proof.
  revert l2. induction l1 as [|a l1 IH]; intros [|b l2] H1 H2 H; simpl in *; simplify_eq.
  - done.
  - set_solver.
  - set_solver.
  - destruct (IH l2) as [-> ->]; [set_solver|set_solver|done|done].
Qed.

(** Replace each comparison on [N] in the goal whose value [lia] can
    establish from the hypotheses by that value. *)
Ltac ndecide :=
  repeat match goal with
  | |- context [(?a =? ?b)%N] =>
      first [ replace (a =? b)%N with true by (symmetry; apply N.eqb_eq; lia)
            | replace (a =? b)%N with false by (symmetry; apply N.eqb_neq; lia) ]
  | |- context [(?a <=? ?b)%N] =>
      first [ replace (a <=? b)%N with true by (symmetry; apply N.leb_le; lia)
            | replace (a <=? b)%N with false by (symmetry; apply N.leb_gt; lia) ]
  | |- context [(?a <? ?b)%N] =>
      first [ replace (a <? b)%N with true by (symmetry; apply N.ltb_lt; lia)
            | replace (a <? b)%N with false by (symmetry; apply N.ltb_ge; lia) ]
  end.
