(* ===== verification/PyText.v ===== *)
(** * PyText: Python [str] values and the text functions the program uses

    A Python [str] is a sequence of code points ([pystr], a [list N]).
    This file models CPython's [str.__repr__] (used by [str(list)] in
    [get_conversation_summary], line 219, and by [str(e)] on exceptions
    whose detail is a dict), [str.replace] with one-character arguments
    (line 232) and the decimal rendering of [int]s.  The Unicode database
    enters only through the printable test of [repr], a parameter
    ([UnicodeDB]). *)

From S2P Require Import Prelude.

(** The part of the Unicode database [repr] consults:
    [Py_UNICODE_ISPRINTABLE] on code points above U+007E. *)
Class UnicodeDB := { isprintable : N -> bool }.

(** The database restricted to Latin-1, as CPython's tables have it:
    U+0080..U+00A0 (controls and NO-BREAK SPACE) and U+00AD (SOFT HYPHEN)
    are not printable, the rest of U+00A1..U+00FF is.  Code points above
    U+00FF are taken printable, except surrogates. *)
Definition latin1_printable (c : N) : bool :=
  if (c <=? 0xff)%N then (0xa1 <=? c)%N && negb (c =? 0xad)%N
  else negb ((0xd800 <=? c)%N && (c <=? 0xdfff)%N).

Definition Latin1DB : UnicodeDB := {| isprintable := latin1_printable |}.

(** Code points used by the escapes. *)
Definition c_squote : N := 39.
Definition c_dquote : N := 34.
Definition c_backslash : N := 92.

(** ** Hexadecimal and decimal digits *)

(** [Py_hexdigits] is ["0123456789abcdef"]. *)
Definition hex_digit (d : N) : N := if (d <? 10)%N then 48 + d else 87 + d.

(** The [w] low hexadecimal digits of [c], most significant first. *)
Fixpoint hex_fixed (w : nat) (c : N) : pystr :=
  match w with
  | O => []
  | S w' => hex_fixed w' (c / 16) ++ [hex_digit (c mod 16)]
  end.

(** Decimal digits of a natural number, most significant first:
    [int.__repr__] on non-negative values.  The fuel [n] is enough: each
    step divides by 10. *)
Fixpoint dec_digits_aux (fuel : nat) (n : N) (acc : pystr) : pystr :=
  match fuel with
  | O => acc
  | S f =>
      let acc' := (48 + n mod 10)%N :: acc in
      if (n <? 10)%N then acc' else dec_digits_aux f (n / 10) acc'
  end.

Definition dec_N (n : N) : pystr := dec_digits_aux (S (N.to_nat n)) n [].

(** [int.__repr__]. *)
Definition repr_int (z : Z) : pystr :=
  match z with
  | Z0 => [48%N]
  | Zpos p => dec_N (Npos p)
  | Zneg p => 45%N :: dec_N (Npos p)
  end.

(** ** [str.__repr__] (CPython [unicode_repr]) *)

(** The quote: a single quote, unless the text holds a single quote and
    no double quote. *)
Definition repr_quote (s : pystr) : N :=
  if existsb (N.eqb c_squote) s && negb (existsb (N.eqb c_dquote) s)
  then c_dquote else c_squote.

Section Repr.
Context `{UnicodeDB}.

(** One character of the body of [repr], with quote [q]. *)
Definition repr_char (q c : N) : pystr :=
  if (c =? q)%N || (c =? c_backslash)%N then [c_backslash; c]
  else if (c =? 9)%N then [c_backslash; 116%N]
  else if (c =? 10)%N then [c_backslash; 110%N]
  else if (c =? 13)%N then [c_backslash; 114%N]
  else if (c <? 32)%N || (c =? 127)%N then c_backslash :: 120%N :: hex_fixed 2 c
  else if (c <? 127)%N then [c]
  else if isprintable c then [c]
  else if (c <=? 0xff)%N then c_backslash :: 120%N :: hex_fixed 2 c
  else if (c <=? 0xffff)%N then c_backslash :: 117%N :: hex_fixed 4 c
  else c_backslash :: 85%N :: hex_fixed 8 c.

Definition repr_str (s : pystr) : pystr :=
  let q := repr_quote s in
  q :: flat_map (repr_char q) s ++ [q].

End Repr.

(** ** [str.replace] with one-character arguments *)

(** [s.replace(a, b)] where [a] and [b] are one-character strings: every
    occurrence of [a] becomes [b]. *)
Definition replace_char (a b : N) (s : pystr) : pystr :=
  map (fun c => if (c =? a)%N then b else c) s.

(** [", ".join(parts)] *)
Definition join (sep : pystr) (parts : list pystr) : pystr :=
  match parts with
  | [] => []
  | p :: ps => p ++ mjoin (map (fun q => sep ++ q) ps)
  end.
