(* ===== verification/PyValue.v ===== *)
(** * PyValue: the Python values and exceptions of [src/main.py]

    The values the program builds and passes around: the turn dicts
    [{"role": ..., "content": ...}], the lists of them, the objects
    [json.loads] returns (the summary) and the response dicts of the
    handlers.  A dict is an association list with str keys in insertion
    order: item assignment ([dict_set]) keeps the position of a key that
    is already present, as CPython's dicts do.  [py_repr] and [py_str] are
    [repr] and [str] of values; [exc] lists the exceptions the code raises
    or catches and [exc_str] is [str(e)] of each. *)

From S2P Require Import Prelude PyText.

(** The float operations the program reaches through [json.loads],
    [str()] and [requests]: floats are kept as the JSON lexeme they were
    decoded from, and their [repr] and finiteness are parameters. *)
Class FloatRuntime := {
  float_repr : pystr -> pystr;
  float_finite : pystr -> bool
}.

Inductive pyval : Type :=
| PNone
| PBool (b : bool)
| PInt (z : Z)
| PFloat (lexeme : pystr)
| PStr (s : pystr)
| PList (xs : list pyval)
| PDict (kvs : list (pystr * pyval)).

(** Induction with hypotheses on the elements of lists and dicts. *)
Section PyvalInd.
Variable P : pyval -> Prop.
Hypothesis HNone : P PNone.
Hypothesis HBool : forall b, P (PBool b).
Hypothesis HInt : forall z, P (PInt z).
Hypothesis HFloat : forall f, P (PFloat f).
Hypothesis HStr : forall s, P (PStr s).
Hypothesis HList : forall xs, Forall P xs -> P (PList xs).
Hypothesis HDict : forall kvs, Forall (fun kv => P kv.2) kvs -> P (PDict kvs).

Fixpoint pyval_ind' (v : pyval) : P v :=
  match v with
  | PNone => HNone
  | PBool b => HBool b
  | PInt z => HInt z
  | PFloat f => HFloat f
  | PStr s => HStr s
  | PList xs =>
      HList xs ((fix go (l : list pyval) : Forall P l :=
                   match l with
                   | [] => Forall_nil_2 _
                   | x :: l' => Forall_cons_2 _ x l' (pyval_ind' x) (go l')
                   end) xs)
  | PDict kvs =>
      HDict kvs ((fix go (l : list (pystr * pyval)) : Forall (fun kv => P kv.2) l :=
                    match l with
                    | [] => Forall_nil_2 _
                    | kv :: l' => Forall_cons_2 _ kv l' (pyval_ind' kv.2) (go l')
                    end) kvs)
  end.
End PyvalInd.

(** ** Dicts with str keys *)

(** [d[k] = v]: replace the value in place, or append a new item. *)
Fixpoint dict_set (k : pystr) (v : pyval) (kvs : list (pystr * pyval))
  : list (pystr * pyval) :=
  match kvs with
  | [] => [(k, v)]
  | (k', v') :: r => if decide (k = k') then (k, v) :: r else (k', v') :: dict_set k v r
  end.

(** [d.get(k)] *)
Fixpoint dict_get (k : pystr) (kvs : list (pystr * pyval)) : option pyval :=
  match kvs with
  | [] => None
  | (k', v') :: r => if decide (k = k') then Some v' else dict_get k r
  end.

(** A dict literal [{k1: v1, k2: v2, ...}]. *)
Definition dict_of (kvs : list (pystr * pyval)) : pyval :=
  PDict (foldl (fun d kv => dict_set kv.1 kv.2 d) [] kvs).

(** ** [repr] and [str] of values *)

Section ReprValues.
Context `{UnicodeDB} `{FloatRuntime}.

Fixpoint py_repr (v : pyval) : pystr :=
  match v with
  | PNone => txt "None"
  | PBool true => txt "True"
  | PBool false => txt "False"
  | PInt z => repr_int z
  | PFloat f => float_repr f
  | PStr s => repr_str s
  | PList xs => [91%N] ++ join (txt ", ") (map py_repr xs) ++ [93%N]
  | PDict kvs =>
      [123%N] ++ join (txt ", ")
        (map (fun kv => repr_str kv.1 ++ txt ": " ++ py_repr kv.2) kvs) ++ [125%N]
  end.

(** [str(v)]: the text itself for a str, [repr] otherwise. *)
Definition py_str (v : pyval) : pystr :=
  match v with
  | PStr s => s
  | _ => py_repr v
  end.

End ReprValues.

(** ** Exceptions *)

(** The exceptions raised or caught in [src/main.py]. *)
Inductive exc : Type :=
| KeyError (key : pystr)
  (** a missing key of [sessions]: [sessions[id]], [del sessions[id]] *)
| Exception (msg : pystr)
  (** [raise Exception(msg)], lines 212 and 234 *)
| HTTPException (status_code : Z) (detail : pyval)
  (** [fastapi.HTTPException] *)
| RequestException (msg : pystr)
  (** [requests.exceptions.RequestException] and its subclasses, among
      them the [HTTPError] of [raise_for_status] *)
| ServiceError (msg : pystr)
  (** an error of the OpenAI client library *)
| JSONDecodeError (msg : pystr) (doc : pystr) (pos : nat)
  (** [json.JSONDecodeError(msg, doc, pos)] *)
| ValueError (msg : pystr).

(** The result of Python code: a value returned or an exception raised. *)
Inductive outcome (A : Type) : Type :=
| Returned (v : A)
| Raised (e : exc).

Arguments Returned {A}.
Arguments Raised {A}.

(** Line and column of a position in a document, as
    [json.JSONDecodeError.__init__] computes them:
    [lineno = doc.count('\n', 0, pos) + 1],
    [colno = pos - doc.rfind('\n', 0, pos)]. *)
Definition json_lineno (doc : pystr) (pos : nat) : nat :=
  S (length (filter (fun c => c = 10%N) (take pos doc))).

Fixpoint chars_after_last_nl (l : pystr) (n : nat) : nat :=
  match l with
  | [] => n
  | c :: r => chars_after_last_nl r (if (c =? 10)%N then 1 else S n)
  end.

Definition json_colno (doc : pystr) (pos : nat) : nat :=
  chars_after_last_nl (take pos doc) 1.

Definition repr_nat (n : nat) : pystr := repr_int (Z.of_nat n).

Section ExcStr.
Context `{UnicodeDB} `{FloatRuntime}.

(** [str(e)] *)
Definition exc_str (e : exc) : pystr :=
  match e with
  | KeyError k => repr_str k
  | Exception m => m
  | HTTPException code d => repr_int code ++ txt ": " ++ py_str d
  | RequestException m => m
  | ServiceError m => m
  | JSONDecodeError m doc pos =>
      m ++ txt ": line " ++ repr_nat (json_lineno doc pos)
        ++ txt " column " ++ repr_nat (json_colno doc pos)
        ++ txt " (char " ++ repr_nat pos ++ txt ")"
  | ValueError m => m
  end.

#[global] Arguments exc_str : simpl never.

End ExcStr.

(** A float runtime for concrete runs: [repr] is the lexeme itself (as it
    is for lexemes already in Python's shortest form, such as [0.5]), and
    the named constants of [json] are the non-finite floats. *)
Definition LexemeFloats : FloatRuntime := {|
  float_repr := fun f => f;
  float_finite := fun f => negb (bool_decide (f ∈ [txt "NaN"; txt "Infinity"; txt "-Infinity"]))
|}.
