(* ===== verification/Json.v ===== *)
(** * Json: [json.loads], as CPython's C scanner implements it

    [get_conversation_summary] (line 232) decodes the model's reply with
    [json.loads].  This file models the decoder of CPython's [Modules/_json.c]
    and [Lib/json/decoder.py] on a [str] argument:
    - [loads] rejects a leading U+FEFF, skips whitespace (space, tab, LF,
      CR), scans one value and fails with "Extra data" if anything but
      whitespace follows it;
    - [scan_once] dispatches on the first character: strings, objects,
      arrays, the literals [null], [true], [false], [NaN], [Infinity],
      [-Infinity], then numbers; anything else is "Expecting value";
    - [scan_str] is [scanstring_unicode] in strict mode: control characters
      below U+0020 are rejected, the escapes are the eight one-letter ones
      and [\uXXXX] with surrogate pairs joined;
    - objects are built with item assignment (a repeated key keeps its
      first position and its last value).
    Errors carry CPython's message and the position (the remaining input).
    The scanner takes fuel; [loads] gives it twice the input length plus
    one, which the theorems show is enough. *)

From S2P Require Import Prelude PyText PyValue.

(** The result of a scanning function: a value and the input after it, an
    error message and the input at the error position, or no fuel left. *)
Inductive jres (A : Type) : Type :=
| JOk (v : A) (rest : pystr)
| JFail (msg : pystr) (at_ : pystr)
| JNoFuel.

Arguments JOk {A}.
Arguments JFail {A}.
Arguments JNoFuel {A}.

(** [IS_WHITESPACE] *)
Definition is_ws (c : N) : bool := (c =? 32)%N || (c =? 9)%N || (c =? 10)%N || (c =? 13)%N.

Fixpoint skip_ws (l : pystr) : pystr :=
  match l with
  | c :: r => if is_ws c then skip_ws r else l
  | [] => []
  end.

Definition is_digit (c : N) : bool := (48 <=? c)%N && (c <=? 57)%N.

(** The value of a hexadecimal digit, either case. *)
Definition hex_val (c : N) : option N :=
  if is_digit c then Some (c - 48)%N
  else if (97 <=? c)%N && (c <=? 102)%N then Some (c - 87)%N
  else if (65 <=? c)%N && (c <=? 70)%N then Some (c - 55)%N
  else None.

Definition hex4 (a b c d : N) : option N :=
  va ← hex_val a; vb ← hex_val b; vc ← hex_val c; vd ← hex_val d;
  Some (((va * 16 + vb) * 16 + vc) * 16 + vd)%N.

Definition is_high_surrogate (c : N) : bool := (0xd800 <=? c)%N && (c <=? 0xdbff)%N.
Definition is_low_surrogate (c : N) : bool := (0xdc00 <=? c)%N && (c <=? 0xdfff)%N.

(** [Py_UNICODE_JOIN_SURROGATES] *)
Definition join_surrogates (hi lo : N) : N :=
  (0x10000 + (hi - 0xd800) * 0x400 + (lo - 0xdc00))%N.

(** The one-letter escapes: a backslash followed by a double quote, a
    backslash, a slash, or one of the letters b, f, n, r, t. *)
Definition simple_escape (c : N) : option N :=
  if (c =? 34)%N then Some 34%N
  else if (c =? 92)%N then Some 92%N
  else if (c =? 47)%N then Some 47%N
  else if (c =? 98)%N then Some 8%N
  else if (c =? 102)%N then Some 12%N
  else if (c =? 110)%N then Some 10%N
  else if (c =? 114)%N then Some 13%N
  else if (c =? 116)%N then Some 9%N
  else None.

(** The error messages of the decoder. *)
Definition msg_expecting_value : pystr := txt "Expecting value".
Definition msg_unterminated : pystr := txt "Unterminated string starting at".
Definition msg_control : pystr := txt "Invalid control character at".
Definition msg_bad_escape : pystr := txt "Invalid \escape".
Definition msg_bad_uescape : pystr := txt "Invalid \uXXXX escape".
Definition msg_propname : pystr := txt "Expecting property name enclosed in double quotes".
Definition msg_colon : pystr := txt "Expecting ':' delimiter".
Definition msg_comma : pystr := txt "Expecting ',' delimiter".
Definition msg_extra : pystr := txt "Extra data".
Definition msg_bom : pystr := txt "Unexpected UTF-8 BOM (decode using utf-8-sig)".

Definition jcons (c : N) (r : jres pystr) : jres pystr :=
  match r with
  | JOk s rest => JOk (c :: s) rest
  | JFail m p => JFail m p
  | JNoFuel => JNoFuel
  end.

(** [scanstring_unicode], strict: [l] is the input after the opening quote,
    [begin] the input at the opening quote (for "Unterminated string"). *)
Fixpoint scan_str (begin : pystr) (l : pystr) : jres pystr :=
  match l with
  | [] => JFail msg_unterminated begin
  | c :: r =>
      if (c =? 34)%N then JOk [] r
      else if (c =? 92)%N then
        match r with
        | [] => JFail msg_unterminated begin
        | e :: r1 =>
            if (e =? 117)%N then
              match r1 with
              | h1 :: h2 :: h3 :: h4 :: r2 =>
                  if decide (r2 = []) then JFail msg_bad_uescape r
                  else match hex4 h1 h2 h3 h4 with
                  | None => JFail msg_bad_uescape r
                  | Some u =>
                      if is_high_surrogate u then
                        match r2 with
                        | b :: v :: g1 :: g2 :: g3 :: g4 :: r3 =>
                            if (b =? 92)%N && (v =? 117)%N && negb (bool_decide (r3 = [])) then
                              match hex4 g1 g2 g3 g4 with
                              | None => JFail msg_bad_uescape (v :: g1 :: g2 :: g3 :: g4 :: r3)
                              | Some u2 =>
                                  if is_low_surrogate u2
                                  then jcons (join_surrogates u u2) (scan_str begin r3)
                                  else jcons u (scan_str begin r2)
                              end
                            else jcons u (scan_str begin r2)
                        | _ => jcons u (scan_str begin r2)
                        end
                      else jcons u (scan_str begin r2)
                  end
              | _ => JFail msg_bad_uescape r
              end
            else match simple_escape e with
                 | Some c' => jcons c' (scan_str begin r1)
                 | None => JFail msg_bad_escape l
                 end
        end
      else if (c <=? 0x1f)%N then JFail msg_control l
      else jcons c (scan_str begin r)
  end.

(** ** Numbers ([_match_number_unicode]) *)

Fixpoint span_digits (l : pystr) : pystr * pystr :=
  match l with
  | c :: r => if is_digit c then let '(ds, rest) := span_digits r in (c :: ds, rest) else ([], l)
  | [] => ([], [])
  end.

(** The value of a string of decimal digits. *)
Definition digits_value (ds : pystr) : N := foldl (fun acc d => acc * 10 + (d - 48))%N 0%N ds.

(** The integer part after the optional minus sign: [0], or a nonzero
    digit and the digits after it; [None] is the StopIteration of the C
    code. *)
Definition scan_int_part (l : pystr) : option (pystr * pystr) :=
  match l with
  | c :: r =>
      if (49 <=? c)%N && (c <=? 57)%N then let '(ds, rest) := span_digits r in Some (c :: ds, rest)
      else if (c =? 48)%N then Some ([c], r)
      else None
  | [] => None
  end.

(** The fraction [(\.[0-9]+)?]. *)
Definition scan_frac (l : pystr) : pystr * pystr :=
  match l with
  | dot :: d :: r =>
      if (dot =? 46)%N && is_digit d then let '(ds, rest) := span_digits r in (dot :: d :: ds, rest)
      else ([], l)
  | _ => ([], l)
  end.

(** The exponent [([eE][-+]?[0-9]+)?], backtracking when no digit follows. *)
Definition scan_exp (l : pystr) : pystr * pystr :=
  match l with
  | e :: r =>
      if (e =? 101)%N || (e =? 69)%N then
        let '(sgn, r1) :=
          match r with
          | s :: r' => if (s =? 45)%N || (s =? 43)%N then ([s], r') else ([], r)
          | [] => ([], r)
          end in
        match span_digits r1 with
        | ([], _) => ([], l)
        | (ds, rest) => (e :: sgn ++ ds, rest)
        end
      else ([], l)
  | [] => ([], [])
  end.

(** A number: an [int] if it has neither fraction nor exponent, a [float]
    (kept as its lexeme) otherwise. *)
Definition scan_number (l : pystr) : option (pyval * pystr) :=
  let '(sign, l1) := match l with c :: r => if (c =? 45)%N then ([c], r) else ([], l) | [] => ([], l) end in
  '(ip, r2) ← scan_int_part l1;
  let '(fr, r3) := scan_frac r2 in
  let '(ex, r4) := scan_exp r3 in
  if decide (fr = [] /\ ex = []) then
    let n := Z.of_N (digits_value ip) in
    Some (PInt (if decide (sign = []) then n else (- n)%Z), r4)
  else Some (PFloat (sign ++ ip ++ fr ++ ex), r4).

(** The named constants, tested on the next characters. *)
Definition literals : list (pystr * pyval) :=
  [(txt "null", PNone); (txt "true", PBool true); (txt "false", PBool false);
   (txt "NaN", PFloat (txt "NaN")); (txt "Infinity", PFloat (txt "Infinity"));
   (txt "-Infinity", PFloat (txt "-Infinity"))].

Fixpoint strip_prefix (p l : pystr) : option pystr :=
  match p, l with
  | [], _ => Some l
  | a :: p', b :: l' => if (a =? b)%N then strip_prefix p' l' else None
  | _ :: _, [] => None
  end.

Definition scan_literal (l : pystr) : option (pyval * pystr) :=
  foldr (fun lv acc =>
           match strip_prefix lv.1 l with Some r => Some (lv.2, r) | None => acc end)
        None literals.

(** ** Values, objects, arrays *)

Definition jbind {A B} (r : jres A) (f : A -> pystr -> jres B) : jres B :=
  match r with
  | JOk v rest => f v rest
  | JFail m p => JFail m p
  | JNoFuel => JNoFuel
  end.

(** [scan_once_unicode] at [l]; [scan_members] reads the members of an
    object from a key on, [scan_items] the items of an array from an item
    on, each with the items read so far. *)
Fixpoint scan_once (n : nat) (l : pystr) {struct n} : jres pyval :=
  match n with
  | O => JNoFuel
  | S n' =>
      match l with
      | [] => JFail msg_expecting_value []
      | c :: r =>
          if (c =? 34)%N then jbind (scan_str l r) (fun s rest => JOk (PStr s) rest)
          else if (c =? 123)%N then
            match skip_ws r with
            | d :: r' => if (d =? 125)%N then JOk (PDict []) r' else scan_members n' (d :: r') []
            | [] => scan_members n' [] []
            end
          else if (c =? 91)%N then
            match skip_ws r with
            | d :: r' => if (d =? 93)%N then JOk (PList []) r' else scan_items n' (d :: r') []
            | [] => scan_items n' [] []
            end
          else match scan_literal l with
               | Some (v, rest) => JOk v rest
               | None =>
                   match scan_number l with
                   | Some (v, rest) => JOk v rest
                   | None => JFail msg_expecting_value l
                   end
               end
      end
  end
with scan_members (n : nat) (l : pystr) (acc : list (pystr * pyval)) {struct n} : jres pyval :=
  match n with
  | O => JNoFuel
  | S n' =>
      match l with
      | q :: r =>
          if (q =? 34)%N then
            jbind (scan_str l r) (fun k r1 =>
              match skip_ws r1 with
              | d :: r2 =>
                  if (d =? 58)%N then
                    jbind (scan_once n' (skip_ws r2)) (fun v r3 =>
                      let acc' := dict_set k v acc in
                      match skip_ws r3 with
                      | e :: r4 =>
                          if (e =? 125)%N then JOk (PDict acc') r4
                          else if (e =? 44)%N then scan_members n' (skip_ws r4) acc'
                          else JFail msg_comma (e :: r4)
                      | [] => JFail msg_comma []
                      end)
                  else JFail msg_colon (d :: r2)
              | [] => JFail msg_colon []
              end)
          else JFail msg_propname l
      | [] => JFail msg_propname []
      end
  end
with scan_items (n : nat) (l : pystr) (acc : list pyval) {struct n} : jres pyval :=
  match n with
  | O => JNoFuel
  | S n' =>
      jbind (scan_once n' l) (fun v r1 =>
        let acc' := acc ++ [v] in
        match skip_ws r1 with
        | e :: r2 =>
            if (e =? 93)%N then JOk (PList acc') r2
            else if (e =? 44)%N then scan_items n' (skip_ws r2) acc'
            else JFail msg_comma (e :: r2)
        | [] => JFail msg_comma []
        end)
  end.

(** The position of a suffix [p] of the document [s]. *)
Definition pos_in (s p : pystr) : nat := length s - length p.

(** The fuel [loads] gives the scanner. *)
Definition loads_fuel (s : pystr) : nat := S (2 * length s).

(** [json.loads(s)] *)
Definition loads (s : pystr) : outcome pyval :=
  if bool_decide (head s = Some 0xfeff%N) then Raised (JSONDecodeError msg_bom s 0) else
  match scan_once (loads_fuel s) (skip_ws s) with
  | JOk v rest =>
      match skip_ws rest with
      | [] => Returned v
      | r => Raised (JSONDecodeError msg_extra s (pos_in s r))
      end
  | JFail m p => Raised (JSONDecodeError m s (pos_in s p))
  | JNoFuel => Raised (ValueError msg_expecting_value)
  end.

(** ** [json.dumps(obj, allow_nan=False)], the body [requests] sends

    [requests.post(url, json=obj)] serialises [obj] with
    [json.dumps(obj, allow_nan=False)]: separators [", "] and [": "],
    [ensure_ascii] (every character outside [' '..'~'], the backslash and
    the double quote escaped, code points above U+FFFF as surrogate
    pairs), and a [ValueError] on a float that is not finite, which
    requests re-raises as [InvalidJSONError], a [RequestException]. *)

(** [ascii_escape_unichar] and the characters it leaves alone. *)
Definition ascii_escape_char (c : N) : pystr :=
  if (32 <=? c)%N && (c <=? 126)%N && negb (c =? 92)%N && negb (c =? 34)%N then [c]
  else if (c =? 92)%N then [92; 92]%N
  else if (c =? 34)%N then [92; 34]%N
  else if (c =? 8)%N then [92; 98]%N
  else if (c =? 12)%N then [92; 102]%N
  else if (c =? 10)%N then [92; 110]%N
  else if (c =? 13)%N then [92; 114]%N
  else if (c =? 9)%N then [92; 116]%N
  else if (0x10000 <=? c)%N then
    [92; 117]%N ++ hex_fixed 4 (0xd800 + (c - 0x10000) / 0x400)%N
      ++ [92; 117]%N ++ hex_fixed 4 (0xdc00 + (c - 0x10000) mod 0x400)%N
  else [92; 117]%N ++ hex_fixed 4 c.

(** [encode_basestring_ascii] *)
Definition encode_str (s : pystr) : pystr := [34%N] ++ flat_map ascii_escape_char s ++ [34%N].

Definition msg_out_of_range : pystr := txt "Out of range float values are not JSON compliant".

Section Dumps.
Context `{FloatRuntime}.

(** Whether every float in the value is finite. *)
Fixpoint all_finite (v : pyval) : bool :=
  match v with
  | PFloat f => float_finite f
  | PList xs => forallb all_finite xs
  | PDict kvs => forallb (fun kv => all_finite kv.2) kvs
  | _ => true
  end.

(** The text [json.dumps] produces for a value whose floats are finite. *)
Fixpoint dumps_text (v : pyval) : pystr :=
  match v with
  | PNone => txt "null"
  | PBool true => txt "true"
  | PBool false => txt "false"
  | PInt z => repr_int z
  | PFloat f => float_repr f
  | PStr s => encode_str s
  | PList xs => [91%N] ++ join (txt ", ") (map dumps_text xs) ++ [93%N]
  | PDict kvs =>
      [123%N] ++ join (txt ", ")
        (map (fun kv => encode_str kv.1 ++ txt ": " ++ dumps_text kv.2) kvs) ++ [125%N]
  end.

(** [json.dumps(v, allow_nan=False)] *)
Definition dumps (v : pyval) : outcome pystr :=
  if all_finite v then Returned (dumps_text v) else Raised (ValueError msg_out_of_range).

End Dumps.
