(* ===== verification/Store.v ===== *)
(** * Store: the [sessions] dict (src/main.py, line 28)

    [sessions: Dict[str, List[dict]]] maps a client-chosen session id to
    the list of turns of its conversation.  Every turn the program stores
    is a dict [{"role": r, "content": c}] with [r] one of ["system"],
    ["user"], ["assistant"]: a [turn] here, and [turn_dict] gives the dict.
    The store is a [gmap]; the five dict operations the handlers perform
    on it are below, with Python's [KeyError] as [None]. *)

From S2P Require Import Prelude PyText PyValue.

Inductive role : Type := System | User | Assistant.

#[export] Instance role_eq_dec : EqDecision role.
Proof. solve_decision. Defined.

(** The role strings of the source. *)
Definition role_str (r : role) : pystr :=
  match r with
  | System => txt "system"
  | User => txt "user"
  | Assistant => txt "assistant"
  end.

Record turn : Type := Turn { turn_role : role; turn_content : pystr }.

#[export] Instance turn_eq_dec : EqDecision turn.
Proof. solve_decision. Defined.

(** [{"role": r, "content": c}] *)
Definition turn_dict (t : turn) : pyval :=
  dict_of [(txt "role", PStr (role_str (turn_role t)));
           (txt "content", PStr (turn_content t))].

(** The list object [sessions[id]], as a Python value. *)
Definition turns_value (ts : list turn) : pyval := PList (map turn_dict ts).

Abbreviation store := (gmap pystr (list turn)).

(** ** The dict operations of the handlers *)

(** [id in sessions] (lines 132, 150) *)
Definition st_mem (sid : pystr) (st : store) : bool := bool_decide (is_Some (st !! sid)).

(** [sessions[id] = turns] (line 118) *)
Definition st_set (sid : pystr) (ts : list turn) (st : store) : store := <[sid := ts]> st.

(** [sessions[id]] (lines 200, 219); [None] is a [KeyError]. *)
Definition st_get (sid : pystr) (st : store) : option (list turn) := st !! sid.

(** [sessions[id].append(t)] (lines 136, 206); [None] is a [KeyError]. *)
Definition st_append (sid : pystr) (t : turn) (st : store) : option store :=
  match st !! sid with
  | Some ts => Some (<[sid := ts ++ [t]]> st)
  | None => None
  end.

(** [del sessions[id]] (line 185); [None] is a [KeyError]. *)
Definition st_del (sid : pystr) (st : store) : option store :=
  match st !! sid with
  | Some _ => Some (delete sid st)
  | None => None
  end.

(** ** Lemmas on the operations *)

Lemma st_mem_spec sid st : st_mem sid st = true <-> is_Some (st !! sid).
Proof. unfold st_mem. by rewrite bool_decide_eq_true. Qed.

Lemma st_mem_false sid st : st_mem sid st = false <-> st !! sid = None.
Proof. unfold st_mem. rewrite bool_decide_eq_false. by rewrite eq_None_not_Some. Qed.

Lemma st_append_Some sid t st ts :
  st !! sid = Some ts -> st_append sid t st = Some (<[sid := ts ++ [t]]> st).
Proof. intros H. unfold st_append. by rewrite H. Qed.

Lemma st_append_None sid t st : st !! sid = None -> st_append sid t st = None.
Proof. intros H. unfold st_append. by rewrite H. Qed.

Lemma st_del_Some sid st ts : st !! sid = Some ts -> st_del sid st = Some (delete sid st).
Proof. intros H. unfold st_del. by rewrite H. Qed.

Lemma st_del_None sid st : st !! sid = None -> st_del sid st = None.
Proof. intros H. unfold st_del. by rewrite H. Qed.

#[export] Hint Rewrite st_append_Some st_append_None st_del_Some st_del_None
  using assumption : checkin_rw.

Lemma st_mem_Some sid st ts : st !! sid = Some ts -> st_mem sid st = true.
Proof. intros Hs. apply st_mem_spec. by rewrite Hs. Qed.

Lemma st_mem_None sid st : st !! sid = None -> st_mem sid st = false.
Proof. intros Hs. by apply st_mem_false. Qed.

#[export] Hint Rewrite st_mem_Some st_mem_None using assumption : checkin_rw.
