(* ===== verification/Proc.v ===== *)
(** * Proc: the effects of a handler of [src/main.py]

    A handler is an [async def]: straight-line Python code that reads and
    writes the [sessions] dict, awaits the OpenAI client, calls
    [requests.post], and raises or catches exceptions.  A [proc] is the
    finite tree of those effects: [Ret] returns, [Raise] raises, and
    [Act a k] performs the action [a] and continues with [k] applied to its
    answer, whose type depends on the action ([answer]).  [bind] is the
    sequencing of statements (stdpp's [x ← p; k]) and [try_except] the
    [try ... except C as e] statement, catching the exceptions that
    [C] selects.

    [run] executes a tree against a store and a list of replies of the
    external services, in the order the calls are made, and returns the
    outcome, the final store and the calls made (the trace).  The
    concurrent semantics, in which a handler suspends at each model call,
    is in [Concurrency]. *)

From S2P Require Import Prelude PyText PyValue Json Store.

(** ** External calls *)

(** The arguments of [openai.ChatCompletion.acreate] (lines 198-203 and
    222-227); [temperature] is the float literal of the source. *)
Record chat_request : Type := ChatRequest {
  cr_model : pystr;
  cr_messages : list turn;
  cr_temperature : pystr;
  cr_max_tokens : Z
}.

(** The result of the call: the content of the first choice, or the
    exception the client library raises. *)
Inductive chat_outcome : Type :=
| ChatOk (content : pystr)
| ChatErr (e : exc).

(** What [requests.post] returns: the final response. *)
Record http_response : Type := HttpResponse {
  resp_status : Z;
  resp_reason : pystr;
  resp_url : pystr;
  resp_text : pystr
}.

(** [requests.post] returns a response or raises a transport error
    (connection error, timeout, invalid body), a [RequestException]. *)
Inductive post_outcome : Type :=
| PostOk (r : http_response)
| PostErr (msg : pystr).

(** ** Actions *)

Inductive store_op : Type :=
| OMem (sid : pystr)
| OSet (sid : pystr) (ts : list turn)
| OGet (sid : pystr)
| OAppend (sid : pystr) (t : turn)
| ODel (sid : pystr).

(** [OGet]: the list or a [KeyError] ([None]); [OAppend], [ODel]: [false]
    on a [KeyError]. *)
Definition op_answer (o : store_op) : Type :=
  match o with
  | OMem _ => bool
  | OSet _ _ => unit
  | OGet _ => option (list turn)
  | OAppend _ _ => bool
  | ODel _ => bool
  end.

(** The dict operations of [Store] as actions on the store. *)
Definition op_exec (o : store_op) (st : store) : op_answer o * store :=
  match o return op_answer o * store with
  | OMem sid => (st_mem sid st, st)
  | OSet sid ts => (tt, st_set sid ts st)
  | OGet sid => (st_get sid st, st)
  | OAppend sid t =>
      match st_append sid t st with Some st' => (true, st') | None => (false, st) end
  | ODel sid =>
      match st_del sid st with Some st' => (true, st') | None => (false, st) end
  end.

Inductive action : Type :=
| AStore (o : store_op)
| AChat (req : chat_request)
| APost (url : pystr) (body : pystr) (timeout : Z).

Definition answer (a : action) : Type :=
  match a with
  | AStore o => op_answer o
  | AChat _ => chat_outcome
  | APost _ _ _ => post_outcome
  end.

Inductive proc (A : Type) : Type :=
| Ret (v : A)
| Raise (e : exc)
| Act (a : action) (k : answer a -> proc A).

Arguments Ret {A}.
Arguments Raise {A}.
Arguments Act {A}.

Fixpoint proc_bind {A B} (f : A -> proc B) (p : proc A) : proc B :=
  match p with
  | Ret v => f v
  | Raise e => Raise e
  | Act a k => Act a (fun x => proc_bind f (k x))
  end.

#[export] Instance proc_ret : MRet proc := @Ret.
#[export] Instance proc_mbind : MBind proc := @proc_bind.

(** [try: p except C as e: h(e)], where [sel] decides [isinstance(e, C)]. *)
Fixpoint try_except {A} (sel : exc -> bool) (p : proc A) (h : exc -> proc A) : proc A :=
  match p with
  | Ret v => Ret v
  | Raise e => if sel e then h e else Raise e
  | Act a k => Act a (fun x => try_except sel (k x) h)
  end.

(** [except Exception]: every exception of the program. *)
Definition is_Exception (e : exc) : bool := true.

(** [except requests.exceptions.RequestException] *)
Definition is_RequestException (e : exc) : bool :=
  match e with RequestException _ => true | _ => false end.

(** ** The Python statements on [sessions] *)

(** [key in sessions] *)
Definition py_mem (sid : pystr) : proc bool := Act (AStore (OMem sid)) Ret.

(** [sessions[key] = ts] *)
Definition py_set (sid : pystr) (ts : list turn) : proc unit := Act (AStore (OSet sid ts)) Ret.

(** [sessions[key]] *)
Definition py_get (sid : pystr) : proc (list turn) :=
  Act (AStore (OGet sid)) (fun o =>
    match o with Some ts => Ret ts | None => Raise (KeyError sid) end).

(** [sessions[key].append(t)] *)
Definition py_append (sid : pystr) (t : turn) : proc unit :=
  Act (AStore (OAppend sid t)) (fun ok => if ok then Ret tt else Raise (KeyError sid)).

(** [del sessions[key]] *)
Definition py_del (sid : pystr) : proc unit :=
  Act (AStore (ODel sid)) (fun ok => if ok then Ret tt else Raise (KeyError sid)).

(** [await openai.ChatCompletion.acreate(...)]: the reply content, or the
    library's exception raised. *)
Definition py_chat (req : chat_request) : proc pystr :=
  Act (AChat req) (fun o => match o with ChatOk c => Ret c | ChatErr e => Raise e end).

(** The body [requests] sends for [json=body] ([PreparedRequest.prepare_body]):
    it encodes only when [json is not None], with
    [json.dumps(body, allow_nan=False)]; for [None] no body is sent, the
    empty text here. *)
Section Post.
Context `{UnicodeDB} `{FloatRuntime}.

Definition json_body (body : pyval) : outcome pystr :=
  match body with
  | PNone => Returned []
  | _ => dumps body
  end.

(** [requests.post(url, json=body, headers=..., timeout=t)]: the body is
    prepared first ([json_body]); a [ValueError] there becomes
    [InvalidJSONError(ve)], whose [str] is [str(ve)], and no request is
    sent.  The [Content-Type] header is constant and not kept. *)
Definition py_post (url : pystr) (body : pyval) (timeout : Z) : proc http_response :=
  match json_body body with
  | Raised ve => Raise (RequestException (exc_str ve))
  | Returned text =>
      Act (APost url text timeout) (fun o =>
        match o with PostOk r => Ret r | PostErr m => Raise (RequestException m) end)
  end.

End Post.

(** ** Sequential execution *)

(** A reply of an external service, and a call made to one. *)
Inductive reply : Type :=
| RChat (o : chat_outcome)
| RPost (o : post_outcome).

Inductive call : Type :=
| CallChat (req : chat_request)
| CallPost (url : pystr) (body : pystr) (timeout : Z).

(** Run [p] from store [st], answering the external calls with [rs] in
    order: the outcome, the final store, the calls made and the replies
    left; [None] when [rs] runs out or does not match a call. *)
Fixpoint run {A} (p : proc A) (st : store) (rs : list reply)
  : option (outcome A * store * list call * list reply) :=
  match p with
  | Ret v => Some (Returned v, st, [], rs)
  | Raise e => Some (Raised e, st, [], rs)
  | Act (AStore o) k => let '(x, st') := op_exec o st in run (k x) st' rs
  | Act (AChat req) k =>
      match rs with
      | RChat r :: rs' =>
          '(res, st', tr, rs'') ← run (k r) st rs'; Some (res, st', CallChat req :: tr, rs'')
      | _ => None
      end
  | Act (APost url body t) k =>
      match rs with
      | RPost r :: rs' =>
          '(res, st', tr, rs'') ← run (k r) st rs'; Some (res, st', CallPost url body t :: tr, rs'')
      | _ => None
      end
  end.

(** ** Running composite statements *)

(** Prefix a trace to the result of a run. *)
Definition add_calls {A} (tr : list call) (r : option (outcome A * store * list call * list reply))
  : option (outcome A * store * list call * list reply) :=
  '(o, st, tr', rs) ← r; Some (o, st, tr ++ tr', rs).

Lemma add_calls_nil {A} (r : option (outcome A * store * list call * list reply)) :
  add_calls [] r = r.
Proof. by destruct r as [[[[]]]|]. Qed.

Lemma add_calls_app {A} (tr1 tr2 : list call) (r : option (outcome A * store * list call * list reply)) :
  add_calls tr1 (add_calls tr2 r) = add_calls (tr1 ++ tr2) r.
Proof. destruct r as [[[[]]]|]; simpl; by rewrite ?app_assoc. Qed.

(** [x ← p; f x]: run [p], then [f] on its value from where [p] stopped. *)
Lemma run_bind {A B} (p : proc A) (f : A -> proc B) st rs :
  run (p ≫= f) st rs =
  match run p st rs with
  | Some (Returned v, st1, tr1, rs1) => add_calls tr1 (run (f v) st1 rs1)
  | Some (Raised e, st1, tr1, rs1) => Some (Raised e, st1, tr1, rs1)
  | None => None
  end.
Proof.
  revert st rs. induction p as [v|e|a k IH]; intros st rs; simpl.
  - by rewrite add_calls_nil.
  - done.
  - destruct a as [o|req|url body t]; simpl.
    + destruct (op_exec o st) as [x st']. apply IH.
    + destruct rs as [|[r|r] rs']; try done. cbn [mbind option_bind].
      rewrite IH. destruct (run (k r) st rs') as [[[[[v|e] st1] tr1] rs1]|]; simpl; try done.
      by rewrite <- (add_calls_app [CallChat req] tr1).
    + destruct rs as [|[r|r] rs']; try done. cbn [mbind option_bind].
      rewrite IH. destruct (run (k r) st rs') as [[[[[v|e] st1] tr1] rs1]|]; simpl; try done.
      by rewrite <- (add_calls_app [CallPost url body t] tr1).
Qed.

(** The same, for the instance as [simpl] leaves it. *)
Lemma run_proc_mbind {A B} (p : proc A) (f : A -> proc B) st rs :
  run (proc_mbind A B f p) st rs =
  match run p st rs with
  | Some (Returned v, st1, tr1, rs1) => add_calls tr1 (run (f v) st1 rs1)
  | Some (Raised e, st1, tr1, rs1) => Some (Raised e, st1, tr1, rs1)
  | None => None
  end.
Proof. apply run_bind. Qed.

(** [try: p except C as e: h(e)] *)
Lemma run_try_except {A} sel (p : proc A) h st rs :
  run (try_except sel p h) st rs =
  match run p st rs with
  | Some (Raised e, st1, tr1, rs1) =>
      if sel e then add_calls tr1 (run (h e) st1 rs1) else Some (Raised e, st1, tr1, rs1)
  | r => r
  end.
Proof.
  revert st rs. induction p as [v|e|a k IH]; intros st rs; simpl.
  - done.
  - destruct (sel e); [by rewrite add_calls_nil | done].
  - destruct a as [o|req|url body t]; simpl.
    + destruct (op_exec o st) as [x st']. apply IH.
    + destruct rs as [|[r|r] rs']; try done. cbn [mbind option_bind].
      rewrite IH. destruct (run (k r) st rs') as [[[[[v|e] st1] tr1] rs1]|]; simpl; try done.
      destruct (sel e); simpl; [|done]. by rewrite <- (add_calls_app [CallChat req] tr1).
    + destruct rs as [|[r|r] rs']; try done. cbn [mbind option_bind].
      rewrite IH. destruct (run (k r) st rs') as [[[[[v|e] st1] tr1] rs1]|]; simpl; try done.
      destruct (sel e); simpl; [|done]. by rewrite <- (add_calls_app [CallPost url body t] tr1).
Qed.
