(* ===== verification/Handlers.v ===== *)
(** * Handlers: the functions of [src/main.py] as effect trees

    One definition per function of the source, composed as the source
    composes them: [get_ai_response] (lines 196-212),
    [get_conversation_summary] (lines 214-234), and the three endpoints
    [start_chat] (lines 114-127), [send_message] (lines 129-145) and
    [submit_chat] (lines 147-194), with the webhook delivery of lines
    158-182 and [raise_for_status].  [respond] is what FastAPI sends for
    the outcome of an endpoint: the returned dict with status 200, or the
    status and [{"detail": ...}] of an [HTTPException].

    The section parameters are the runtime classes of [PyText] and
    [PyValue] and the two clock readings taken while [SUMMARY_SYSTEM_PROMPT]
    is built at import. *)

From S2P Require Import Prelude PyText PyValue Json Store Prompts Proc.

(** The request bodies (pydantic models, lines 106-111). *)
Record SessionRequest : Type := { sr_sessionId : pystr }.
Record MessageRequest : Type := { mr_sessionId : pystr; mr_message : pystr }.

(** The constants of the calls. *)
Definition MODEL : pystr := txt "gpt-3.5-turbo".
Definition TEMPERATURE : pystr := txt "0.7".
Definition WEBHOOK_URL : pystr := txt "https://n8n.ms.increff.com/webhook/weekly-checkin".

(** A dict with str values. *)
Definition str_dict (kvs : list (string * pyval)) : pyval :=
  dict_of (map (fun kv => (txt kv.1, kv.2)) kvs).

(** [raise HTTPException(status_code=code, detail=d)] *)
Definition http_error {A} (code : Z) (d : pyval) : proc A := Raise (HTTPException code d).

(** [Response.raise_for_status()] of [requests]: an [HTTPError] for the
    statuses 400 to 599. *)
Definition raise_for_status (r : http_response) : proc unit :=
  let s := resp_status r in
  if (400 <=? s)%Z && (s <? 500)%Z then
    Raise (RequestException (repr_int s ++ txt " Client Error: " ++ resp_reason r
                             ++ txt " for url: " ++ resp_url r))
  else if (500 <=? s)%Z && (s <? 600)%Z then
    Raise (RequestException (repr_int s ++ txt " Server Error: " ++ resp_reason r
                             ++ txt " for url: " ++ resp_url r))
  else mret tt.

(** A Python outcome as a statement: return the value or raise. *)
Definition of_outcome {A} (o : outcome A) : proc A :=
  match o with Returned v => Ret v | Raised e => Raise e end.

Section Handlers.
Context `{UnicodeDB} `{FloatRuntime}.

(** [get_ai_response(session_id)] *)
Definition get_ai_response (session_id : pystr) : proc pystr :=
  try_except is_Exception
    (messages ← py_get session_id;
     assistant_message ← py_chat (ChatRequest MODEL messages TEMPERATURE 500);
     py_append session_id (Turn Assistant assistant_message);;
     mret assistant_message)
    (fun e => Raise (Exception (txt "OpenAI API error: " ++ exc_str e))).

(** [start_chat(request)] *)
Definition start_chat (request : SessionRequest) : proc pyval :=
  let sid := sr_sessionId request in
  try_except is_Exception
    (py_set sid [Turn System CHAT_SYSTEM_PROMPT];;
     response ← get_ai_response sid;
     mret (str_dict [("status", PStr (txt "success")); ("message", PStr response)]))
    (fun e => http_error 500 (PStr (exc_str e))).

(** [send_message(request)] *)
Definition send_message (request : MessageRequest) : proc pyval :=
  let sid := mr_sessionId request in
  try_except is_Exception
    (present ← py_mem sid;
     (if (present : bool) then mret tt else http_error 404 (PStr (txt "Session not found")) : proc unit);;
     py_append sid (Turn User (mr_message request));;
     response ← get_ai_response sid;
     mret (str_dict [("status", PStr (txt "success")); ("message", PStr response)]))
    (fun e => http_error 500 (PStr (exc_str e))).

Variables date1 date2 : datetime.

(** [SUMMARY_SYSTEM_PROMPT] as evaluated at import. *)
Definition summary_prompt : pystr :=
  SUMMARY_SYSTEM_PROMPT (get_current_date_string date1) (get_current_date_string date2).

(** The request of lines 217-227, for the turns [ts] of the session. *)
Definition summary_request (ts : list turn) : chat_request :=
  ChatRequest MODEL
    [Turn System summary_prompt; Turn User (py_str (turns_value ts))]
    TEMPERATURE 1000.

(** [get_conversation_summary(session_id)] *)
Definition get_conversation_summary (session_id : pystr) : proc pyval :=
  try_except is_Exception
    (ts ← py_get session_id;
     summary_text ← py_chat (summary_request ts);
     of_outcome (loads (replace_char c_squote c_dquote summary_text)))
    (fun e => Raise (Exception (txt "Summary generation failed: " ++ exc_str e))).

(** The webhook delivery of lines 158-182. *)
Definition deliver (summary : pyval) : proc unit :=
  try_except is_RequestException
    (webhook_response ← py_post WEBHOOK_URL summary 10;
     raise_for_status webhook_response)
    (fun e => http_error 502
       (str_dict [("error", PStr (txt "Webhook delivery failed"));
                  ("message", PStr (exc_str e));
                  ("summary", summary)])).

(** [submit_chat(request)] *)
Definition submit_chat (request : SessionRequest) : proc pyval :=
  let sid := sr_sessionId request in
  try_except is_Exception
    (present ← py_mem sid;
     (if (present : bool) then mret tt else http_error 404 (PStr (txt "Session not found")) : proc unit);;
     summary ← get_conversation_summary sid;
     deliver summary;;
     py_del sid;;
     mret (str_dict [("status", PStr (txt "success")); ("summary", summary);
                     ("webhook_status", PStr (txt "delivered"))]))
    (fun e => http_error 500 (PStr (exc_str e))).

End Handlers.

(** ** The HTTP response *)

Record http_reply : Type := HttpReply { reply_status : Z; reply_body : pyval }.

(** What FastAPI sends for the outcome of an endpoint. *)
Definition respond (o : outcome pyval) : http_reply :=
  match o with
  | Returned v => HttpReply 200 v
  | Raised (HTTPException code d) => HttpReply code (str_dict [("detail", d)])
  | Raised _ => HttpReply 500 (PStr (txt "Internal Server Error"))
  end.

(** * Behaviour of the handlers *)

Section Behaviour.
Context `{UnicodeDB} `{FloatRuntime}.

(** The chat request of [get_ai_response] for the turns [ts]. *)
Definition chat_request_of (ts : list turn) : chat_request :=
  ChatRequest MODEL ts TEMPERATURE 500.

(** The 500 that the [except Exception] of an endpoint makes of [e]. *)
Definition error_500 (e : exc) : exc := HTTPException 500 (PStr (exc_str e)).

(** The success dict of [start_chat] and [send_message]. *)
Definition message_reply (c : pystr) : pyval :=
  str_dict [("status", PStr (txt "success")); ("message", PStr c)].

(** The success dict of [submit_chat]. *)
Definition submit_reply (summary : pyval) : pyval :=
  str_dict [("status", PStr (txt "success")); ("summary", summary);
            ("webhook_status", PStr (txt "delivered"))].

(** What [get_ai_response] does once its model call is answered by [rs]:
    the reply is appended as an assistant turn and returned, or the error
    is re-raised as [Exception("OpenAI API error: ...")] with the store
    unchanged; without an answer the run is stuck. *)
Definition ai_result (sid : pystr) (ts : list turn) (st : store) (rs : list reply)
  : option (outcome pystr * store * list call * list reply) :=
  match rs with
  | RChat (ChatOk c) :: rs' =>
      Some (Returned c, <[sid := ts ++ [Turn Assistant c]]> st, [CallChat (chat_request_of ts)], rs')
  | RChat (ChatErr e) :: rs' =>
      Some (Raised (Exception (txt "OpenAI API error: " ++ exc_str e)), st,
            [CallChat (chat_request_of ts)], rs')
  | _ => None
  end.

(** [get_ai_response] on a session holding [ts]: one model call with the
    whole turn list. *)
Lemma run_get_ai_response sid ts st rs :
  st !! sid = Some ts ->
  run (get_ai_response sid) st rs = ai_result sid ts st rs.
Proof.
  intros Hs. unfold get_ai_response. simpl. unfold st_get. rewrite Hs. simpl.
  destruct rs as [|[[c|e]|o] rs]; simpl; try done.
  by rewrite (st_append_Some _ _ _ _ Hs).
Qed.

(** The whole of [start_chat]: the session is reset to the system prompt,
    then the model is asked. *)
Definition start_chat_spec (req : SessionRequest) (st : store) (rs : list reply)
  : option (outcome pyval * store * list call * list reply) :=
  let sid := sr_sessionId req in
  let ts0 := [Turn System CHAT_SYSTEM_PROMPT] in
  '(o, st', tr, rs') ← ai_result sid ts0 (<[sid := ts0]> st) rs;
  Some (match o with
        | Returned c => Returned (message_reply c)
        | Raised e => Raised (error_500 e)
        end, st', tr, rs').

(** The whole of [send_message]. *)
Definition send_message_spec (req : MessageRequest) (st : store) (rs : list reply)
  : option (outcome pyval * store * list call * list reply) :=
  let sid := mr_sessionId req in
  match st !! sid with
  | None => Some (Raised (error_500 (HTTPException 404 (PStr (txt "Session not found")))), st, [], rs)
  | Some ts =>
      let ts1 := ts ++ [Turn User (mr_message req)] in
      '(o, st', tr, rs') ← ai_result sid ts1 (<[sid := ts1]> st) rs;
      Some (match o with
            | Returned c => Returned (message_reply c)
            | Raised e => Raised (error_500 e)
            end, st', tr, rs')
  end.

End Behaviour.

(** ** [start_chat] and [send_message] *)

Section Conversation.
Context `{UnicodeDB} `{FloatRuntime}.
Local Opaque get_ai_response.

Lemma start_chat_correct req st rs :
  run (start_chat req) st rs = start_chat_spec req st rs.
Proof.
  unfold start_chat, start_chat_spec. simpl. unfold st_set.
  rewrite run_try_except, run_proc_mbind.
  rewrite (run_get_ai_response _ [Turn System CHAT_SYSTEM_PROMPT]) by apply lookup_insert_eq.
  unfold ai_result. by destruct rs as [|[[c|e]|o] rs].
Qed.

Lemma send_message_correct req st rs :
  run (send_message req) st rs = send_message_spec req st rs.
Proof.
  unfold send_message, send_message_spec. simpl.
  destruct (st !! mr_sessionId req) as [ts|] eqn:Hs.
  - rewrite (st_mem_Some _ _ _ Hs). simpl. rewrite (st_append_Some _ _ _ _ Hs). simpl.
    rewrite run_try_except, run_proc_mbind.
    rewrite (run_get_ai_response _ (ts ++ [Turn User (mr_message req)])) by apply lookup_insert_eq.
    unfold ai_result. by destruct rs as [|[[c|e]|o] rs].
  - by rewrite (st_mem_None _ _ Hs).
Qed.

(** C5. [start_chat] with a model reply [c]: whatever the store held under
    the id (nothing, or a whole earlier conversation), the session becomes
    exactly the system prompt followed by the reply; the model was sent
    the system prompt alone; the response is [{"status": "success",
    "message": c}].  No other session changes. *)
Theorem start_chat_ok req c st rs :
  run (start_chat req) st (RChat (ChatOk c) :: rs) =
  Some (Returned (message_reply c),
        <[sr_sessionId req := [Turn System CHAT_SYSTEM_PROMPT; Turn Assistant c]]> st,
        [CallChat (chat_request_of [Turn System CHAT_SYSTEM_PROMPT])], rs).
Proof. rewrite start_chat_correct. unfold start_chat_spec, ai_result. by rewrite insert_insert_eq. Qed.

(** C6. [start_chat] when the model call fails: the response is a 500, and
    the session id is left bound to the system prompt alone, so an earlier
    conversation under the same id is lost although the request failed. *)
Theorem start_chat_model_error req e st rs :
  run (start_chat req) st (RChat (ChatErr e) :: rs) =
  Some (Raised (error_500 (Exception (txt "OpenAI API error: " ++ exc_str e))),
        <[sr_sessionId req := [Turn System CHAT_SYSTEM_PROMPT]]> st,
        [CallChat (chat_request_of [Turn System CHAT_SYSTEM_PROMPT])], rs).
Proof. by rewrite start_chat_correct. Qed.

(** C1. [send_message] on an id that is not in [sessions]: the 404 raised
    inside the [try] is caught by [except Exception] and re-raised as a 500
    whose detail is ["404: Session not found"]; no model call is made and
    the store is unchanged. *)
Theorem send_message_unknown_session req st rs :
  st !! mr_sessionId req = None ->
  run (send_message req) st rs =
  Some (Raised (error_500 (HTTPException 404 (PStr (txt "Session not found")))), st, [], rs).
Proof. intros Hs. by rewrite send_message_correct; unfold send_message_spec; rewrite Hs. Qed.

(** C3. [send_message] on a session holding [ts], with a model reply [c]:
    the model is sent [ts] followed by the user's message, the session
    becomes [ts ++ [user message; assistant reply]], and the response is
    [{"status": "success", "message": c}]. *)
Theorem send_message_ok req ts c st rs :
  st !! mr_sessionId req = Some ts ->
  run (send_message req) st (RChat (ChatOk c) :: rs) =
  Some (Returned (message_reply c),
        <[mr_sessionId req := ts ++ [Turn User (mr_message req); Turn Assistant c]]> st,
        [CallChat (chat_request_of (ts ++ [Turn User (mr_message req)]))], rs).
Proof.
  intros Hs. rewrite send_message_correct; unfold send_message_spec; rewrite Hs; simpl.
  by rewrite insert_insert_eq, <- app_assoc.
Qed.

(** C4. [send_message] when the model call fails: the response is a 500,
    but the user's turn appended before the call stays in the session. *)
Theorem send_message_model_error req ts e st rs :
  st !! mr_sessionId req = Some ts ->
  run (send_message req) st (RChat (ChatErr e) :: rs) =
  Some (Raised (error_500 (Exception (txt "OpenAI API error: " ++ exc_str e))),
        <[mr_sessionId req := ts ++ [Turn User (mr_message req)]]> st,
        [CallChat (chat_request_of (ts ++ [Turn User (mr_message req)]))], rs).
Proof. intros Hs. by rewrite send_message_correct; unfold send_message_spec; rewrite Hs. Qed.

End Conversation.

(** ** The summarizer, the delivery and [submit_chat] *)

Section Submission.
Context `{UnicodeDB} `{FloatRuntime}.
Variables date1 date2 : datetime.

(** What [get_conversation_summary] makes of the model's answer: the
    decoded reply after quote normalisation, or the failure wrapped as
    [Exception("Summary generation failed: ...")]. *)
Definition summary_of_reply (o : chat_outcome) : outcome pyval :=
  match o with
  | ChatOk text =>
      match loads (replace_char c_squote c_dquote text) with
      | Returned v => Returned v
      | Raised e => Raised (Exception (txt "Summary generation failed: " ++ exc_str e))
      end
  | ChatErr e => Raised (Exception (txt "Summary generation failed: " ++ exc_str e))
  end.

(** The message of the [HTTPError] of [raise_for_status]. *)
Definition http_error_msg (r : http_response) : pystr :=
  repr_int (resp_status r)
    ++ (if (resp_status r <? 500)%Z then txt " Client Error: " else txt " Server Error: ")
    ++ resp_reason r ++ txt " for url: " ++ resp_url r.

(** The detail of the 502 of lines 175-182. *)
Definition webhook_detail (summary : pyval) (msg : pystr) : pyval :=
  str_dict [("error", PStr (txt "Webhook delivery failed"));
            ("message", PStr msg); ("summary", summary)].

(** What [get_conversation_summary] does once its model call is answered:
    the store is not touched. *)
Definition summary_result (ts : list turn) (rs : list reply)
  : option (outcome pyval * list call * list reply) :=
  match rs with
  | RChat o :: rs' => Some (summary_of_reply o, [CallChat (summary_request date1 date2 ts)], rs')
  | _ => None
  end.

(** [get_conversation_summary] on a session holding [ts]: one model call,
    with the summary request for [ts], and the store is not changed. *)
Lemma run_get_conversation_summary sid ts st rs :
  st !! sid = Some ts ->
  run (get_conversation_summary date1 date2 sid) st rs =
  '(o, tr, rs') ← summary_result ts rs; Some (o, st, tr, rs').
Proof.
  intros Hs. unfold get_conversation_summary. simpl. unfold st_get. rewrite Hs. simpl.
  destruct rs as [|[[text|e]|o] rs]; simpl; try done.
  by destruct (loads (replace_char c_squote c_dquote text)).
Qed.

(** [raise_for_status] by cases on the status, for the delivery proofs. *)
Lemma raise_for_status_cases r :
  raise_for_status r =
  if (400 <=? resp_status r)%Z && (resp_status r <? 600)%Z
  then Raise (RequestException (http_error_msg r)) else mret tt.
Proof.
  unfold raise_for_status, http_error_msg.
  destruct (Z.leb_spec 400 (resp_status r)), (Z.ltb_spec (resp_status r) 500),
    (Z.leb_spec 500 (resp_status r)), (Z.ltb_spec (resp_status r) 600); simpl; try done; lia.
Qed.

(** Whether the webhook's answer makes [raise_for_status] raise. *)
Definition status_fails (r : http_response) : bool :=
  (400 <=? resp_status r)%Z && (resp_status r <? 600)%Z.

(** What the delivery of [summary] does: an unserialisable summary raises
    the 502 without a request; otherwise one POST of its JSON text, and a
    failing status or a transport error raises the 502.  The store is not
    touched. *)
Definition deliver_result (summary : pyval) (rs : list reply)
  : option (outcome unit * list call * list reply) :=
  match json_body summary with
  | Raised ve => Some (Raised (HTTPException 502 (webhook_detail summary (exc_str ve))), [], rs)
  | Returned text =>
      match rs with
      | RPost (PostOk r) :: rs' =>
          Some (if status_fails r
                then Raised (HTTPException 502 (webhook_detail summary (http_error_msg r)))
                else Returned tt, [CallPost WEBHOOK_URL text 10], rs')
      | RPost (PostErr m) :: rs' =>
          Some (Raised (HTTPException 502 (webhook_detail summary m)), [CallPost WEBHOOK_URL text 10], rs')
      | _ => None
      end
  end.

Lemma run_deliver summary st rs :
  run (deliver summary) st rs = '(o, tr, rs') ← deliver_result summary rs; Some (o, st, tr, rs').
Proof.
  unfold deliver, deliver_result, py_post. destruct (json_body summary) as [text|ve]; simpl; [|done].
  destruct rs as [|[o|[r|m]] rs]; simpl; try done.
  rewrite raise_for_status_cases. unfold status_fails. by destruct (_ && _).
Qed.

(** The whole of [submit_chat]. *)
Definition submit_chat_spec (req : SessionRequest) (st : store) (rs : list reply)
  : option (outcome pyval * store * list call * list reply) :=
  let sid := sr_sessionId req in
  match st !! sid with
  | None => Some (Raised (error_500 (HTTPException 404 (PStr (txt "Session not found")))), st, [], rs)
  | Some ts =>
      '(o1, tr1, rs1) ← summary_result ts rs;
      match o1 with
      | Raised e => Some (Raised (error_500 e), st, tr1, rs1)
      | Returned v =>
          '(o2, tr2, rs2) ← deliver_result v rs1;
          match o2 with
          | Raised e => Some (Raised (error_500 e), st, tr1 ++ tr2, rs2)
          | Returned _ => Some (Returned (submit_reply v), delete sid st, tr1 ++ tr2, rs2)
          end
      end
  end.

Local Opaque get_conversation_summary deliver.

Lemma submit_chat_correct req st rs :
  run (submit_chat date1 date2 req) st rs = submit_chat_spec req st rs.
Proof.
  unfold submit_chat, submit_chat_spec. simpl.
  destruct (st !! sr_sessionId req) as [ts|] eqn:Hs; [|by rewrite (st_mem_None _ _ Hs)].
  rewrite (st_mem_Some _ _ _ Hs). simpl.
  rewrite run_try_except, run_proc_mbind, (run_get_conversation_summary _ ts) by done.
  destruct (summary_result ts rs) as [[[[v|e] tr1] rs1]|]; simpl; [|by rewrite app_nil_r|done].
  rewrite run_proc_mbind, run_deliver.
  destruct (deliver_result v rs1) as [[[[[]|e] tr2] rs2]|]; simpl; [|by rewrite app_nil_r|done].
  rewrite (st_del_Some _ _ _ Hs). simpl. by rewrite !app_nil_r.
Qed.

(** C2. [submit_chat] on an id that is not in [sessions]: a 500 whose
    detail is ["404: Session not found"], no call, the store unchanged. *)
Theorem submit_chat_unknown_session req st rs :
  st !! sr_sessionId req = None ->
  run (submit_chat date1 date2 req) st rs =
  Some (Raised (error_500 (HTTPException 404 (PStr (txt "Session not found")))), st, [], rs).
Proof. intros Hs. by rewrite submit_chat_correct; unfold submit_chat_spec; rewrite Hs. Qed.

(** C7. [submit_chat] on a session holding [ts] when the summary decodes
    to [v] and the webhook answers with any status [raise_for_status]
    lets through (below 400, or 600 and above): the model was sent the
    summary request for [ts], the webhook the body [requests] makes of
    [v] (its JSON text, nothing for [None]); the session is deleted and
    the response carries [v]. *)
Theorem submit_chat_delivered req ts text v body r st rs :
  st !! sr_sessionId req = Some ts ->
  summary_of_reply (ChatOk text) = Returned v ->
  json_body v = Returned body ->
  (resp_status r < 400 \/ 600 <= resp_status r)%Z ->
  run (submit_chat date1 date2 req) st (RChat (ChatOk text) :: RPost (PostOk r) :: rs) =
  Some (Returned (submit_reply v), delete (sr_sessionId req) st,
        [CallChat (summary_request date1 date2 ts); CallPost WEBHOOK_URL body 10], rs).
Proof.
  intros Hs Hv Hd Hr. rewrite submit_chat_correct. unfold submit_chat_spec, summary_result.
  rewrite Hs, Hv. simpl. unfold deliver_result. rewrite Hd. unfold status_fails.
  replace ((400 <=? resp_status r)%Z && (resp_status r <? 600)%Z) with false
    by (symmetry; apply andb_false_iff; destruct Hr; [left; apply Z.leb_gt | right; apply Z.ltb_ge]; lia).
  done.
Qed.

(** C8. [submit_chat] when the webhook answers with a status from 400 to
    599: the 502 raised for it inside the outer [try] is caught by
    [except Exception] and becomes a 500 whose detail is the text
    ["502: "] followed by the [repr] of the dict holding the summary; the
    webhook was sent the body [requests] makes of [v]; the session is not
    deleted. *)
Theorem submit_chat_webhook_rejected req ts text v body r st rs :
  st !! sr_sessionId req = Some ts ->
  summary_of_reply (ChatOk text) = Returned v ->
  json_body v = Returned body ->
  (400 <= resp_status r < 600)%Z ->
  run (submit_chat date1 date2 req) st (RChat (ChatOk text) :: RPost (PostOk r) :: rs) =
  Some (Raised (error_500 (HTTPException 502 (webhook_detail v (http_error_msg r)))), st,
        [CallChat (summary_request date1 date2 ts); CallPost WEBHOOK_URL body 10], rs).
Proof.
  intros Hs Hv Hd Hr. rewrite submit_chat_correct. unfold submit_chat_spec, summary_result.
  rewrite Hs, Hv. simpl. unfold deliver_result. rewrite Hd. unfold status_fails.
  replace ((400 <=? resp_status r)%Z && (resp_status r <? 600)%Z) with true
    by (symmetry; apply andb_true_iff; split; [apply Z.leb_le | apply Z.ltb_lt]; lia).
  done.
Qed.

(** C9. [submit_chat] when the summary cannot be produced (the model call
    fails or its reply does not decode): a 500 carrying the summarizer's
    message, no webhook call, the session kept. *)
Theorem submit_chat_summary_failed req ts o e st rs :
  st !! sr_sessionId req = Some ts ->
  summary_of_reply o = Raised e ->
  run (submit_chat date1 date2 req) st (RChat o :: rs) =
  Some (Raised (error_500 e), st, [CallChat (summary_request date1 date2 ts)], rs).
Proof.
  intros Hs He. rewrite submit_chat_correct. unfold submit_chat_spec, summary_result.
  by rewrite Hs, He.
Qed.

End Submission.

(** ** Witnesses *)

Section Witnesses.
Local Existing Instances Latin1DB LexemeFloats.

Definition w_sid : pystr := txt "s1".
Definition w_turns : list turn := [Turn System CHAT_SYSTEM_PROMPT; Turn Assistant (txt "Client name?")].
Definition w_store : store := <[w_sid := w_turns]> ∅.
Definition w_date : datetime := DateTime 2024 5 7.
Definition w_reply : pystr := txt "{'client': 'Acme', 'date': 'May 07, 2024'}".
Definition w_summary : pyval :=
  PDict [(txt "client", PStr (txt "Acme")); (txt "date", PStr (txt "May 07, 2024"))].
Definition w_body : pystr := dumps_text w_summary.

Lemma send_message_unknown_session_witness :
  run (send_message {| mr_sessionId := txt "zz"; mr_message := txt "hi" |}) w_store [] =
  Some (Raised (error_500 (HTTPException 404 (PStr (txt "Session not found")))), w_store, [], []).
Proof. apply send_message_unknown_session. reflexivity. Defined.

Lemma send_message_ok_witness :
  run (send_message {| mr_sessionId := w_sid; mr_message := txt "Acme" |}) w_store
      [RChat (ChatOk (txt "Activities?"))] =
  Some (Returned (message_reply (txt "Activities?")),
        <[w_sid := w_turns ++ [Turn User (txt "Acme"); Turn Assistant (txt "Activities?")]]> w_store,
        [CallChat (chat_request_of (w_turns ++ [Turn User (txt "Acme")]))], []).
Proof. apply (send_message_ok {| mr_sessionId := w_sid; mr_message := txt "Acme" |}). reflexivity. Defined.

Lemma send_message_model_error_witness :
  run (send_message {| mr_sessionId := w_sid; mr_message := txt "Acme" |}) w_store
      [RChat (ChatErr (ServiceError (txt "timeout")))] =
  Some (Raised (error_500 (Exception (txt "OpenAI API error: " ++ txt "timeout"))),
        <[w_sid := w_turns ++ [Turn User (txt "Acme")]]> w_store,
        [CallChat (chat_request_of (w_turns ++ [Turn User (txt "Acme")]))], []).
Proof. apply (send_message_model_error {| mr_sessionId := w_sid; mr_message := txt "Acme" |}). reflexivity. Defined.

Lemma submit_chat_unknown_session_witness :
  run (submit_chat w_date w_date {| sr_sessionId := txt "zz" |}) w_store [] =
  Some (Raised (error_500 (HTTPException 404 (PStr (txt "Session not found")))), w_store, [], []).
Proof. apply submit_chat_unknown_session. reflexivity. Defined.

(** The model answers [null]: the summary is [None], which [requests]
    posts with no body. *)
Lemma submit_chat_delivered_witness :
  run (submit_chat w_date w_date {| sr_sessionId := w_sid |}) w_store
      [RChat (ChatOk (txt "null")); RPost (PostOk (HttpResponse 204 (txt "No Content") WEBHOOK_URL []))] =
  Some (Returned (submit_reply PNone), delete w_sid w_store,
        [CallChat (summary_request w_date w_date w_turns); CallPost WEBHOOK_URL [] 10], []).
Proof. apply (submit_chat_delivered w_date w_date {| sr_sessionId := w_sid |} w_turns); [reflexivity | vm_compute; reflexivity | reflexivity | simpl; lia]. Defined.

Lemma submit_chat_webhook_rejected_witness :
  let r := HttpResponse 500 (txt "Internal Server Error") WEBHOOK_URL (txt "") in
  run (submit_chat w_date w_date {| sr_sessionId := w_sid |}) w_store
      [RChat (ChatOk w_reply); RPost (PostOk r)] =
  Some (Raised (error_500 (HTTPException 502 (webhook_detail w_summary (http_error_msg r)))), w_store,
        [CallChat (summary_request w_date w_date w_turns); CallPost WEBHOOK_URL w_body 10], []).
Proof. apply (submit_chat_webhook_rejected w_date w_date {| sr_sessionId := w_sid |} w_turns); [reflexivity | vm_compute; reflexivity | reflexivity | simpl; lia]. Defined.

Lemma submit_chat_summary_failed_witness :
  run (submit_chat w_date w_date {| sr_sessionId := w_sid |}) w_store
      [RChat (ChatOk (txt "Sure! Here is the summary."))] =
  Some (Raised (error_500 (Exception (txt "Summary generation failed: Expecting value: line 1 column 1 (char 0)"))),
        w_store, [CallChat (summary_request w_date w_date w_turns)], []).
Proof. apply (submit_chat_summary_failed w_date w_date {| sr_sessionId := w_sid |} w_turns); [reflexivity | vm_compute; reflexivity]. Defined.

End Witnesses.
