(* ===== verification/Lifecycle.v ===== *)
(** * Lifecycle: the session invariant and the session lifecycle

    The store invariant [wf_store]: every session starts with the chat
    system prompt, has no other system turn, and never holds two assistant
    turns in a row.  Every endpoint preserves it, whatever the services
    answer, so every store reachable from the empty one by a sequence of
    requests satisfies it ([reach]).  From it follows the ordering promised
    by the spec: in every prefix of a conversation the assistant turns
    outnumber the user turns by at most one.

    The lifecycle: abstracting a store to the phase of each id ([Absent] or
    [Active], [phase_of]), each endpoint moves the phase of its own id as
    [lifecycle_step] says and leaves the others alone. *)

From S2P Require Import Prelude PyText PyValue Json Store Prompts Proc Handlers.

(** ** The session invariant *)

Definition is_role (r : role) (t : turn) : bool :=
  match r, turn_role t with
  | System, System | User, User | Assistant, Assistant => true
  | _, _ => false
  end.

(** No two consecutive assistant turns. *)
Fixpoint no_double_assistant (l : list turn) : bool :=
  match l with
  | t1 :: ((t2 :: _) as r) =>
      negb (is_role Assistant t1 && is_role Assistant t2) && no_double_assistant r
  | _ => true
  end.

Definition wf_session (ts : list turn) : bool :=
  match ts with
  | t :: rest =>
      bool_decide (t = Turn System CHAT_SYSTEM_PROMPT)
      && forallb (fun u => negb (is_role System u)) rest
      && no_double_assistant rest
  | [] => false
  end.

Definition wf_store (st : store) : Prop := map_Forall (fun _ ts => wf_session ts = true) st.

Lemma nda_snoc_user (l : list turn) m :
  no_double_assistant (l ++ [Turn User m]) = no_double_assistant l.
Proof.
  induction l as [|t1 l IH]; [done|]. destruct l as [|t2 l].
  - by destruct t1 as [[] ?].
  - change (negb (is_role Assistant t1 && is_role Assistant t2)
            && no_double_assistant ((t2 :: l) ++ [Turn User m])
            = negb (is_role Assistant t1 && is_role Assistant t2)
            && no_double_assistant (t2 :: l)). by rewrite IH.
Qed.

Lemma nda_snoc_exchange (l : list turn) m c :
  no_double_assistant (l ++ [Turn User m; Turn Assistant c]) = no_double_assistant l.
Proof.
  induction l as [|t1 l IH]; [done|]. destruct l as [|t2 l].
  - by destruct t1 as [[] ?].
  - change (negb (is_role Assistant t1 && is_role Assistant t2)
            && no_double_assistant ((t2 :: l) ++ [Turn User m; Turn Assistant c])
            = negb (is_role Assistant t1 && is_role Assistant t2)
            && no_double_assistant (t2 :: l)). by rewrite IH.
Qed.

Lemma wf_session_snoc_user ts m :
  wf_session ts = true -> wf_session (ts ++ [Turn User m]) = true.
Proof.
  destruct ts as [|t rest]; [done|]. simpl.
  rewrite forallb_app, nda_snoc_user. simpl. by rewrite andb_true_r.
Qed.

Lemma wf_session_snoc_exchange ts m c :
  wf_session ts = true -> wf_session (ts ++ [Turn User m; Turn Assistant c]) = true.
Proof.
  destruct ts as [|t rest]; [done|]. simpl.
  rewrite forallb_app, nda_snoc_exchange. simpl. by rewrite andb_true_r.
Qed.

Lemma wf_session_start : wf_session [Turn System CHAT_SYSTEM_PROMPT] = true.
Proof. done. Qed.

Lemma wf_session_start_reply c :
  wf_session [Turn System CHAT_SYSTEM_PROMPT; Turn Assistant c] = true.
Proof. done. Qed.

#[export] Hint Resolve wf_session_snoc_user wf_session_snoc_exchange
  wf_session_start wf_session_start_reply : checkin.

Lemma wf_store_insert st sid ts :
  wf_store st -> wf_session ts = true -> wf_store (<[sid := ts]> st).
Proof. intros. by apply map_Forall_insert_2. Qed.

Lemma wf_store_delete st sid : wf_store st -> wf_store (delete sid st).
Proof. intros. by apply map_Forall_delete. Qed.

#[export] Hint Resolve wf_store_insert wf_store_delete : checkin.

(** The result store of a run. *)
Definition res_store {A} (r : outcome A * store * list call * list reply) : store := r.1.1.2.

Section Preservation.
Context `{UnicodeDB} `{FloatRuntime}.
Variables date1 date2 : datetime.

Lemma start_chat_wf req st rs res :
  run (start_chat req) st rs = Some res -> wf_store st -> wf_store (res_store res).
Proof.
  rewrite start_chat_correct. unfold start_chat_spec, ai_result.
  destruct rs as [|[[c|e]|o] rs]; simpl; intros Hr Hwf; simplify_eq; cbn [res_store fst snd];
    rewrite ?insert_insert_eq; auto with checkin.
Qed.

Lemma send_message_wf req st rs res :
  run (send_message req) st rs = Some res -> wf_store st -> wf_store (res_store res).
Proof.
  rewrite send_message_correct. unfold send_message_spec, ai_result.
  destruct (st !! mr_sessionId req) as [ts|] eqn:Hs; [|intros ? ?; by simplify_eq].
  intros Hr Hwf. pose proof (map_Forall_lookup_1 _ _ _ _ Hwf Hs) as Hts. simpl in Hts.
  destruct rs as [|[[c|e]|o] rs]; simpl in Hr; simplify_eq; cbn [res_store fst snd];
    rewrite ?insert_insert_eq, <- ?app_assoc; cbn [app]; auto with checkin.
Qed.

Lemma submit_chat_wf req st rs res :
  run (submit_chat date1 date2 req) st rs = Some res -> wf_store st -> wf_store (res_store res).
Proof.
  rewrite submit_chat_correct. unfold submit_chat_spec.
  destruct (st !! sr_sessionId req); [|intros ? ?; by simplify_eq].
  destruct (summary_result _ _ _ _) as [[[[v|e] tr1] rs1]|]; simpl; [|intros ? ?; by simplify_eq..].
  destruct (deliver_result v rs1) as [[[[[]|e] tr2] rs2]|]; simpl; intros ? ?; simplify_eq;
    cbn [res_store fst snd]; auto with checkin.
Qed.

End Preservation.

(** ** Turn order *)

Fixpoint count_role (r : role) (l : list turn) : nat :=
  match l with
  | [] => 0
  | t :: l' => (if is_role r t then 1 else 0) + count_role r l'
  end.

(** Without system turns and without two assistant turns in a row, the
    assistant turns outnumber the user turns by at most one, and not at
    all when the list does not start with an assistant turn. *)
Lemma nda_count (l : list turn) :
  forallb (fun u => negb (is_role System u)) l = true ->
  no_double_assistant l = true ->
  count_role Assistant l <= count_role User l + 1 ∧
  (is_role Assistant (hd (Turn User []) l) = false -> count_role Assistant l <= count_role User l).
Proof.
  induction l as [|t l IH]; intros Hsys Hnda; [simpl; lia|].
  simpl in Hsys. apply andb_true_iff in Hsys as [Ht Hsys].
  assert (Hnda' : no_double_assistant l = true).
  { destruct l as [|t2 l]; [done|]. simpl in Hnda. by apply andb_true_iff in Hnda as [_ ?]. }
  destruct (IH Hsys Hnda') as [IH1 IH2].
  destruct t as [[] c]; simpl in *; [discriminate|lia|].
  destruct l as [|t2 l]; simpl in *; [lia|].
  destruct t2 as [[] c2]; simpl in *; [discriminate| |discriminate].
  specialize (IH2 eq_refl). split; [lia|discriminate].
Qed.

Lemma nda_take (l : list turn) k :
  no_double_assistant l = true -> no_double_assistant (take k l) = true.
Proof.
  revert k. induction l as [|t1 l IH]; intros k H; [by rewrite take_nil|].
  destruct k as [|k]; [done|]. simpl.
  destruct l as [|t2 l]; [by rewrite take_nil|].
  simpl in H. apply andb_true_iff in H as [H1 H2].
  specialize (IH k H2). destruct k as [|k]; [done|]. simpl in *. by rewrite H1, IH.
Qed.

(** ** Request sequences *)

(** A request to one of the three endpoints. *)
Inductive request : Type :=
| ReqStart (r : SessionRequest)
| ReqMessage (r : MessageRequest)
| ReqSubmit (r : SessionRequest).

(** The session id a request addresses. *)
Definition target (q : request) : pystr :=
  match q with
  | ReqStart r => sr_sessionId r
  | ReqMessage r => mr_sessionId r
  | ReqSubmit r => sr_sessionId r
  end.

Definition res_outcome {A} (r : outcome A * store * list call * list reply) : outcome A := r.1.1.1.

Section Sequences.
Context `{UnicodeDB} `{FloatRuntime}.
Variables date1 date2 : datetime.

(** The endpoint that serves a request. *)
Definition handler (q : request) : proc pyval :=
  match q with
  | ReqStart r => start_chat r
  | ReqMessage r => send_message r
  | ReqSubmit r => submit_chat date1 date2 r
  end.

(** The stores reachable from the empty [sessions] of import time by
    requests served one after the other, whatever the services answer. *)
Inductive reach : store -> Prop :=
| reach_init : reach ∅
| reach_step st q rs res :
    reach st -> run (handler q) st rs = Some res -> reach (res_store res).

Lemma handler_wf q st rs res :
  run (handler q) st rs = Some res -> wf_store st -> wf_store (res_store res).
Proof.
  destruct q; simpl; [apply start_chat_wf | apply send_message_wf | apply submit_chat_wf].
Qed.

Lemma reach_wf st : reach st -> wf_store st.
Proof.
  induction 1 as [|st q rs res _ IH Hrun].
  - apply map_Forall_empty.
  - by apply (handler_wf q st rs res).
Qed.

(** C10. Every reachable store satisfies the session invariant: each
    session starts with the chat system prompt, holds no other system turn
    and never two assistant turns in a row. *)
Theorem reach_wf_store st : reach st -> wf_store st.
Proof.
  induction 1 as [|st q rs res _ IH Hrun].
  - apply map_Forall_empty.
  - by apply (handler_wf q st rs res).
Qed.

End Sequences.

Section Order.
Context `{UnicodeDB} `{FloatRuntime}.
Variables date1 date2 : datetime.

(** C11. In every reachable store, in every prefix of a conversation, the
    assistant turns outnumber the user turns by at most one (the one
    greeting of [start_chat]): each assistant turn after the first answers
    a user turn. *)
Theorem reach_turn_order st sid ts k :
  reach date1 date2 st -> st !! sid = Some ts ->
  (count_role Assistant (take k ts) <= count_role User (take k ts) + 1)%nat.
Proof.
  intros Hr Hs. pose proof (map_Forall_lookup_1 _ _ _ _ (reach_wf _ _ _ Hr) Hs) as Hwf.
  simpl in Hwf. destruct ts as [|t rest]; [done|].
  apply andb_true_iff in Hwf as [Hwf Hnda]. apply andb_true_iff in Hwf as [Ht Hsys].
  apply bool_decide_eq_true in Ht. subst t.
  destruct k as [|k]; [simpl; lia|]. simpl.
  refine (proj1 (nda_count (take k rest) _ (nda_take rest k Hnda))).
  rewrite <- (take_drop k rest), forallb_app in Hsys. by apply andb_true_iff in Hsys as [? _].
Qed.

End Order.

(** ** The session lifecycle *)

(** The abstract state of a session id: the spec's CREATED/ACTIVE phases
    are [Active] (the id is a key of [sessions]); deletion is [Absent]. *)
Inductive phase : Type := Absent | Active.

#[export] Instance phase_eq_dec : EqDecision phase.
Proof. solve_decision. Defined.

Definition phase_of (st : store) (sid : pystr) : phase :=
  match st !! sid with Some _ => Active | None => Absent end.

Definition succeeded {A} (o : outcome A) : bool :=
  match o with Returned _ => true | Raised _ => false end.

(** The abstract transition of the addressed id: [start_chat] makes it
    active even when it fails; [send_message] never changes it; only a
    successful [submit_chat] makes it absent. *)
Definition lifecycle_step (q : request) (ok : bool) (p : phase) : phase :=
  match q with
  | ReqStart _ => Active
  | ReqMessage _ => p
  | ReqSubmit _ => if ok then Absent else p
  end.

Section Refinement.
Context `{UnicodeDB} `{FloatRuntime}.
Variables date1 date2 : datetime.

Lemma phase_of_insert st sid sid' ts :
  phase_of (<[sid := ts]> st) sid' = if decide (sid' = sid) then Active else phase_of st sid'.
Proof. unfold phase_of. case_decide; subst; [by rewrite lookup_insert_eq | by rewrite lookup_insert_ne]. Qed.

Lemma phase_of_delete st sid sid' :
  phase_of (delete sid st) sid' = if decide (sid' = sid) then Absent else phase_of st sid'.
Proof. unfold phase_of. case_decide; subst; [by rewrite lookup_delete_eq | by rewrite lookup_delete_ne]. Qed.

Lemma phase_of_Some st sid ts : st !! sid = Some ts -> phase_of st sid = Active.
Proof. unfold phase_of. by intros ->. Qed.

(** C12. The endpoints refine the abstract lifecycle: after any request,
    whatever the services answered, the phase of the addressed id is
    [lifecycle_step] of its phase before and of whether the request
    succeeded, and every other id keeps its phase. *)
Theorem handlers_refine_lifecycle q st rs res sid :
  run (handler date1 date2 q) st rs = Some res ->
  phase_of (res_store res) sid =
  if decide (sid = target q)
  then lifecycle_step q (succeeded (res_outcome res)) (phase_of st sid)
  else phase_of st sid.
Proof.
  destruct q as [r|r|r]; cbn [handler target lifecycle_step].
  - rewrite start_chat_correct. unfold start_chat_spec, ai_result.
    destruct rs as [|[[c|e]|o] rs]; intros Hr; simpl in Hr; simplify_eq; cbn [res_store fst snd];
      rewrite ?phase_of_insert; by repeat case_decide.
  - rewrite send_message_correct. unfold send_message_spec, ai_result.
    destruct (st !! mr_sessionId r) as [ts|] eqn:Hs; intros Hr;
      [destruct rs as [|[[c|e]|o] rs]|]; simpl in Hr; simplify_eq; cbn [res_store fst snd];
      rewrite ?phase_of_insert; repeat case_decide; subst; try done;
      by rewrite (phase_of_Some _ _ _ Hs).
  - rewrite submit_chat_correct. unfold submit_chat_spec.
    destruct (st !! sr_sessionId r) as [ts|] eqn:Hs; intros Hr; [|simplify_eq; by case_decide].
    destruct (summary_result _ _ _ _) as [[[[v|e] tr1] rs1]|]; simpl in Hr; [|simplify_eq; by case_decide..].
    destruct (deliver_result v rs1) as [[[[[]|e] tr2] rs2]|]; simpl in Hr; simplify_eq;
      cbn [res_store res_outcome fst snd]; rewrite ?phase_of_delete; by case_decide.
Qed.

(** A [submit_chat] that returned has deleted its session. *)
Lemma submit_chat_ok_absent r st rs v st' tr rs' :
  run (submit_chat date1 date2 r) st rs = Some (Returned v, st', tr, rs') ->
  st' !! sr_sessionId r = None.
Proof.
  rewrite submit_chat_correct. unfold submit_chat_spec.
  destruct (st !! sr_sessionId r) as [ts|]; intros Hr; [|done].
  destruct (summary_result _ _ _ _) as [[[[w|e] tr1] rs1]|]; simpl in Hr; [|done..].
  destruct (deliver_result w rs1) as [[[[[]|e] tr2] rs2]|]; simpl in Hr; simplify_eq.
  apply lookup_delete_eq.
Qed.

(** C13. After a [submit_chat] that succeeded, the session is gone: a
    [send_message] to the same id answers 500 with detail
    ["404: Session not found"] and changes nothing. *)
Theorem submit_then_message_not_found r m st rs v st' tr rs' rs2 :
  run (submit_chat date1 date2 r) st rs = Some (Returned v, st', tr, rs') ->
  run (send_message {| mr_sessionId := sr_sessionId r; mr_message := m |}) st' rs2 =
  Some (Raised (error_500 (HTTPException 404 (PStr (txt "Session not found")))), st', [], rs2).
Proof.
  intros Hr. rewrite send_message_correct. unfold send_message_spec. simpl.
  by rewrite (submit_chat_ok_absent _ _ _ _ _ _ _ Hr).
Qed.

(** Every run of an endpoint returns a value or raises a 500 made by
    its [except Exception]. *)
Lemma handler_outcome q st rs res :
  run (handler date1 date2 q) st rs = Some res ->
  (exists v, res_outcome res = Returned v) \/ (exists e, res_outcome res = Raised (error_500 e)).
Proof.
  destruct q as [r|r|r]; cbn [handler].
  - rewrite start_chat_correct. unfold start_chat_spec, ai_result.
    destruct rs as [|[[c|e]|o] rs]; intros Hr; simpl in Hr; simplify_eq; eauto.
  - rewrite send_message_correct. unfold send_message_spec, ai_result.
    destruct (st !! mr_sessionId r); intros Hr;
      [destruct rs as [|[[c|e]|o] rs]|]; simpl in Hr; simplify_eq; eauto.
  - rewrite submit_chat_correct. unfold submit_chat_spec.
    destruct (st !! sr_sessionId r) as [ts|]; intros Hr; [|simplify_eq; eauto].
    destruct (summary_result _ _ _ _) as [[[[v|e] tr1] rs1]|]; simpl in Hr; simplify_eq; eauto.
    destruct (deliver_result v rs1) as [[[[[]|e] tr2] rs2]|]; simpl in Hr; simplify_eq; eauto.
Qed.

(** C26. Whatever the request, the store and the services' answers, the
    HTTP status FastAPI sends is 200 when the endpoint succeeded and 500
    otherwise: the 404 and 502 that the spec promises never reach the
    client. *)
Theorem endpoint_status q st rs res :
  run (handler date1 date2 q) st rs = Some res ->
  reply_status (respond (res_outcome res)) = if succeeded (res_outcome res) then 200%Z else 500%Z.
Proof. intros Hr. by destruct (handler_outcome q st rs res Hr) as [[v ->]|[e ->]]. Qed.

End Refinement.

(** ** Witnesses *)

Section Witnesses.
Local Existing Instances Latin1DB LexemeFloats.

Definition w_ok_post : post_outcome := PostOk (HttpResponse 200 (txt "OK") WEBHOOK_URL (txt "ok")).

Definition w_submit_res : outcome pyval * store * list call * list reply :=
  (Returned (submit_reply w_summary), ∅,
   [CallChat (summary_request w_date w_date w_turns); CallPost WEBHOOK_URL w_body 10], []).

Lemma w_reach : reach w_date w_date w_store.
Proof.
  apply (reach_step w_date w_date ∅ (ReqStart {| sr_sessionId := w_sid |})
           [RChat (ChatOk (txt "Client name?"))]
           (Returned (message_reply (txt "Client name?")), w_store,
            [CallChat (chat_request_of [Turn System CHAT_SYSTEM_PROMPT])], [])).
  - constructor.
  - vm_compute. reflexivity.
Qed.

Lemma w_submit_run :
  run (handler w_date w_date (ReqSubmit {| sr_sessionId := w_sid |})) w_store
      [RChat (ChatOk w_reply); RPost w_ok_post] = Some w_submit_res.
Proof. vm_compute. reflexivity. Qed.

Lemma reach_wf_store_witness : reach w_date w_date w_store /\ wf_store w_store.
Proof. split; [apply w_reach | apply (reach_wf_store w_date w_date), w_reach]. Defined.

Lemma reach_turn_order_witness :
  reach w_date w_date w_store /\ w_store !! w_sid = Some w_turns /\
  (count_role Assistant (take 2 w_turns) <= count_role User (take 2 w_turns) + 1)%nat.
Proof.
  split; [apply w_reach|]. split; [reflexivity|].
  apply (reach_turn_order w_date w_date w_store w_sid w_turns 2); [apply w_reach | reflexivity].
Defined.

Lemma handlers_refine_lifecycle_witness :
  run (handler w_date w_date (ReqSubmit {| sr_sessionId := w_sid |})) w_store
      [RChat (ChatOk w_reply); RPost w_ok_post] = Some w_submit_res /\
  phase_of (res_store w_submit_res) w_sid =
  (if decide (w_sid = target (ReqSubmit {| sr_sessionId := w_sid |}))
   then lifecycle_step (ReqSubmit {| sr_sessionId := w_sid |})
          (succeeded (res_outcome w_submit_res)) (phase_of w_store w_sid)
   else phase_of w_store w_sid).
Proof.
  split; [apply w_submit_run|].
  exact (handlers_refine_lifecycle w_date w_date (ReqSubmit {| sr_sessionId := w_sid |}) w_store
           [RChat (ChatOk w_reply); RPost w_ok_post] w_submit_res w_sid w_submit_run).
Defined.

Lemma submit_then_message_not_found_witness :
  run (submit_chat w_date w_date {| sr_sessionId := w_sid |}) w_store
      [RChat (ChatOk w_reply); RPost w_ok_post] = Some w_submit_res /\
  run (send_message {| mr_sessionId := w_sid; mr_message := txt "more" |}) ∅ [] =
  Some (Raised (error_500 (HTTPException 404 (PStr (txt "Session not found")))), ∅, [], []).
Proof.
  split; [apply w_submit_run|].
  apply (submit_then_message_not_found w_date w_date {| sr_sessionId := w_sid |} (txt "more")
           w_store [RChat (ChatOk w_reply); RPost w_ok_post] (submit_reply w_summary) ∅
           [CallChat (summary_request w_date w_date w_turns); CallPost WEBHOOK_URL w_body 10] []).
  apply w_submit_run.
Defined.

Lemma endpoint_status_witness :
  run (handler w_date w_date (ReqMessage {| mr_sessionId := w_sid; mr_message := txt "more" |})) ∅ [] =
    Some (Raised (error_500 (HTTPException 404 (PStr (txt "Session not found")))), ∅, [], []) /\
  reply_status (respond (Raised (error_500 (HTTPException 404 (PStr (txt "Session not found")))))) = 500%Z.
Proof.
  assert (Hr : run (handler w_date w_date (ReqMessage {| mr_sessionId := w_sid; mr_message := txt "more" |})) ∅ [] =
    Some (Raised (error_500 (HTTPException 404 (PStr (txt "Session not found")))), ∅, [], [])).
  { vm_compute. reflexivity. }
  split; [exact Hr|].
  exact (endpoint_status w_date w_date _ ∅ [] _ Hr).
Defined.

End Witnesses.
