(* ===== verification/JsonProps.v ===== *)
(** * JsonProps: [json.loads] reads back what [json.dumps] writes

    The summary travels through JSON twice: [json.loads] decodes the
    model's reply (line 232) and [requests.post(json=...)] encodes the
    webhook body with [json.dumps] (line 162).  This file proves that
    the decoder of [Json] inverts the encoder on every value made of
    [None], bools, ints, strs of Unicode scalar values, lists and dicts
    with distinct keys: [scan_str] undoes [encode_str] character by
    character, [scan_number] undoes [repr_int], and [scan_once] undoes
    [dumps_text] given fuel [jsize v], which [loads_fuel] exceeds (C14).
    The object case is proved for any member list, repeated keys
    included: the scanner assigns the members in order, so a repeated
    key keeps its first place and takes its last value, which
    [first_keys] and [last_value] state without item assignment (C27).
    The last section shows that the fuel [loads] gives is never
    exhausted. *)

From S2P Require Import Prelude PyText PyValue Json.

(** A code point that UTF-8 can carry: at most U+10FFFF and not a
    surrogate.  The strings of the program come from HTTP bodies and the
    OpenAI client, decoded from UTF-8, so they hold only these. *)
Definition scalar_value (c : N) : bool :=
  (c <=? 0x10ffff)%N && negb ((0xd800 <=? c)%N && (c <=? 0xdfff)%N).

(** ** Hexadecimal escapes *)

Lemma hex_val_digit d : (d < 16)%N -> hex_val (hex_digit d) = Some d.
Proof.
  intros Hd. unfold hex_digit, hex_val, is_digit.
  destruct (N.ltb_spec d 10).
  - replace ((48 <=? 48 + d)%N && (48 + d <=? 57)%N) with true by (symmetry; apply andb_true_iff; split; apply N.leb_le; lia).
    f_equal. lia.
  - replace ((48 <=? 87 + d)%N && (87 + d <=? 57)%N) with false by (symmetry; apply andb_false_iff; right; apply N.leb_gt; lia).
    replace ((97 <=? 87 + d)%N && (87 + d <=? 102)%N) with true by (symmetry; apply andb_true_iff; split; apply N.leb_le; lia).
    f_equal. lia.
Qed.
Lemma hex_fixed_4 c : hex_fixed 4 c =
  [hex_digit (c/16/16/16 mod 16); hex_digit (c/16/16 mod 16); hex_digit (c/16 mod 16); hex_digit (c mod 16)]%N.
Proof. reflexivity. Qed.
Lemma hex4_digits c : (c < 65536)%N ->
  hex4 (hex_digit (c/16/16/16 mod 16)) (hex_digit (c/16/16 mod 16)) (hex_digit (c/16 mod 16)) (hex_digit (c mod 16)) = Some c.
Proof.
  intros Hc. unfold hex4.
  rewrite !hex_val_digit by (apply N.mod_lt; lia). simpl. f_equal.
  pose proof (N.div_mod' c 16). pose proof (N.div_mod' (c/16) 16).
  pose proof (N.div_mod' (c/16/16) 16).
  assert (c / 16 / 16 / 16 < 16)%N.
  { do 3 apply N.Div0.div_lt_upper_bound. lia. }
  rewrite (N.mod_small (c/16/16/16) 16) by lia. lia.
Qed.

Lemma scan_plain begin c l :
  c <> 34%N -> c <> 92%N -> (0x1f < c)%N -> scan_str begin (c :: l) = jcons c (scan_str begin l).
Proof.
  intros H1 H2 H3. simpl.
  rewrite (proj2 (N.eqb_neq c 34) H1), (proj2 (N.eqb_neq c 92) H2).
  by rewrite (proj2 (N.leb_gt c 0x1f) H3).
Qed.

Lemma scan_uescape_bmp begin u l : (u < 65536)%N -> is_high_surrogate u = false -> l <> [] ->
  scan_str begin ([92; 117]%N ++ hex_fixed 4 u ++ l) = jcons u (scan_str begin l).
Proof.
  intros Hu Hh Hl. rewrite hex_fixed_4. simpl.
  rewrite decide_False by done. rewrite hex4_digits by done. by rewrite Hh.
Qed.

Lemma scan_uescape_pair begin hi lo l :
  (hi < 65536)%N -> (lo < 65536)%N -> is_high_surrogate hi = true -> is_low_surrogate lo = true ->
  l <> [] ->
  scan_str begin ([92; 117]%N ++ hex_fixed 4 hi ++ [92; 117]%N ++ hex_fixed 4 lo ++ l)
  = jcons (join_surrogates hi lo) (scan_str begin l).
Proof.
  intros Hhi Hlo Hh Hlw Hl. rewrite !hex_fixed_4. simpl.
  rewrite decide_False by done. rewrite hex4_digits by done. rewrite Hh.
  rewrite bool_decide_false by done. simpl.
  rewrite hex4_digits by done. by rewrite Hlw.
Qed.

Lemma scan_str_escape_char begin c l : scalar_value c = true -> l <> [] ->
  scan_str begin (ascii_escape_char c ++ l) = jcons c (scan_str begin l).
Proof.
  intros Hc Hl. unfold scalar_value in Hc. apply andb_true_iff in Hc as [Hmax Hs].
  apply N.leb_le in Hmax. apply negb_true_iff in Hs.
  unfold ascii_escape_char.
  destruct ((32 <=? c)%N && (c <=? 126)%N && negb (c =? 92)%N && negb (c =? 34)%N) eqn:E1.
  { nbool. apply scan_plain; lia. }
  destruct (N.eqb_spec c 92); [subst; reflexivity|].
  destruct (N.eqb_spec c 34); [subst; reflexivity|].
  destruct (N.eqb_spec c 8); [subst; reflexivity|].
  destruct (N.eqb_spec c 12); [subst; reflexivity|].
  destruct (N.eqb_spec c 10); [subst; reflexivity|].
  destruct (N.eqb_spec c 13); [subst; reflexivity|].
  destruct (N.eqb_spec c 9); [subst; reflexivity|].
  destruct (N.leb_spec 0x10000 c).
  - rewrite <- !app_assoc.
    assert ((c - 65536) / 1024 < 1024)%N by (apply N.Div0.div_lt_upper_bound; lia).
    pose proof (N.mod_lt (c - 65536) 1024 ltac:(lia)).
    pose proof (N.div_mod' (c - 65536) 1024).
    generalize dependent ((c - 65536) mod 1024)%N; intros m Hm.
    generalize dependent ((c - 65536) / 1024)%N; intros q Hq Hc.
    rewrite scan_uescape_pair; [| lia | lia | | | done].
    + f_equal. unfold join_surrogates. lia.
    + unfold is_high_surrogate. apply andb_true_iff; split; apply N.leb_le; lia.
    + unfold is_low_surrogate. apply andb_true_iff; split; apply N.leb_le; lia.
  - apply scan_uescape_bmp; [lia| |done].
    unfold is_high_surrogate. apply andb_false_iff in Hs as [Hs|Hs]; nbool;
    apply andb_false_iff; [left|right]; apply N.leb_gt; lia.
Qed.

Lemma flat_map_escape_nonempty s rest : flat_map ascii_escape_char s ++ 34%N :: rest <> [].
Proof. destruct (flat_map _ _); discriminate. Qed.

(** [scan_str] decodes what [encode_str] writes, up to the closing quote. *)
Lemma scan_str_encode begin s rest : forallb scalar_value s = true ->
  scan_str begin (flat_map ascii_escape_char s ++ 34%N :: rest) = JOk s rest.
Proof.
  induction s as [|c s IH]; intros Hs; [reflexivity|].
  apply andb_true_iff in Hs as [Hc Hs]. cbn [flat_map]. rewrite <- app_assoc.
  rewrite scan_str_escape_char by auto using flat_map_escape_nonempty.
  by rewrite IH.
Qed.

Lemma scan_encode_str begin s rest : forallb scalar_value s = true ->
  scan_str begin (tail (encode_str s) ++ rest) = JOk s rest.
Proof. intros Hs. unfold encode_str. cbn [tail app]. rewrite <- app_assoc. by apply scan_str_encode. Qed.

(** ** Integers *)

Lemma digits_value_snoc l x : digits_value (l ++ [x]) = (digits_value l * 10 + (x - 48))%N.
Proof. unfold digits_value. by rewrite foldl_app. Qed.

(** [dec_digits_aux] writes a nonzero digit and then digits whose value
    is [n], in front of [acc], when the fuel exceeds [n]. *)
Lemma dec_digits_aux_spec f n acc : (N.to_nat n < f)%nat -> (0 < n)%N ->
  exists d ds, dec_digits_aux f n acc = d :: ds ++ acc /\ (49 <= d <= 57)%N /\
    Forall (fun c => is_digit c = true) ds /\ digits_value (d :: ds) = n.
Proof.
  revert n acc. induction f as [|f IH]; intros n acc Hf Hn; [lia|]. simpl.
  destruct (N.ltb_spec n 10).
  - exists (48 + n mod 10)%N, []. rewrite N.mod_small by lia.
    split; [done|]. split; [lia|]. split; [constructor|]. unfold digits_value; cbn [foldl]. lia.
  - assert (Hq : (0 < n / 10)%N) by (apply N.div_str_pos; lia).
    assert (Hlt : (n / 10 < n)%N) by (apply N.div_lt; lia).
    destruct (IH (n / 10)%N ((48 + n mod 10)%N :: acc)) as (d & ds & Heq & Hd & Hds & Hv);
      [lia|done|].
    exists d, (ds ++ [(48 + n mod 10)%N]). rewrite Heq, <- app_assoc.
    split; [done|]. split; [done|]. split.
    + apply Forall_app. split; [done|]. constructor; [|constructor].
      pose proof (N.mod_lt n 10 ltac:(lia)). unfold is_digit. nbool_goal.
    + rewrite app_comm_cons, digits_value_snoc, Hv.
      pose proof (N.div_mod n 10). lia.
Qed.

Lemma dec_N_spec n : (0 < n)%N ->
  exists d ds, dec_N n = d :: ds /\ (49 <= d <= 57)%N /\
    Forall (fun c => is_digit c = true) ds /\ digits_value (d :: ds) = n.
Proof.
  intros Hn. destruct (dec_digits_aux_spec (S (N.to_nat n)) n [] ltac:(lia) Hn)
    as (d & ds & Heq & ?). exists d, ds. unfold dec_N. by rewrite Heq, app_nil_r.
Qed.

Lemma strip_prefix_Some p l r : strip_prefix p l = Some r -> l = p ++ r.
Proof.
  revert l. induction p as [|a p IH]; intros [|b l] H; simpl in *; try congruence.
  destruct (N.eqb_spec a b); [subst; f_equal; auto | done].
Qed.

(** [scan_literal] fails on a text that starts with none of the literals. *)
Lemma scan_literal_None l :
  Forall (fun lv => forall r, l <> lv.1 ++ r) literals -> scan_literal l = None.
Proof.
  unfold scan_literal. induction 1 as [|[p v] lvs Hp _ IH]; [done|]. simpl in *.
  destruct (strip_prefix p l) eqn:E; [|done]. by apply strip_prefix_Some, Hp in E.
Qed.

Ltac no_literal :=
  apply scan_literal_None; unfold literals;
  repeat (apply Forall_cons_2; [intros ? Hr; vm_compute in Hr; simplify_eq; lia|]);
  apply Forall_nil_2.

(** No literal starts with a digit or with a minus sign followed by a digit. *)
Lemma scan_literal_digit c l : is_digit c = true -> scan_literal (c :: l) = None.
Proof. intros Hc. unfold is_digit in Hc. nbool. no_literal. Qed.

Lemma scan_literal_minus_digit c l : is_digit c = true -> scan_literal (45%N :: c :: l) = None.
Proof. intros Hc. unfold is_digit in Hc. nbool. no_literal. Qed.

(** What follows a value inside [dumps_text]: the end of the text, the
    comma of a separator, or a closing bracket or brace. *)
Definition delim_next (l : pystr) : bool :=
  match l with
  | [] => true
  | c :: _ => (c =? 44)%N || (c =? 93)%N || (c =? 125)%N
  end.

Lemma delim_next_not_digit c r : delim_next (c :: r) = true -> is_digit c = false.
Proof.
  intros H. simpl in H. unfold is_digit.
  apply orb_true_iff in H as [H|H]; [apply orb_true_iff in H as [H|H]|]; nbool; nbool_goal.
Qed.

Lemma span_digits_app ds rest :
  Forall (fun c => is_digit c = true) ds -> delim_next rest = true ->
  span_digits (ds ++ rest) = (ds, rest).
Proof.
  intros Hds Hr. induction Hds as [|d ds Hd _ IH]; cbn [app span_digits].
  - destruct rest as [|c r]; [done|]. simpl. by rewrite (delim_next_not_digit c r).
  - by rewrite Hd, IH.
Qed.

Lemma scan_frac_delim rest : delim_next rest = true -> scan_frac rest = ([], rest).
Proof.
  intros Hr. destruct rest as [|c [|d r]]; try done. unfold scan_frac.
  simpl in Hr. replace (c =? 46)%N with false by nbool_goal. done.
Qed.

Lemma scan_exp_delim rest : delim_next rest = true -> scan_exp rest = ([], rest).
Proof.
  intros Hr. destruct rest as [|c r]; try done. unfold scan_exp.
  simpl in Hr. replace ((c =? 101)%N || (c =? 69)%N) with false by nbool_goal. done.
Qed.

Lemma digits_value_zero : digits_value [48%N] = 0%N.
Proof. reflexivity. Qed.

(** [scan_number] reads back [repr_int z], when a delimiter follows. *)
Lemma scan_number_repr_int z rest : delim_next rest = true ->
  scan_number (repr_int z ++ rest) = Some (PInt z, rest).
Proof.
  intros Hr. destruct z as [|p|p]; unfold repr_int.
  - unfold scan_number. cbn [app N.eqb Pos.eqb scan_int_part andb N.leb N.compare Pos.compare Pos.compare_cont].
    cbn [mbind option_bind]. by rewrite scan_frac_delim, scan_exp_delim.
  - destruct (dec_N_spec (N.pos p)) as (d & ds & -> & Hd & Hds & Hv); [lia|].
    unfold scan_number. cbn [app].
    replace (d =? 45)%N with false by nbool_goal. cbn [scan_int_part].
    replace ((49 <=? d)%N && (d <=? 57)%N) with true by nbool_goal.
    rewrite span_digits_app by done. cbn [mbind option_bind].
    rewrite scan_frac_delim, scan_exp_delim by done.
    cbn - [digits_value]. by rewrite Hv.
  - destruct (dec_N_spec (N.pos p)) as (d & ds & -> & Hd & Hds & Hv); [lia|].
    unfold scan_number. cbn [app N.eqb Pos.eqb]. cbn [scan_int_part].
    replace ((49 <=? d)%N && (d <=? 57)%N) with true by nbool_goal.
    rewrite span_digits_app by done. cbn [mbind option_bind].
    rewrite scan_frac_delim, scan_exp_delim by done.
    cbn - [digits_value]. by rewrite Hv.
Qed.

(** ** Values *)

(** The values [json.dumps] writes and [json.loads] reads back as they
    were: no floats (their text is the float runtime's), strs of scalar
    values, dicts whose keys are distinct. *)
Fixpoint json_data (v : pyval) : bool :=
  match v with
  | PNone | PBool _ | PInt _ => true
  | PFloat _ => false
  | PStr s => forallb scalar_value s
  | PList xs => forallb json_data xs
  | PDict kvs =>
      bool_decide (NoDup kvs.*1) &&
      forallb (fun kv => forallb scalar_value kv.1 && json_data kv.2) kvs
  end.

(** The fuel [scan_once] needs for a value: one per node, and one per
    item for the loops of [scan_items] and [scan_members]. *)
Fixpoint jsize (v : pyval) : nat :=
  match v with
  | PList xs => S (sum_list_with (fun x => S (jsize x)) xs)
  | PDict kvs => S (sum_list_with (fun kv => S (jsize kv.2)) kvs)
  | _ => 1
  end.

(** The characters a value's text can start with. *)
Definition json_head (d : N) : bool :=
  (d =? 110)%N || (d =? 116)%N || (d =? 102)%N || (d =? 34)%N || (d =? 91)%N ||
  (d =? 123)%N || (d =? 45)%N || is_digit d.

Lemma skip_ws_json_head d r : json_head d = true -> skip_ws (d :: r) = d :: r.
Proof. intros Hd. simpl. replace (is_ws d) with false; [done|]. unfold json_head, is_ws, is_digit in *. nbool_goal. Qed.

Lemma repr_int_head z : exists d r, repr_int z = d :: r /\ json_head d = true.
Proof.
  destruct z as [|p|p]; [by eexists _, _|..]; unfold repr_int.
  - destruct (dec_N_spec (N.pos p)) as (d & ds & -> & Hd & _); [lia|].
    exists d, ds. split; [done|]. unfold json_head, is_digit. nbool_goal.
  - by eexists _, _.
Qed.

Lemma repr_int_shape z :
  (exists d r, repr_int z = d :: r /\ is_digit d = true) \/
  (exists d r, repr_int z = 45%N :: d :: r /\ is_digit d = true).
Proof.
  destruct z as [|p|p]; unfold repr_int; [left; by eexists _, _|..].
  all: destruct (dec_N_spec (N.pos p)) as (d & ds & -> & Hd & _); [lia|].
  - left. exists d, ds. split; [done|]. unfold is_digit. nbool_goal.
  - right. exists d, ds. split; [done|]. unfold is_digit. nbool_goal.
Qed.

(** [scan_once] on a text that starts with a digit or a minus sign tries
    the literals, then a number. *)
Lemma scan_once_number n c r : (is_digit c || (c =? 45)%N) = true ->
  scan_once (S n) (c :: r) =
  match scan_literal (c :: r) with
  | Some (v, rest) => JOk v rest
  | None => match scan_number (c :: r) with Some (v, rest) => JOk v rest | None => JFail msg_expecting_value (c :: r) end
  end.
Proof.
  intros Hc. cbn [scan_once]. unfold is_digit in Hc.
  replace (c =? 34)%N with false by nbool_goal. replace (c =? 123)%N with false by nbool_goal.
  by replace (c =? 91)%N with false by nbool_goal.
Qed.

Lemma join_cons_cons sep p q qs : join sep (p :: q :: qs) = p ++ sep ++ join sep (q :: qs).
Proof. unfold join. simpl. by rewrite <- !app_assoc. Qed.

Lemma join_single sep p : join sep [p] = p.
Proof. unfold join. simpl. apply app_nil_r. Qed.

Lemma txt_sep l : txt ", " ++ l = 44%N :: 32%N :: l.
Proof. reflexivity. Qed.

Lemma dict_set_fresh k v acc : k ∉ acc.*1 -> dict_set k v acc = acc ++ [(k, v)].
Proof.
  induction acc as [|[k' v'] acc IH]; intros Hk; [done|]. cbn [fmap list_fmap fst] in Hk.
  apply not_elem_of_cons in Hk as [Hne Hk]. simpl. rewrite decide_False by done. by rewrite IH.
Qed.

Lemma length_join_map {A} sep (h : A -> pystr) xs : xs <> [] ->
  (length (join sep (map h xs)) + length sep =
   sum_list_with (fun x => length (h x) + length sep) xs)%nat.
Proof.
  destruct xs as [|x xs]; [done|]. intros _. unfold join. cbn [map]. rewrite length_app.
  cut (length (mjoin (map (fun q => sep ++ q) (map h xs))) =
       sum_list_with (fun x => length (h x) + length sep) xs)%nat; [simpl; lia|].
  induction xs as [|y xs IH]; [done|]. simpl. rewrite !length_app, <- IH. simpl. lia.
Qed.

(** ** Objects with repeated keys

    CPython's scanner collects the members of an object and builds the
    dict from them in order ([dict(pairs)]): a repeated key keeps the
    position of its first occurrence and takes the value of its last.
    [first_keys] and [last_value] state that without item assignment. *)

(** The keys of a member list in the order of their first occurrence. *)
Definition first_keys (ks : list pystr) : list pystr :=
  foldl (fun acc k => if decide (k ∈ acc) then acc else acc ++ [k]) [] ks.

(** The value of the last member with key [k]. *)
Definition last_value (k : pystr) (kvs : list (pystr * pyval)) : option pyval :=
  snd <$> last (filter (fun kv => kv.1 = k) kvs).

Lemma dict_set_keys_eq k v d :
  (dict_set k v d).*1 = if decide (k ∈ d.*1) then d.*1 else d.*1 ++ [k].
Proof.
  induction d as [|[k' v'] d IH]; simpl; [first [done | case_decide; [set_solver|done]]|].
  destruct (decide (k = k')) as [->|Hk]; cbn [fmap list_fmap fst].
  - rewrite decide_True by set_solver. done.
  - rewrite IH. destruct (decide (k ∈ _)), (decide (k ∈ k' :: _)); first [done | set_solver].
Qed.

Lemma dict_get_set k' k v d :
  dict_get k' (dict_set k v d) = if decide (k' = k) then Some v else dict_get k' d.
Proof.
  induction d as [|[k2 v2] d IH]; [done|]. cbn [dict_set].
  destruct (decide (k = k2)) as [->|Hk2]; cbn [dict_get].
  - by case_decide.
  - rewrite IH. do 2 case_decide; subst; congruence.
Qed.

Lemma foldl_dict_set_keys acc kvs :
  (foldl (fun d kv => dict_set kv.1 kv.2 d) acc kvs).*1 =
  foldl (fun acc k => if decide (k ∈ acc) then acc else acc ++ [k]) acc.*1 kvs.*1.
Proof.
  revert acc. induction kvs as [|[k v] kvs IH]; intros acc; [done|].
  cbn [foldl fmap list_fmap fst snd]. rewrite IH, dict_set_keys_eq. by case_decide.
Qed.

Lemma foldl_dict_set_get k acc kvs :
  dict_get k (foldl (fun d kv => dict_set kv.1 kv.2 d) acc kvs) =
  match last (filter (fun kv => kv.1 = k) kvs) with Some kv => Some kv.2 | None => dict_get k acc end.
Proof.
  revert acc. induction kvs as [|[k' v] kvs IH]; intros acc; [done|].
  cbn [foldl fst snd]. rewrite IH, filter_cons, dict_get_set. cbn [fst snd].
  destruct (decide (k' = k)) as [->|Hne].
  - rewrite !decide_True by done. rewrite last_cons. by destruct (last _).
  - rewrite !decide_False by congruence. by destruct (last _).
Qed.

Section Roundtrip.
Context `{FloatRuntime}.

Lemma dumps_text_head v : json_data v = true -> exists d r, dumps_text v = d :: r /\ json_head d = true.
Proof.
  destruct v as [| [] | z | f | s | xs | kvs]; simpl; intros Hv; try done;
    try (by eexists _, _); apply repr_int_head.
Qed.

Lemma skip_ws_dumps_text v r : json_data v = true -> skip_ws (dumps_text v ++ r) = dumps_text v ++ r.
Proof. intros Hv. destruct (dumps_text_head v Hv) as (d & r' & -> & Hd). by apply skip_ws_json_head. Qed.

(** The property proved of every [json_data] value below. *)
Definition scan_ok (v : pyval) : Prop :=
  forall n rest, (jsize v <= n)%nat -> delim_next rest = true ->
    scan_once n (dumps_text v ++ rest) = JOk v rest.

Lemma scan_ok_literal v : v = PNone \/ v = PBool true \/ v = PBool false -> scan_ok v.
Proof.
  intros Hv n rest Hn _. destruct n as [|n].
  { destruct Hv as [->|[->| ->]]; simpl in Hn; lia. }
  destruct Hv as [->|[->| ->]]; vm_compute; reflexivity.
Qed.

Lemma scan_ok_int z : scan_ok (PInt z).
Proof.
  intros n rest Hn Hr. destruct n as [|n]; [simpl in Hn; lia|].
  pose proof (scan_number_repr_int z rest Hr) as Hnum. cbn [dumps_text].
  destruct (repr_int_shape z) as [(d & r & Hz & Hd)|(d & r & Hz & Hd)];
    rewrite Hz in Hnum |- *; cbn [app] in *.
  - rewrite scan_once_number by (rewrite Hd; done). by rewrite scan_literal_digit, Hnum.
  - rewrite scan_once_number by (apply orb_true_iff; by right).
    by rewrite scan_literal_minus_digit, Hnum.
Qed.
Lemma scan_ok_str s : forallb scalar_value s = true -> scan_ok (PStr s).
Proof.
  intros Hs n rest Hn _. destruct n as [|n]; [simpl in Hn; lia|].
  cbn [dumps_text]. unfold encode_str. cbn [app scan_once N.eqb Pos.eqb].
  rewrite <- app_assoc. cbn [app]. by rewrite scan_str_encode.
Qed.

Lemma skip_ws_join sep v vs r : json_data v = true ->
  skip_ws (join sep (dumps_text v :: vs) ++ r) = join sep (dumps_text v :: vs) ++ r.
Proof. intros Hv. cbn [join]. rewrite <- app_assoc. by apply skip_ws_dumps_text. Qed.

(** [scan_once] on an opening bracket or brace followed by a first item. *)
Lemma scan_once_open n o c l : (o = 91 /\ c = 93 \/ o = 123 /\ c = 125)%N ->
  skip_ws l = l -> l <> [] -> head l <> Some c ->
  scan_once (S n) (o :: l) =
  if (o =? 91)%N then scan_items n l [] else scan_members n l [].
Proof.
  intros Ho Hws Hne Hc. destruct l as [|d l]; [done|]. cbn [head] in Hc.
  destruct Ho as [[-> ->]|[-> ->]]; cbn [scan_once N.eqb Pos.eqb]; rewrite Hws;
    by rewrite (proj2 (N.eqb_neq d _)) by congruence.
Qed.

Lemma scan_items_dumps xs : Forall scan_ok xs -> Forall (fun x => json_data x = true) xs ->
  xs <> [] -> forall acc n rest,
  (sum_list_with (fun x => S (jsize x)) xs <= n)%nat -> delim_next rest = true ->
  scan_items n (join (txt ", ") (map dumps_text xs) ++ 93%N :: rest) acc = JOk (PList (acc ++ xs)) rest.
Proof.
  induction xs as [|x xs IH]; intros Hok Hd Hne acc n rest Hn Hr; [done|].
  apply Forall_cons in Hok as [Hx Hok]. apply Forall_cons in Hd as [Hdx Hd].
  destruct n as [|n]; [simpl in Hn; lia|]. cbn [sum_list_with] in Hn.
  destruct xs as [|x2 xs].
  - cbn [map]. rewrite join_single. cbn [scan_items]. rewrite Hx by (done || lia).
    reflexivity.
  - cbn [map]. rewrite join_cons_cons, <- !app_assoc, txt_sep. cbn [scan_items].
    rewrite Hx by (done || lia). cbn [jbind skip_ws is_ws N.eqb Pos.eqb orb].
    rewrite skip_ws_join by (by apply Forall_cons in Hd as [? _]).
    replace (acc ++ x :: x2 :: xs) with ((acc ++ [x]) ++ x2 :: xs) by (rewrite <- app_assoc; done).
    apply IH; try done. simpl in *; lia.
Qed.

Lemma member_text k v r :
  (encode_str k ++ txt ": " ++ dumps_text v) ++ r =
  34%N :: flat_map ascii_escape_char k ++ 34%N :: 58%N :: 32%N :: dumps_text v ++ r.
Proof. unfold encode_str. rewrite <- !app_assoc. reflexivity. Qed.

(** One member [k: v] read by [scan_members]: the key, the colon, the
    value, then the input after it. *)
Lemma scan_member k v n r acc :
  forallb scalar_value k = true -> json_data v = true -> scan_ok v ->
  (jsize v <= n)%nat -> delim_next r = true ->
  scan_members (S n) ((encode_str k ++ txt ": " ++ dumps_text v) ++ r) acc =
  match skip_ws r with
  | e :: r4 =>
      if (e =? 125)%N then JOk (PDict (dict_set k v acc)) r4
      else if (e =? 44)%N then scan_members n (skip_ws r4) (dict_set k v acc)
      else JFail msg_comma (e :: r4)
  | [] => JFail msg_comma []
  end.
Proof.
  intros Hk Hdv Hv Hn Hr. rewrite member_text. cbn [scan_members N.eqb Pos.eqb].
  rewrite scan_str_encode by done. cbn [jbind skip_ws is_ws N.eqb Pos.eqb orb].
  rewrite skip_ws_dumps_text, Hv by done. reflexivity.
Qed.

Lemma skip_ws_join_member sep k x ps r :
  skip_ws (join sep ((encode_str k ++ x) :: ps) ++ r) = join sep ((encode_str k ++ x) :: ps) ++ r.
Proof. reflexivity. Qed.

(** The members of an object are read back in order, each assigned into
    the dict read so far, repeated keys included. *)
Lemma scan_members_dumps kvs :
  Forall (fun kv => scan_ok kv.2) kvs ->
  Forall (fun kv => forallb scalar_value kv.1 && json_data kv.2 = true) kvs ->
  kvs <> [] -> forall acc n rest,
  (sum_list_with (fun kv => S (jsize kv.2)) kvs <= n)%nat -> delim_next rest = true ->
  scan_members n (join (txt ", ")
      (map (fun kv => encode_str kv.1 ++ txt ": " ++ dumps_text kv.2) kvs) ++ 125%N :: rest) acc
  = JOk (PDict (foldl (fun d kv => dict_set kv.1 kv.2 d) acc kvs)) rest.
Proof.
  induction kvs as [|[k v] kvs IH]; intros Hok Hd Hne acc n rest Hn Hr; [done|].
  apply Forall_cons in Hok as [Hv Hok]. apply Forall_cons in Hd as [Hkv Hd].
  apply andb_true_iff in Hkv as [Hk Hdv]. cbn [fst snd] in *.
  destruct n as [|n]; [simpl in Hn; lia|]. cbn [sum_list_with fst snd] in Hn.
  destruct kvs as [|[k2 v2] kvs].
  - cbn [map fst snd]. rewrite join_single, scan_member by (done || lia). done.
  - cbn [map fst snd]. rewrite join_cons_cons, <- app_assoc, scan_member by (done || lia).
    cbn [app skip_ws is_ws N.eqb Pos.eqb orb].
    rewrite <- app_assoc, txt_sep. cbn [skip_ws is_ws N.eqb Pos.eqb orb].
    rewrite skip_ws_join_member. apply IH; try done. simpl in *; lia.
Qed.

(** Assigning keys that are all new appends the items. *)
Lemma foldl_dict_set_fresh acc kvs :
  NoDup (acc.*1 ++ kvs.*1) -> foldl (fun d kv => dict_set kv.1 kv.2 d) acc kvs = acc ++ kvs.
Proof.
  revert acc. induction kvs as [|[k v] kvs IH]; intros acc Hnd; cbn [foldl]; [by rewrite app_nil_r|].
  rewrite fmap_cons, NoDup_app in Hnd. destruct Hnd as (Hacc & Hdisj & Hnd). cbn [fst snd].
  rewrite dict_set_fresh by (intros Hin; apply (Hdisj k Hin); cbn [fmap list_fmap fst]; left).
  rewrite IH, <- app_assoc; [done|].
  rewrite fmap_app, <- app_assoc. apply NoDup_app. split; [done|]. split; [|done].
  intros x Hx. apply Hdisj in Hx. set_solver.
Qed.

(** [scan_once] reads an object back from the text [dumps_text] writes for
    its members, assigning them in order. *)
Lemma scan_once_dict kvs n rest :
  Forall (fun kv => scan_ok kv.2) kvs ->
  Forall (fun kv => forallb scalar_value kv.1 && json_data kv.2 = true) kvs ->
  (jsize (PDict kvs) <= n)%nat -> delim_next rest = true ->
  scan_once n (dumps_text (PDict kvs) ++ rest) = JOk (dict_of kvs) rest.
Proof.
  intros Hok Hv Hn Hr. destruct n as [|n]; [simpl in Hn; lia|].
  destruct kvs as [|[k x] kvs']; [reflexivity|].
  cbn [dumps_text]. rewrite <- !app_assoc. cbn [app].
  cbn [map]. rewrite (scan_once_open n 123 125); [| lia | apply skip_ws_join_member | done | done].
  cbn [N.eqb Pos.eqb]. apply (scan_members_dumps ((k, x) :: kvs')); try done.
  cbn [jsize] in Hn. lia.
Qed.

(** Every [json_data] value is read back from its text, given [jsize]
    fuel, whatever delimiter follows it. *)
Lemma json_data_scan_ok v : json_data v = true -> scan_ok v.
Proof.
  induction v as [| b | z | f | s | xs IH | kvs IH] using pyval_ind'; intros Hv; simpl in Hv.
  - by apply scan_ok_literal; left.
  - by apply scan_ok_literal; right; destruct b; [left|right].
  - apply scan_ok_int.
  - done.
  - by apply scan_ok_str.
  - intros n rest Hn Hr. destruct n as [|n]; [simpl in Hn; lia|].
    apply forallb_Forall in Hv. destruct xs as [|x xs']; [reflexivity|].
    pose proof (Forall_inv Hv) as Hx. destruct (dumps_text_head x Hx) as (d & r & Hd & Hh).
    cbn [dumps_text]. rewrite <- !app_assoc. cbn [app].
    cbn [map]. rewrite (scan_once_open n 91 93); [| lia | by apply skip_ws_join | |].
    + cbn [N.eqb Pos.eqb]. apply (scan_items_dumps (x :: xs')); try done.
      * exact (Forall_mp _ _ _ IH Hv).
      * cbn [jsize] in Hn. lia.
    + cbn [join]. by rewrite Hd.
    + cbn [join]. rewrite Hd. intros [= ->]. done.
  - intros n rest Hn Hr. apply andb_true_iff in Hv as [Hnd Hv]. apply forallb_Forall in Hv.
    apply bool_decide_eq_true in Hnd.
    rewrite scan_once_dict; [|refine (Forall_mp _ _ _ IH _) | done | done | done].
    + unfold dict_of. by rewrite foldl_dict_set_fresh.
    + eapply Forall_impl; [exact Hv|]. intros kv Hkv. by apply andb_true_iff in Hkv as [_ ?].
Qed.

(** The text of an object is at least as long as the fuel it needs,
    when the text of each value is. *)
Lemma jsize_le_length_dict kvs :
  Forall (fun kv => jsize kv.2 <= length (dumps_text kv.2))%nat kvs ->
  (jsize (PDict kvs) <= length (dumps_text (PDict kvs)))%nat.
Proof.
  intros Hkvs. destruct kvs as [|kv kvs]; [simpl; lia|]. cbn [dumps_text jsize].
  set (h := fun kv : pystr * pyval => encode_str kv.1 ++ txt ": " ++ dumps_text kv.2).
  assert (Hle : Forall (fun kv => S (jsize kv.2) <= length (h kv))%nat (kv :: kvs)).
  { eapply Forall_impl; [exact Hkvs|].
    intros [k v] Hk. unfold h, encode_str. cbn [fst snd] in *. rewrite !length_app. simpl. lia. }
  rewrite !length_app. pose proof (length_join_map (txt ", ") h (kv :: kvs) ltac:(done)) as Hj.
  rewrite sum_list_with_plus, sum_list_with_const in Hj.
  pose proof (sum_list_with_le _ _ _ Hle) as Hs. change (length (txt ", ")) with 2%nat in Hj.
  cbn [length] in *. lia.
Qed.

(** The text of a value is at least as long as the fuel it needs. *)
Lemma jsize_le_length v : json_data v = true -> (jsize v <= length (dumps_text v))%nat.
Proof.
  induction v as [| b | z | f | s | xs IH | kvs IH] using pyval_ind'; intros Hv; simpl in Hv.
  - simpl. lia.
  - destruct b; simpl; lia.
  - destruct (repr_int_head z) as (d & r & Hz & _). simpl. rewrite Hz. simpl. lia.
  - done.
  - unfold dumps_text, encode_str. rewrite !length_app. simpl. lia.
  - apply forallb_Forall in Hv. pose proof (Forall_mp _ _ _ IH Hv) as Hle.
    destruct xs as [|x xs]; [simpl; lia|]. cbn [dumps_text jsize].
    rewrite !length_app. pose proof (length_join_map (txt ", ") dumps_text (x :: xs) ltac:(done)) as Hj.
    rewrite sum_list_with_plus, sum_list_with_const in Hj.
    pose proof (sum_list_with_le _ _ _ Hle) as Hs. change (length (txt ", ")) with 2%nat in Hj.
    rewrite (sum_list_with_S jsize). cbn [length] in *. lia.
  - apply andb_true_iff in Hv as [_ Hv]. apply forallb_Forall in Hv.
    apply jsize_le_length_dict. refine (Forall_mp _ _ _ IH _).
    eapply Forall_impl; [exact Hv|]. intros ? Hkv. by apply andb_true_iff in Hkv as [_ ?].
Qed.

Lemma json_data_all_finite v : json_data v = true -> all_finite v = true.
Proof.
  induction v as [| b | z | f | s | xs IH | kvs IH] using pyval_ind'; intros Hv; simpl in *; try done.
  - apply forallb_Forall in Hv. apply forallb_Forall. exact (Forall_mp _ _ _ IH Hv).
  - apply andb_true_iff in Hv as [_ Hv]. apply forallb_Forall in Hv. apply forallb_Forall.
    refine (Forall_mp _ _ _ IH _). eapply Forall_impl; [exact Hv|].
    intros ? Hkv. by apply andb_true_iff in Hkv as [_ ?].
Qed.

(** [json.loads] reads back the text [dumps_text] writes. *)
Lemma loads_dumps_text v : json_data v = true -> loads (dumps_text v) = Returned v.
Proof.
  intros Hv. unfold loads.
  destruct (dumps_text_head v Hv) as (d & r & Hd & Hh).
  rewrite bool_decide_false by (rewrite Hd; intros [= ->]; done).
  rewrite <- (app_nil_r (dumps_text v)), skip_ws_dumps_text by done.
  pose proof (jsize_le_length v Hv).
  rewrite json_data_scan_ok by (done || (rewrite app_nil_r; unfold loads_fuel; lia)). done.
Qed.

(** C14. Round trip of the JSON codec: [json.dumps] accepts every value
    made of [None], bools, ints, strs of Unicode scalar values, lists and
    dicts with distinct keys, and [json.loads] reads its text back as the
    same value (its scanner never runs out of the fuel [loads] gives it). *)
Theorem loads_dumps v : json_data v = true ->
  exists text, dumps v = Returned text /\ loads text = Returned v.
Proof.
  intros Hv. exists (dumps_text v). unfold dumps. rewrite json_data_all_finite by done.
  split; [done|]. by apply loads_dumps_text.
Qed.

(** [json.loads] reads the text of a member list back as the dict that
    assigning the members in order builds. *)
Lemma loads_dict_text kvs :
  Forall (fun kv => forallb scalar_value kv.1 && json_data kv.2 = true) kvs ->
  loads (dumps_text (PDict kvs)) = Returned (dict_of kvs).
Proof.
  intros Hv.
  assert (Hh : exists r, dumps_text (PDict kvs) = 123%N :: r) by (destruct kvs; eexists; reflexivity).
  destruct Hh as [r Hr].
  assert (Hd : Forall (fun kv => json_data kv.2 = true) kvs).
  { eapply Forall_impl; [exact Hv|]. intros kv Hkv. by apply andb_true_iff in Hkv as [_ ?]. }
  assert (Hn : (jsize (PDict kvs) <= length (dumps_text (PDict kvs)))%nat).
  { apply jsize_le_length_dict. eapply Forall_impl; [exact Hd|]. intros kv. apply jsize_le_length. }
  unfold loads. rewrite Hr. cbn [head]. rewrite bool_decide_false by done.
  change (skip_ws (123%N :: r)) with (123%N :: r). rewrite <- Hr, <- (app_nil_r (dumps_text _)).
  rewrite scan_once_dict; [done | | done | unfold loads_fuel; rewrite app_nil_r; lia | done].
  eapply Forall_impl; [exact Hd|]. intros kv. apply json_data_scan_ok.
Qed.

(** C27. [json.loads] of an object whose text repeats keys (as a model
    reply may) builds the dict as CPython does: each key once, in the
    order of its first occurrence, holding the value of its last
    occurrence. *)
Theorem loads_repeated_keys kvs :
  Forall (fun kv => forallb scalar_value kv.1 && json_data kv.2 = true) kvs ->
  exists d, loads (dumps_text (PDict kvs)) = Returned (PDict d) /\
    d.*1 = first_keys kvs.*1 /\ forall k, dict_get k d = last_value k kvs.
Proof.
  intros Hv. exists (foldl (fun d kv => dict_set kv.1 kv.2 d) [] kvs).
  split; [by apply loads_dict_text|]. split; [apply foldl_dict_set_keys|].
  intros k. rewrite foldl_dict_set_get. unfold last_value. by destruct (last _).
Qed.

End Roundtrip.

(** ** The fuel of [loads] is enough *)

Lemma skip_ws_length l : (length (skip_ws l) <= length l)%nat.
Proof. induction l as [|c l IH]; simpl; [lia|]. destruct (is_ws c); simpl; lia. Qed.

Lemma jcons_JOk c x s r : jcons c x = JOk s r -> exists s', x = JOk s' r.
Proof. destruct x; simpl; intros; simplify_eq; eauto. Qed.

Lemma jcons_not_nofuel c x : x <> JNoFuel -> jcons c x <> JNoFuel.
Proof. by destruct x. Qed.

(** [scan_str] consumes input: what is left after the string is shorter. *)
Lemma scan_str_length begin l s r : scan_str begin l = JOk s r -> (length r < length l)%nat.
Proof.
  remember (length l) as m eqn:Hm. revert l Hm s r.
  induction m as [m IH] using lt_wf_ind. intros l -> s r H.
  destruct l as [|c l]; simpl in H; [done|].
  repeat case_match; simplify_eq; try (simpl; lia);
    try (apply jcons_JOk in H as [? H]; apply (fun Hlt => IH _ Hlt _ eq_refl) in H; simpl in *; lia).
Qed.

Lemma scan_str_fuel begin l : scan_str begin l <> JNoFuel.
Proof.
  remember (length l) as m eqn:Hm. revert l Hm.
  induction m as [m IH] using lt_wf_ind. intros l ->.
  destruct l as [|c l]; simpl; [done|].
  repeat case_match; try done;
    apply jcons_not_nofuel;
    match goal with |- scan_str _ ?l' <> _ => apply (IH (length l')); [simpl in *; lia|done] end.
Qed.

Lemma span_digits_app_eq l ds r : span_digits l = (ds, r) -> l = ds ++ r.
Proof.
  revert ds r. induction l as [|c l IH]; intros ds r H; simpl in H; [by simplify_eq|].
  destruct (is_digit c); [|by simplify_eq]. destruct (span_digits l) eqn:E. simplify_eq.
  by rewrite (IH _ _ eq_refl).
Qed.

Ltac span_digits_eqs :=
  repeat match goal with H : span_digits _ = _ |- _ => rewrite (span_digits_app_eq _ _ _ H); clear H end.

Lemma scan_frac_app l fr r : scan_frac l = (fr, r) -> l = fr ++ r.
Proof.
  unfold scan_frac. repeat case_match; intros; simplify_eq; try done. by span_digits_eqs.
Qed.

Lemma scan_exp_app l ex r : scan_exp l = (ex, r) -> l = ex ++ r.
Proof.
  unfold scan_exp. repeat case_match; intros; simplify_eq; try done; by span_digits_eqs.
Qed.

Lemma scan_int_part_app l ip r : scan_int_part l = Some (ip, r) -> l = ip ++ r /\ ip <> [].
Proof.
  unfold scan_int_part. repeat case_match; intros; simplify_eq; try done; span_digits_eqs; done.
Qed.

Lemma scan_number_length l v r : scan_number l = Some (v, r) -> (length r < length l)%nat.
Proof.
  unfold scan_number.
  destruct (match l with c :: r => if (c =? 45)%N then ([c], r) else ([], l) | [] => ([], l) end)
    as [sign l1] eqn:Hs.
  assert (Hl : l = sign ++ l1) by (destruct l; repeat case_match; simplify_eq; done).
  destruct (scan_int_part l1) as [[ip r2]|] eqn:Hi; [|done]. cbn [mbind option_bind].
  destruct (scan_frac r2) as [fr r3] eqn:Hf. destruct (scan_exp r3) as [ex r4] eqn:He.
  intros H. assert (r = r4) as -> by (case_match; simplify_eq; done).
  apply scan_int_part_app in Hi as [-> Hip]. apply scan_frac_app in Hf as ->.
  apply scan_exp_app in He as ->. subst l. rewrite !length_app.
  destruct ip; [done|simpl; lia].
Qed.

Lemma scan_literal_length l v r : scan_literal l = Some (v, r) -> (length r < length l)%nat.
Proof.
  unfold scan_literal.
  assert (Hne : Forall (fun lv : pystr * pyval => lv.1 <> []) literals)
    by (unfold literals; repeat constructor; by vm_compute).
  induction literals as [|[p w] lvs IH]; [done|]. cbn [foldr fst snd].
  apply Forall_cons in Hne as [Hp Hne]. cbn [fst] in Hp.
  destruct (strip_prefix p l) eqn:E; [|auto]. intros [= <- <-].
  apply strip_prefix_Some in E as ->. rewrite length_app. destruct p; [done|simpl; lia].
Qed.

(** What [scan_once], [scan_members] and [scan_items] leave of their
    input is shorter than the input. *)
Lemma scan_length n :
  (forall l v r, scan_once n l = JOk v r -> (length r < length l)%nat) /\
  (forall l acc v r, scan_members n l acc = JOk v r -> (length r < length l)%nat) /\
  (forall l acc v r, scan_items n l acc = JOk v r -> (length r < length l)%nat).
Proof.
  induction n as [|n (IHo & IHm & IHi)]; [done|].
  split; [|split]; intros l; [intros v r H|intros acc v r H..];
    [destruct l as [|c l]; [done|]; cbn [scan_once] in H
    |destruct l as [|c l]; [done|]; cbn [scan_members] in H
    |cbn [scan_items] in H];
    unfold jbind in H; repeat case_match; simplify_eq;
    repeat match goal with
    | H : skip_ws ?x = ?y |- _ => pose proof (skip_ws_length x); rewrite H in *; clear H
    | H : scan_str _ _ = JOk _ _ |- _ => apply scan_str_length in H
    | H : scan_once n (skip_ws ?x) = JOk _ _ |- _ => pose proof (skip_ws_length x); apply IHo in H
    | H : scan_members n (skip_ws ?x) _ = JOk _ _ |- _ => pose proof (skip_ws_length x); apply IHm in H
    | H : scan_items n (skip_ws ?x) _ = JOk _ _ |- _ => pose proof (skip_ws_length x); apply IHi in H
    | H : scan_once n _ = JOk _ _ |- _ => apply IHo in H
    | H : scan_members n _ _ = JOk _ _ |- _ => apply IHm in H
    | H : scan_items n _ _ = JOk _ _ |- _ => apply IHi in H
    | H : scan_literal _ = Some _ |- _ => apply scan_literal_length in H
    | H : scan_number _ = Some _ |- _ => apply scan_number_length in H
    end; simpl in *; lia.
Qed.

(** Replace each [skip_ws x] by a list no longer than [x]. *)
Ltac forget_skip_ws :=
  repeat match goal with
  | H : context [skip_ws ?x] |- _ =>
      pose proof (skip_ws_length x); generalize dependent (skip_ws x); intros
  | |- context [skip_ws ?x] =>
      pose proof (skip_ws_length x); generalize dependent (skip_ws x); intros
  end.

(** [scan_once] with more than twice the length of its input as fuel,
    [scan_members] likewise and [scan_items] with one more, never run out
    of fuel: each level of nesting consumes a character for each unit of
    fuel it passes on. *)
Lemma scan_fuel n :
  (forall l, (2 * length l < n)%nat -> scan_once n l <> JNoFuel) /\
  (forall l acc, (2 * length l < n)%nat -> scan_members n l acc <> JNoFuel) /\
  (forall l acc, (S (2 * length l) < n)%nat -> scan_items n l acc <> JNoFuel).
Proof.
  induction n as [|n (IHo & IHm & IHi)]; [split; [|split]; intros; lia|].
  split; [|split]; intros l; [intros Hl|intros acc Hl..];
    [destruct l as [|c l]; [done|]; cbn [scan_once]
    |destruct l as [|c l]; [done|]; cbn [scan_members]
    |cbn [scan_items]];
    unfold jbind; repeat case_match; try done;
    repeat match goal with
    | H : skip_ws ?x = ?y |- _ => pose proof (skip_ws_length x); rewrite H in *; clear H
    | H : scan_str _ _ = JOk _ _ |- _ => apply scan_str_length in H
    | H : scan_str _ _ = JNoFuel |- _ => by apply scan_str_fuel in H
    | H : scan_once n ?x = JOk _ _ |- _ => apply (proj1 (scan_length n)) in H
    end; forget_skip_ws;
    first [ match goal with H : scan_once n ?x = JNoFuel |- _ => exfalso; apply (IHo x); [|exact H] end
          | apply IHm | apply IHi ]; simpl in *; lia.
Qed.

Lemma loads_fuel_enough s : scan_once (loads_fuel s) (skip_ws s) <> JNoFuel.
Proof.
  apply (proj1 (scan_fuel _)). pose proof (skip_ws_length s). unfold loads_fuel. lia.
Qed.

(** ** Witnesses *)

Section Witnesses.
Local Existing Instance LexemeFloats.

(** A summary of the shape the prompt asks for, with a nested list and a
    key outside ASCII (an accented letter and an astral character). *)
Definition w_summary_value : pyval :=
  PDict [(txt "client", PStr (txt "Acme"));
         (txt "date", PStr (txt "May 07, 2024"));
         (txt "tasks", PList [PStr (txt "ship \v1"); PInt (-3); PBool true; PNone]);
         ([99; 97; 102; 233]%N, PStr [128512%N; 10%N; 34%N])].

Lemma loads_dumps_witness :
  json_data w_summary_value = true /\
  exists text, dumps w_summary_value = Returned text /\ loads text = Returned w_summary_value.
Proof. split; [reflexivity|]. apply loads_dumps. reflexivity. Defined.

(** The members [a: 1, b: null, a: [2]]: [a] keeps its place and takes [[2]]. *)
Definition w_dup_members : list (pystr * pyval) :=
  [(txt "a", PInt 1); (txt "b", PNone); (txt "a", PList [PInt 2])].

Lemma loads_repeated_keys_witness :
  Forall (fun kv => forallb scalar_value kv.1 && json_data kv.2 = true) w_dup_members /\
  exists d, loads (dumps_text (PDict w_dup_members)) = Returned (PDict d) /\
    d.*1 = first_keys w_dup_members.*1 /\ forall k, dict_get k d = last_value k w_dup_members.
Proof.
  assert (Hv : Forall (fun kv => forallb scalar_value kv.1 && json_data kv.2 = true) w_dup_members)
    by (apply forallb_Forall; vm_compute; reflexivity).
  split; [exact Hv|]. exact (loads_repeated_keys w_dup_members Hv).
Defined.

End Witnesses.
