(* ===== verification/Summary.v ===== *)
(** * Summary: what [get_conversation_summary] makes of the model's reply

    Line 232 replaces every single quote of the reply by a double quote
    and decodes the result with [json.loads]: the replacement lets a
    reply written as a Python dict literal, with single quotes, through
    the JSON decoder.  This file shows what that line accepts and rejects
    ([Handlers.summary_of_reply]):
    - a reply that is the [repr] of a dict or list of ints and plain strs
      decodes to that value;
    - a reply that is JSON and holds no apostrophe decodes to its value,
      whatever its shape: a list or an int is a summary as good as a dict;
    - a reply that is JSON and holds an apostrophe inside a string (a
      possessive such as client's) is turned into text that is not JSON, and
      the summary fails. *)

From S2P Require Import Prelude PyText PyValue Json JsonProps Store Prompts Proc Handlers.

(** ** Python literals the replacement turns into JSON *)

(** A character [repr] writes as itself inside single quotes and
    [json.dumps] as itself inside double quotes: printable ASCII but the
    two quotes and the backslash. *)
Definition plain_char (c : N) : bool :=
  (32 <=? c)%N && (c <=? 126)%N && negb (c =? 34)%N && negb (c =? 39)%N && negb (c =? 92)%N.

(** The values whose [repr] becomes their JSON text once single quotes
    are replaced: ints, strs of plain characters, lists of them and dicts
    with distinct plain keys.  ([None], [True], [False] are excluded:
    their [repr] is not JSON.) *)
Fixpoint repr_safe (v : pyval) : bool :=
  match v with
  | PInt _ => true
  | PStr s => forallb plain_char s
  | PList xs => forallb repr_safe xs
  | PDict kvs =>
      bool_decide (NoDup kvs.*1) &&
      forallb (fun kv => forallb plain_char kv.1 && repr_safe kv.2) kvs
  | _ => false
  end.

Lemma replace_char_app a b l1 l2 : replace_char a b (l1 ++ l2) = replace_char a b l1 ++ replace_char a b l2.
Proof. apply map_app. Qed.

Lemma replace_char_cons a b c l :
  replace_char a b (c :: l) = (if (c =? a)%N then b else c) :: replace_char a b l.
Proof. reflexivity. Qed.

Lemma replace_char_id a b s : forallb (fun c => negb (c =? a)%N) s = true -> replace_char a b s = s.
Proof.
  induction s as [|c s IH]; simpl; [done|]. intros Hs. apply andb_true_iff in Hs as [Hc Hs].
  apply negb_true_iff in Hc. by rewrite Hc, IH.
Qed.

Lemma plain_no_squote s : forallb plain_char s = true -> forallb (fun c => negb (c =? 39)%N) s = true.
Proof.
  intros Hs. apply forallb_Forall in Hs. apply forallb_Forall. eapply Forall_impl; [exact Hs|].
  intros c Hc. unfold plain_char in Hc. nbool_goal.
Qed.

Lemma plain_escape s : forallb plain_char s = true -> flat_map ascii_escape_char s = s.
Proof.
  induction s as [|c s IH]; simpl; [done|]. intros Hs. apply andb_true_iff in Hs as [Hc Hs].
  rewrite IH by done. unfold ascii_escape_char, plain_char in *.
  replace ((32 <=? c)%N && (c <=? 126)%N && negb (c =? 92)%N && negb (c =? 34)%N) with true
    by nbool_goal. done.
Qed.

Lemma plain_scalar s : forallb plain_char s = true -> forallb scalar_value s = true.
Proof.
  intros Hs. apply forallb_Forall in Hs. apply forallb_Forall. eapply Forall_impl; [exact Hs|].
  intros c Hc. unfold plain_char, scalar_value in *. nbool_goal.
Qed.

Lemma replace_char_join a b sep ps :
  replace_char a b (join sep ps) = join (replace_char a b sep) (map (replace_char a b) ps).
Proof.
  destruct ps as [|p ps]; [done|]. unfold join. cbn [map]. rewrite replace_char_app. f_equal.
  induction ps as [|q ps IH]; [done|]. simpl. by rewrite !replace_char_app, IH.
Qed.

Lemma repr_int_no_squote z : forallb (fun c => negb (c =? 39)%N) (repr_int z) = true.
Proof.
  assert (Hd : forall n, (0 < n)%N -> forallb (fun c => negb (c =? 39)%N) (dec_N n) = true).
  { intros n Hn. destruct (dec_N_spec n Hn) as (d & ds & -> & Hd & Hds & _).
    cbn [forallb]. apply andb_true_iff. split; [nbool_goal|]. apply forallb_Forall.
    eapply Forall_impl; [exact Hds|]. intros c Hc. unfold is_digit in Hc. nbool_goal. }
  destruct z as [|p|p]; [done|apply Hd; lia|]. cbn [repr_int forallb]. rewrite Hd by lia. done.
Qed.

Section ReprJson.
Context `{UnicodeDB} `{FloatRuntime}.

Lemma repr_plain_str s : forallb plain_char s = true -> repr_str s = 39%N :: s ++ [39%N].
Proof.
  intros Hs. unfold repr_str, repr_quote.
  replace (existsb (N.eqb c_squote) s) with false.
  2: { symmetry. apply not_true_iff_false. intros Hex. apply existsb_exists in Hex as (c & Hin & Hc).
       apply forallb_forall with (x := c) in Hs; [|done]. unfold plain_char, c_squote in *. nbool_goal. }
  cbn [andb]. f_equal. f_equal. clear -Hs. induction s as [|c s IH]; simpl; [done|].
  apply andb_true_iff in Hs as [Hc Hs]. rewrite IH by done.
  unfold repr_char, plain_char, c_backslash, c_squote in *.
  replace ((c =? 39)%N || (c =? 92)%N) with false by nbool_goal.
  replace (c =? 9)%N with false by nbool_goal. replace (c =? 10)%N with false by nbool_goal.
  replace (c =? 13)%N with false by nbool_goal.
  replace ((c <? 32)%N || (c =? 127)%N) with false by nbool_goal.
  by replace (c <? 127)%N with true by nbool_goal.
Qed.

(** Replacing the single quotes of the [repr] of a [repr_safe] value gives
    the text [json.dumps] writes for it. *)
Lemma replace_repr_dumps v : repr_safe v = true -> replace_char 39 34 (py_repr v) = dumps_text v.
Proof.
  induction v as [| b | z | f | s | xs IH | kvs IH] using pyval_ind'; intros Hv; simpl in Hv; try done.
  - apply replace_char_id, repr_int_no_squote.
  - cbn [py_repr dumps_text]. rewrite repr_plain_str by done. unfold encode_str.
    rewrite plain_escape by done. change (39%N :: s ++ [39%N]) with ([39%N] ++ s ++ [39%N]).
    rewrite !replace_char_app, (replace_char_id _ _ _ (plain_no_squote _ Hv)). reflexivity.
  - apply forallb_Forall in Hv. cbn [py_repr dumps_text].
    rewrite !replace_char_app, replace_char_join, map_map. f_equal. f_equal. f_equal.
    apply map_ext_Forall. exact (Forall_mp _ _ _ IH Hv).
  - apply andb_true_iff in Hv as [_ Hv]. apply forallb_Forall in Hv. cbn [py_repr dumps_text].
    rewrite !replace_char_app, replace_char_join, map_map. f_equal. f_equal. f_equal.
    apply map_ext_Forall. refine (Forall_mp _ _ _ _ Hv). eapply Forall_impl; [exact IH|].
    intros [k w] Hw Hkw. apply andb_true_iff in Hkw as [Hk Hw']. cbn [fst snd] in *.
    rewrite !replace_char_app, repr_plain_str, Hw by done. unfold encode_str.
    rewrite plain_escape by done. change (39%N :: k ++ [39%N]) with ([39%N] ++ k ++ [39%N]).
    rewrite !replace_char_app, (replace_char_id _ _ _ (plain_no_squote _ Hk)). reflexivity.
Qed.
End ReprJson.

Lemma repr_safe_json_data v : repr_safe v = true -> json_data v = true.
Proof.
  induction v as [| b | z | f | s | xs IH | kvs IH] using pyval_ind'; intros Hv; simpl in *; try done.
  - by apply plain_scalar.
  - apply forallb_Forall in Hv. apply forallb_Forall. exact (Forall_mp _ _ _ IH Hv).
  - apply andb_true_iff in Hv as [Hnd Hv]. rewrite Hnd. apply forallb_Forall in Hv. apply forallb_Forall.
    refine (Forall_mp _ _ _ _ Hv). eapply Forall_impl; [exact IH|].
    intros [k w] Hw Hkw. apply andb_true_iff in Hkw as [Hk Hw']. cbn [fst snd] in *.
    rewrite plain_scalar, Hw by done. done.
Qed.

Lemma scan_str_plain begin s rest : forallb plain_char s = true ->
  scan_str begin (s ++ 34%N :: rest) = JOk s rest.
Proof.
  intros Hs. rewrite <- (plain_escape s) at 1 by done. by apply scan_str_encode, plain_scalar.
Qed.

(** The reply of the model: a JSON object with one str member [k: p'q]. *)
Definition object_reply (k p q : pystr) : pystr :=
  [123; 34]%N ++ k ++ [34; 58; 32; 34]%N ++ p ++ 39%N :: q ++ [34; 125]%N.

Section SummaryClaims.
Context `{UnicodeDB} `{FloatRuntime}.

Lemma object_reply_dumps k p q :
  forallb plain_char k = true -> forallb plain_char p = true -> forallb plain_char q = true ->
  object_reply k p q = dumps_text (PDict [(k, PStr (p ++ 39%N :: q))]).
Proof.
  intros Hk Hp Hq. cbn [dumps_text map]. rewrite join_single. unfold encode_str.
  cbn [fst snd dumps_text]. unfold encode_str.
  rewrite flat_map_app, !plain_escape by done. unfold object_reply.
  cbn [flat_map]. rewrite (plain_escape q) by done. rewrite <- !app_assoc. reflexivity.
Qed.

Lemma object_reply_replaced k p q :
  forallb plain_char k = true -> forallb plain_char p = true -> forallb plain_char q = true ->
  replace_char 39 34 (object_reply k p q) =
  [123; 34]%N ++ k ++ [34; 58; 32; 34]%N ++ p ++ 34%N :: q ++ [34; 125]%N.
Proof.
  intros Hk Hp Hq. unfold object_reply.
  rewrite !replace_char_app, (replace_char_cons _ _ 39%N), !replace_char_app.
  rewrite (replace_char_id _ _ k), (replace_char_id _ _ p), (replace_char_id _ _ q) by (by apply plain_no_squote). reflexivity.
Qed.

(** [json.loads] on the replaced text: the value of [k] ends at the
    replaced apostrophe, and the decoder expects a comma there. *)
Lemma loads_replaced_object k p c q' :
  forallb plain_char k = true -> forallb plain_char p = true ->
  is_ws c = false -> c <> 44%N -> c <> 125%N ->
  let doc := [123; 34]%N ++ k ++ [34; 58; 32; 34]%N ++ p ++ 34%N :: c :: q' ++ [34; 125]%N in
  loads doc = Raised (JSONDecodeError msg_comma doc (length k + length p + 7)).
Proof.
  intros Hk Hp Hc H44 H125 doc. unfold loads.
  rewrite bool_decide_false by done.
  destruct (loads_fuel doc) as [|[|[|n]]] eqn:Hf; unfold loads_fuel in Hf;
    [lia| subst doc; rewrite ?length_app in Hf; simpl in Hf; lia ..|].
  subst doc. cbn [app skip_ws is_ws N.eqb Pos.eqb orb scan_once scan_members].
  rewrite scan_str_plain by done. cbn [jbind skip_ws is_ws N.eqb Pos.eqb orb scan_once].
  rewrite scan_str_plain by done. cbn [jbind skip_ws]. rewrite Hc.
  rewrite (proj2 (N.eqb_neq c 125) H125), (proj2 (N.eqb_neq c 44) H44).
  replace (pos_in _ _) with (length k + length p + 7)%nat; [done|].
  unfold pos_in. repeat (rewrite ?length_app, ?length_cons; simpl). lia.
Qed.

(** C15. A reply written as a Python literal, the [repr] of a dict or
    list of ints and strs of plain characters, becomes that value: the
    quote replacement turns it into the JSON text of the value. *)
Theorem summary_python_literal v : repr_safe v = true ->
  summary_of_reply (ChatOk (py_repr v)) = Returned v.
Proof.
  intros Hv. unfold summary_of_reply. rewrite replace_repr_dumps by done.
  by rewrite loads_dumps_text by (by apply repr_safe_json_data).
Qed.

(** C16. No check of the summary's shape: any JSON reply without an
    apostrophe is accepted as the summary, whatever its type; a list or
    a number is returned as the [dict] the signature of
    [get_conversation_summary] promises. *)
Theorem summary_shape_unchecked v :
  json_data v = true -> forallb (fun c => negb (c =? 39)%N) (dumps_text v) = true ->
  summary_of_reply (ChatOk (dumps_text v)) = Returned v.
Proof.
  intros Hv Hq. unfold summary_of_reply. rewrite replace_char_id by done.
  by rewrite loads_dumps_text.
Qed.

(** C17. An apostrophe inside a string of a JSON reply makes the summary
    fail: the reply [{"k": "p'q"}] is JSON that [json.loads] decodes, but
    the replacement closes the string at the apostrophe and the decoder
    stops with [Expecting ',' delimiter] at the character after it. *)
Theorem summary_apostrophe_rejected k p c q' :
  forallb plain_char k = true -> forallb plain_char p = true -> forallb plain_char (c :: q') = true ->
  is_ws c = false -> c <> 44%N -> c <> 125%N ->
  loads (object_reply k p (c :: q')) = Returned (PDict [(k, PStr (p ++ 39%N :: c :: q'))]) /\
  summary_of_reply (ChatOk (object_reply k p (c :: q'))) =
  Raised (Exception (txt "Summary generation failed: " ++
    exc_str (JSONDecodeError msg_comma (replace_char 39 34 (object_reply k p (c :: q')))
                             (length k + length p + 7)))).
Proof.
  intros Hk Hp Hq Hc H44 H125. split.
  - rewrite object_reply_dumps by done. apply loads_dumps_text.
    cbn [json_data fst snd forallb]. rewrite andb_true_r.
    apply andb_true_iff. split; [apply bool_decide_eq_true; repeat constructor; set_solver|].
    rewrite plain_scalar, forallb_app by done. cbn [forallb].
    rewrite (plain_scalar p) by done.
    change (scalar_value c && forallb scalar_value q') with (forallb scalar_value (c :: q')).
    by rewrite plain_scalar.
  - unfold summary_of_reply. rewrite !object_reply_replaced by done.
    rewrite <- (app_comm_cons q' _ c). rewrite loads_replaced_object by done. reflexivity.
Qed.

End SummaryClaims.

(** ** Witnesses *)

Section Witnesses.
Local Existing Instances Latin1DB LexemeFloats.

Definition w_python_summary : pyval :=
  PDict [(txt "client", PStr (txt "Acme")); (txt "date", PStr (txt "May 07, 2024"));
         (txt "tasks", PList [PStr (txt "deploy v2"); PInt (-3)])].

Lemma summary_python_literal_witness :
  repr_safe w_python_summary = true /\
  summary_of_reply (ChatOk (py_repr w_python_summary)) = Returned w_python_summary.
Proof. split; [reflexivity|]. apply summary_python_literal. reflexivity. Defined.

Definition w_list_summary : pyval := PList [PInt 7; PStr (txt "not a dict")].

Lemma summary_shape_unchecked_witness :
  json_data w_list_summary = true /\
  forallb (fun c => negb (c =? 39)%N) (dumps_text w_list_summary) = true /\
  summary_of_reply (ChatOk (dumps_text w_list_summary)) = Returned w_list_summary.
Proof.
  split; [reflexivity|]. split; [reflexivity|]. apply summary_shape_unchecked; reflexivity.
Defined.

(** The reply [{"note": "client's budget"}]. *)
Lemma summary_apostrophe_rejected_witness :
  let k := txt "note" in let p := txt "client" in let q' := txt " budget" in
  loads (object_reply k p (115%N :: q')) = Returned (PDict [(k, PStr (p ++ 39%N :: 115%N :: q'))]) /\
  summary_of_reply (ChatOk (object_reply k p (115%N :: q'))) =
  Raised (Exception (txt "Summary generation failed: " ++
    exc_str (JSONDecodeError msg_comma (replace_char 39 34 (object_reply k p (115%N :: q')))
                             (length k + length p + 7)))).
Proof. intros k p q'. apply summary_apostrophe_rejected; reflexivity || discriminate. Defined.

End Witnesses.
