(* ===== verification/PromptProps.v ===== *)
(** * PromptProps: the date string and the summary prompt

    [get_current_date_string] writes a date as [strftime("%B %d, %Y")]
    does, and different days give different strings: the rendering is
    injective on calendar dates.  [SUMMARY_SYSTEM_PROMPT] embeds the date
    twice, from two calls of the clock (lines 93 and 103): it embeds one
    date, as the spec says, exactly when the two readings fall on the
    same day. *)

From S2P Require Import Prelude PyText PyValue Json JsonProps Store Prompts Proc Handlers Summary.

(** A calendar date as [datetime] holds it. *)
Definition valid_date (d : datetime) : Prop :=
  (1 <= dt_month d <= 12)%nat /\ (1 <= dt_day d <= 31)%nat /\ (0 < dt_year d)%Z.

(** [int.__repr__] is injective: [json.loads]'s number scanner reads the
    value back from the digits. *)
Lemma repr_int_inj z1 z2 : repr_int z1 = repr_int z2 -> z1 = z2.
Proof.
  intros Heq. pose proof (scan_number_repr_int z1 [] eq_refl) as H1.
  pose proof (scan_number_repr_int z2 [] eq_refl) as H2.
  rewrite Heq in H1. rewrite H1 in H2. by simplify_eq.
Qed.

(** Check a property of [month_name m] on each of its thirteen cases
    (January to November, and December for every other [m]). *)
Ltac month_cases m tac := do 12 (destruct m as [|m]; [tac|]); tac.

(** The twelve names are pairwise different, by computation. *)
Lemma month_names_distinct :
  forallb (fun m1 => forallb (fun m2 => negb (bool_decide (month_name m1 = month_name m2)) || (m1 =? m2)%nat)
                             (seq 1 12)) (seq 1 12) = true.
Proof. vm_compute. reflexivity. Qed.

Lemma month_name_inj m1 m2 : (1 <= m1 <= 12)%nat -> (1 <= m2 <= 12)%nat ->
  month_name m1 = month_name m2 -> m1 = m2.
Proof.
  intros H1 H2 Heq. pose proof month_names_distinct as Hd.
  apply forallb_Forall in Hd. rewrite Forall_forall in Hd.
  specialize (Hd m1 ltac:(apply elem_of_seq; lia)). cbv beta in Hd.
  apply forallb_Forall in Hd. rewrite Forall_forall in Hd.
  specialize (Hd m2 ltac:(apply elem_of_seq; lia)). cbv beta in Hd.
  rewrite bool_decide_true in Hd by done. by apply Nat.eqb_eq in Hd.
Qed.

Lemma month_name_no_space m : 32%N ∉ month_name m.
Proof.
  apply (bool_decide_eq_false_1 (32%N ∈ month_name m)). month_cases m ltac:(vm_compute; reflexivity).
Qed.

Lemma month_name_plain m : forallb plain_char (month_name m) = true.
Proof. month_cases m ltac:(vm_compute; reflexivity). Qed.

Lemma two_digits_inj n1 n2 : (n1 < 100)%nat -> (n2 < 100)%nat -> two_digits n1 = two_digits n2 -> n1 = n2.
Proof.
  unfold two_digits. intros H1 H2 Heq.
  rewrite (Nat.div_mod n1 10), (Nat.div_mod n2 10) by lia.
  remember (n1 / 10)%nat as a1. remember (n1 mod 10)%nat as b1.
  remember (n2 / 10)%nat as a2. remember (n2 mod 10)%nat as b2.
  injection Heq as Ht Hu. apply N.add_cancel_l, Nat2N.inj in Ht, Hu. by rewrite Ht, Hu.
Qed.

Lemma length_two_digits n : length (two_digits n) = 2%nat.
Proof. reflexivity. Qed.

Lemma date_string_injective d1 d2 : valid_date d1 -> valid_date d2 ->
  get_current_date_string d1 = get_current_date_string d2 -> d1 = d2.
Proof.
  destruct d1 as [y1 m1 n1], d2 as [y2 m2 n2]. unfold valid_date, get_current_date_string.
  cbn [dt_month dt_day dt_year].
  intros (Hm1 & Hn1 & _) (Hm2 & Hn2 & _) Heq.
  apply app_delim_inj in Heq as [Hm Heq]; [|apply month_name_no_space..].
  apply month_name_inj in Hm; [|lia|lia]. subst m2.
  apply app_inj_1 in Heq as [Hn Heq]; [|by rewrite !length_two_digits].
  apply two_digits_inj in Hn; [|lia|lia]. subst n2.
  apply app_inv_head, repr_int_inj in Heq. by subst y2.
Qed.

(** C23. [get_current_date_string] renders different calendar dates as
    different strings: the month name, day and year can be read back from
    ["%B %d, %Y"]. *)
Theorem date_string_inj d1 d2 : valid_date d1 -> valid_date d2 ->
  get_current_date_string d1 = get_current_date_string d2 -> d1 = d2.
Proof. exact (date_string_injective d1 d2). Qed.

Lemma forallb_neq_not_elem c (l : list N) : forallb (fun x => negb (x =? c)%N) l = true -> c ∉ l.
Proof.
  intros H Hin. apply forallb_Forall in H. rewrite Forall_forall in H.
  specialize (H c Hin). simpl in H. by rewrite N.eqb_refl in H.
Qed.

Lemma date_string_no_squote d : 39%N ∉ get_current_date_string d.
Proof.
  unfold get_current_date_string. apply forallb_neq_not_elem.
  rewrite !forallb_app. rewrite repr_int_no_squote, andb_true_r.
  apply andb_true_iff. split.
  - apply plain_no_squote, month_name_plain.
  - unfold two_digits. cbn [forallb]. rewrite andb_true_r.
    apply andb_true_iff. split; [apply andb_true_iff; split|]; nbool_goal.
Qed.

(** C24. [SUMMARY_SYSTEM_PROMPT] embeds one date, as the spec says, only
    when its two calls of [get_current_date_string()] (lines 93 and 103)
    read the same day: the prompt built from two different days is the
    one-date prompt of no date at all. *)
Theorem summary_prompt_one_date d1 d2 : valid_date d1 -> valid_date d2 ->
  (exists d, valid_date d /\ summary_prompt d1 d2 =
     SUMMARY_SYSTEM_PROMPT (get_current_date_string d) (get_current_date_string d)) <-> d1 = d2.
Proof.
  intros H1 H2. split.
  - intros (d & Hd & Heq). unfold summary_prompt, SUMMARY_SYSTEM_PROMPT in Heq.
    apply app_inv_head in Heq.
    apply app_delim_inj in Heq as [Hs1 Heq]; [|apply date_string_no_squote..].
    simplify_eq. apply app_inv_tail in Heq.
    apply date_string_injective in Hs1, Heq; [|done..]. by subst.
  - intros <-. exists d1. done.
Qed.

(** ** Witnesses *)

(** Import at midnight: the two calls read May 7 and May 8, 2024. *)
Definition w_day1 : datetime := DateTime 2024 5 7.
Definition w_day2 : datetime := DateTime 2024 5 8.

Lemma w_day1_valid : valid_date w_day1.
Proof. unfold valid_date; simpl; lia. Qed.

Lemma w_day2_valid : valid_date w_day2.
Proof. unfold valid_date; simpl; lia. Qed.

Lemma date_string_inj_witness :
  valid_date w_day1 /\ valid_date w_day1 /\
  get_current_date_string w_day1 = get_current_date_string w_day1 /\ w_day1 = w_day1.
Proof.
  split; [exact w_day1_valid|]. split; [exact w_day1_valid|]. split; [reflexivity|].
  exact (date_string_inj w_day1 w_day1 w_day1_valid w_day1_valid eq_refl).
Defined.

Lemma summary_prompt_one_date_witness :
  valid_date w_day1 /\ valid_date w_day2 /\
  ((exists d, valid_date d /\ summary_prompt w_day1 w_day2 =
      SUMMARY_SYSTEM_PROMPT (get_current_date_string d) (get_current_date_string d)) <-> w_day1 = w_day2).
Proof.
  split; [exact w_day1_valid|]. split; [exact w_day2_valid|].
  exact (summary_prompt_one_date w_day1 w_day2 w_day1_valid w_day2_valid).
Defined.
