(* ===== verification/ReprProps.v ===== *)
(** * ReprProps: the summarizer's input determines the conversation

    [get_conversation_summary] sends the model one user turn,
    [str(sessions[session_id])] (line 219): the [repr] of the list of turn
    dicts.  This file gives the inverse of that rendering: [unrepr_str]
    reads a Python str literal as [repr] writes it (any quote, the escapes
    [\\], [\'], [\t], [\n], [\r], [\xHH], [\uHHHH], [\UHHHHHHHH]) and
    [unrepr_turns] reads the list.  Reading back what [repr] writes gives
    the turns again, for any Unicode database: nothing of the history is
    lost or merged on the way to the model. *)

From S2P Require Import Prelude PyText PyValue Json JsonProps Store Prompts Proc Handlers.

(** ** Hexadecimal digits *)

(** The value of a list of hexadecimal digits, most significant first. *)
Definition hex_value (ds : pystr) : option N :=
  foldl (fun acc d => a ← acc; v ← hex_val d; Some (a * 16 + v)%N) (Some 0%N) ds.

Lemma hex_value_snoc ds d : hex_value (ds ++ [d]) = (a ← hex_value ds; v ← hex_val d; Some (a * 16 + v)%N).
Proof. unfold hex_value. by rewrite foldl_app. Qed.

(** [hex_fixed w c] writes the [w] low hexadecimal digits of [c]. *)
Lemma hex_value_fixed w c : hex_value (hex_fixed w c) = Some (c mod 16 ^ N.of_nat w)%N.
Proof.
  revert c. induction w as [|w IH]; intros c; [simpl; by rewrite N.mod_1_r|].
  cbn [hex_fixed]. rewrite hex_value_snoc, IH. simpl.
  rewrite hex_val_digit by (apply N.mod_lt; lia). simpl. f_equal.
  rewrite Nat2N.inj_succ, N.pow_succ_r', N.Div0.mod_mul_r. lia.
Qed.

(** ** Reading a str literal *)

Definition ocons {A} (c : N) (o : option (pystr * A)) : option (pystr * A) :=
  match o with Some (s, rest) => Some (c :: s, rest) | None => None end.

(** The body of a str literal with quote [q], up to the closing quote:
    the text and what follows the quote. *)
Fixpoint unrepr_body (fuel : nat) (q : N) (l : pystr) : option (pystr * pystr) :=
  match fuel with
  | O => None
  | S f =>
      match l with
      | [] => None
      | c :: r =>
          if (c =? q)%N then Some ([], r)
          else if (c =? 92)%N then
            match r with
            | [] => None
            | e :: r1 =>
                let hex w := v ← hex_value (take w r1);
                             if bool_decide (length r1 < w)%nat then None
                             else ocons v (unrepr_body f q (drop w r1)) in
                if (e =? 116)%N then ocons 9%N (unrepr_body f q r1)
                else if (e =? 110)%N then ocons 10%N (unrepr_body f q r1)
                else if (e =? 114)%N then ocons 13%N (unrepr_body f q r1)
                else if (e =? 120)%N then hex 2%nat
                else if (e =? 117)%N then hex 4%nat
                else if (e =? 85)%N then hex 8%nat
                else ocons e (unrepr_body f q r1)
            end
          else ocons c (unrepr_body f q r)
      end
  end.

(** A str literal: the quote, then the body. *)
Definition unrepr_str (l : pystr) : option (pystr * pystr) :=
  match l with
  | q :: r => if (q =? 39)%N || (q =? 34)%N then unrepr_body (length l) q r else None
  | [] => None
  end.

(** The code points a str can hold. *)
Definition code_point (c : N) : bool := (c <=? 0x10ffff)%N.

(** ** Reading the turn list *)

Definition role_of_str (s : pystr) : option role :=
  if decide (s = txt "system") then Some System
  else if decide (s = txt "user") then Some User
  else if decide (s = txt "assistant") then Some Assistant
  else None.

(** One turn dict as [repr] writes it: [{'role': r, 'content': c}]. *)
Definition unrepr_turn (l : pystr) : option (turn * pystr) :=
  r1 ← strip_prefix (txt "{'role': ") l;
  '(rs, r2) ← unrepr_str r1;
  r ← role_of_str rs;
  r3 ← strip_prefix (txt ", 'content': ") r2;
  '(c, r4) ← unrepr_str r3;
  r5 ← strip_prefix (txt "}") r4;
  Some (Turn r c, r5).

(** The items of the list after the opening bracket, through the closing
    one. *)
Fixpoint unrepr_items (fuel : nat) (l : pystr) : option (list turn * pystr) :=
  match fuel with
  | O => None
  | S f =>
      '(t, r) ← unrepr_turn l;
      match r with
      | 93 :: r' => Some ([t], r')
      | 44 :: 32 :: r' => '(ts, r'') ← unrepr_items f r'; Some (t :: ts, r'')
      | _ => None
      end%N
  end.

(** The whole text [str(sessions[id])]. *)
Definition unrepr_turns (l : pystr) : option (list turn) :=
  match l with
  | [91; 93] => Some []
  | 91 :: r => '(ts, rest) ← unrepr_items (length r) r; if decide (rest = []) then Some ts else None
  | _ => None
  end%N.

Lemma strip_prefix_app p l : strip_prefix p (p ++ l) = Some l.
Proof. induction p as [|a p IH]; [done|]. simpl. by rewrite N.eqb_refl. Qed.

Lemma role_of_str_role r : role_of_str (role_str r) = Some r.
Proof. by destruct r. Qed.

Lemma role_str_code_points r : forallb code_point (role_str r) = true.
Proof. by destruct r. Qed.

Section Unrepr.
Context `{UnicodeDB} `{FloatRuntime}.

Lemma length_hex_fixed w c : length (hex_fixed w c) = w.
Proof. revert c. induction w; intros c; simpl; [done|]. rewrite length_app, IHw. simpl. lia. Qed.

Lemma hex_escape_read f q w c l : (c < 16 ^ N.of_nat w)%N ->
  (v ← hex_value (take w (hex_fixed w c ++ l));
   if bool_decide (length (hex_fixed w c ++ l) < w)%nat then None
   else ocons v (unrepr_body f q (drop w (hex_fixed w c ++ l)))) = ocons c (unrepr_body f q l).
Proof.
  intros Hc. rewrite take_app_length' by (symmetry; apply length_hex_fixed).
  rewrite drop_app_length' by (symmetry; apply length_hex_fixed).
  rewrite hex_value_fixed, N.mod_small by done. simpl.
  rewrite bool_decide_false; [done|]. rewrite length_app, length_hex_fixed. lia.
Qed.

(** One character of [repr]'s body is read back, for either quote. *)
Lemma unrepr_repr_char f q c l : (q = 39 \/ q = 34)%N -> code_point c = true ->
  unrepr_body (S f) q (repr_char q c ++ l) = ocons c (unrepr_body f q l).
Proof.
  intros Hq Hc. unfold code_point in Hc. nbool. unfold repr_char, c_backslash.
  destruct ((c =? q)%N || (c =? 92)%N) eqn:E1.
  { apply orb_true_iff in E1 as [E1|E1]; nbool; subst c; cbn [app unrepr_body]; ndecide; done. }
  apply orb_false_iff in E1 as [E1 E2]. nbool.
  destruct (N.eqb_spec c 9); [subst; cbn [app unrepr_body]; ndecide; done|].
  destruct (N.eqb_spec c 10); [subst; cbn [app unrepr_body]; ndecide; done|].
  destruct (N.eqb_spec c 13); [subst; cbn [app unrepr_body]; ndecide; done|].
  destruct ((c <? 32)%N || (c =? 127)%N) eqn:E3.
  { cbn [app unrepr_body]; ndecide. apply hex_escape_read.
    apply orb_true_iff in E3 as [E3|E3]; nbool; simpl; lia. }
  apply orb_false_iff in E3 as [E3 E4]. nbool.
  destruct (N.ltb_spec c 127); [cbn [app unrepr_body]; ndecide; done|].
  destruct (isprintable c); [cbn [app unrepr_body]; ndecide; done|].
  destruct (N.leb_spec c 255); [cbn [app unrepr_body]; ndecide; apply hex_escape_read; simpl; lia|].
  destruct (N.leb_spec c 65535); cbn [app unrepr_body]; ndecide; apply hex_escape_read; simpl; lia.
Qed.

Lemma unrepr_body_repr f q s rest : (q = 39 \/ q = 34)%N -> forallb code_point s = true ->
  (length s < f)%nat ->
  unrepr_body f q (flat_map (repr_char q) s ++ q :: rest) = Some (s, rest).
Proof.
  intros Hq. revert f. induction s as [|c s IH]; intros [|f] Hs Hf; simpl in Hf; try lia.
  - cbn [flat_map app unrepr_body]. by rewrite N.eqb_refl.
  - apply andb_true_iff in Hs as [Hc Hs]. cbn [flat_map]. rewrite <- app_assoc.
    rewrite unrepr_repr_char by done. rewrite IH by (done || lia). done.
Qed.

Lemma repr_char_length q c : (1 <= length (repr_char q c))%nat.
Proof. unfold repr_char. repeat case_match; simpl; lia. Qed.

Lemma length_flat_map_repr q s : (length s <= length (flat_map (repr_char q) s))%nat.
Proof.
  induction s as [|c s IH]; simpl; [lia|]. rewrite length_app. pose proof (repr_char_length q c). lia.
Qed.

Lemma repr_quote_cases s : (repr_quote s = 39 \/ repr_quote s = 34)%N.
Proof. unfold repr_quote, c_squote, c_dquote. case_match; auto. Qed.

(** [unrepr_str] reads back what [repr] writes for a str. *)
Lemma unrepr_str_repr s rest : forallb code_point s = true ->
  unrepr_str (repr_str s ++ rest) = Some (s, rest).
Proof.
  intros Hs. unfold repr_str. cbn [app unrepr_str].
  destruct (repr_quote_cases s) as [Hq|Hq]; rewrite Hq;
    cbn [N.eqb Pos.eqb orb]; rewrite <- app_assoc; cbn [app];
    (apply unrepr_body_repr; [auto|done|]);
    rewrite length_cons, length_app; pose proof (length_flat_map_repr (repr_quote s) s) as Hl;
    rewrite Hq in Hl; simpl; lia.
Qed.

(** The [repr] of a turn dict. *)
Lemma py_repr_turn_dict t :
  py_repr (turn_dict t) =
  txt "{'role': " ++ repr_str (role_str (turn_role t)) ++ txt ", 'content': "
    ++ repr_str (turn_content t) ++ txt "}".
Proof.
  unfold turn_dict, dict_of. cbn [foldl dict_set fst snd].
  rewrite decide_False by (vm_compute; discriminate).
  cbn [py_repr map join mjoin fst snd list_join py_repr]. rewrite <- !app_assoc.
  reflexivity.
Qed.

Lemma unrepr_turn_repr t rest : forallb code_point (turn_content t) = true ->
  unrepr_turn (py_repr (turn_dict t) ++ rest) = Some (t, rest).
Proof.
  intros Hc. rewrite py_repr_turn_dict. unfold unrepr_turn. rewrite <- !app_assoc.
  rewrite strip_prefix_app. cbn [mbind option_bind].
  rewrite unrepr_str_repr by apply role_str_code_points. cbn [mbind option_bind].
  rewrite role_of_str_role. cbn [mbind option_bind].
  rewrite strip_prefix_app. cbn [mbind option_bind].
  rewrite unrepr_str_repr by done. cbn [mbind option_bind].
  rewrite strip_prefix_app. by destruct t.
Qed.

Lemma turn_repr_length t : (1 <= length (py_repr (turn_dict t)))%nat.
Proof. rewrite py_repr_turn_dict. simpl. lia. Qed.

Lemma unrepr_items_repr f ts rest :
  Forall (fun t => forallb code_point (turn_content t) = true) ts -> ts <> [] ->
  (length ts <= f)%nat ->
  unrepr_items f (join (txt ", ") (map (fun t => py_repr (turn_dict t)) ts) ++ 93%N :: rest) =
  Some (ts, rest).
Proof.
  revert f. induction ts as [|t ts IH]; intros [|f] Hv Hne Hf; simpl in Hf; try lia; try done.
  apply Forall_cons in Hv as [Ht Hv]. destruct ts as [|t2 ts].
  - cbn [map]. rewrite join_single. cbn [unrepr_items].
    rewrite unrepr_turn_repr by done. reflexivity.
  - cbn [map]. rewrite join_cons_cons, <- !app_assoc. cbn [unrepr_items].
    rewrite unrepr_turn_repr by done. cbn [mbind option_bind].
    change (txt ", " ++ ?x) with (44%N :: 32%N :: x).
    specialize (IH f Hv ltac:(done) ltac:(simpl in *; lia)). cbn [map] in IH. cbv iota beta. rewrite IH. reflexivity.
Qed.

Lemma length_join_repr_turns ts : ts <> [] ->
  (length ts <= length (join (txt ", ") (map (fun t => py_repr (turn_dict t)) ts)))%nat.
Proof.
  intros Hne. pose proof (length_join_map (txt ", ") (fun t => py_repr (turn_dict t)) ts Hne) as Hj.
  assert (Hle : Forall (fun t => 1 <= length (py_repr (turn_dict t)))%nat ts).
  { apply Forall_forall. intros t _. apply turn_repr_length. }
  pose proof (sum_list_with_le _ _ _ Hle) as Hs.
  rewrite sum_list_with_plus, sum_list_with_const in Hj. rewrite sum_list_with_const in Hs.
  change (length (txt ", ")) with 2%nat in Hj. lia.
Qed.

(** [str(sessions[id])] is read back as the turns. *)
Lemma unrepr_turns_repr ts :
  Forall (fun t => forallb code_point (turn_content t) = true) ts ->
  unrepr_turns (py_str (turns_value ts)) = Some ts.
Proof.
  intros Hv. destruct ts as [|t ts']; [reflexivity|].
  unfold turns_value, py_str. cbn [py_repr]. rewrite map_map.
  pose proof (length_join_repr_turns (t :: ts') ltac:(done)) as Hlen.
  set (J := join (txt ", ") (map (fun t => py_repr (turn_dict t)) (t :: ts'))) in *.
  assert (HJ : exists r, J ++ [93%N] = 123%N :: r).
  { subst J. cbn [map join]. rewrite py_repr_turn_dict. eexists. rewrite <- !app_assoc. reflexivity. }
  destruct HJ as [r Hr]. cbn [app]. rewrite Hr. cbn [unrepr_turns]. rewrite <- Hr.
  subst J. rewrite unrepr_items_repr by (done || (rewrite length_app; lia)). reflexivity.
Qed.

(** C25. The summarizer sends the whole history, unchanged: the user turn
    of the summary request, [str(sessions[session_id])], reads back as
    exactly the session's turns, whatever the Unicode database, so two
    different conversations never yield the same request. *)
Theorem summary_request_history date1 date2 ts :
  Forall (fun t => forallb code_point (turn_content t) = true) ts ->
  exists u, cr_messages (summary_request date1 date2 ts) =
              [Turn System (summary_prompt date1 date2); Turn User u] /\
            unrepr_turns u = Some ts.
Proof. intros Hv. eexists. split; [reflexivity|]. by apply unrepr_turns_repr. Qed.

End Unrepr.

(** ** Witnesses *)

Section Witnesses.
Local Existing Instances Latin1DB LexemeFloats.

(** A history with a quote, a backslash, a newline, a non-printable
    Latin-1 character and an astral one. *)
Definition w_history : list turn :=
  w_turns ++ [Turn User (txt "Acme's \ team" ++ [10; 173; 128512]%N)].

Lemma summary_request_history_witness :
  Forall (fun t => forallb code_point (turn_content t) = true) w_history /\
  exists u, cr_messages (summary_request w_date w_date w_history) =
              [Turn System (summary_prompt w_date w_date); Turn User u] /\
            unrepr_turns u = Some w_history.
Proof.
  assert (Hv : Forall (fun t => forallb code_point (turn_content t) = true) w_history)
    by (repeat constructor).
  split; [exact Hv|]. exact (summary_request_history w_date w_date w_history Hv).
Defined.

End Witnesses.
