(* ===== verification/Concurrency.v ===== *)
(** * Concurrency: the handlers as cooperative tasks over one [sessions]

    The endpoints are [async def]s served by one event loop.  A handler
    runs without interruption until it awaits the OpenAI client
    ([await openai.ChatCompletion.acreate], lines 198 and 222); there it
    suspends, and the loop may run other requests, which read and write
    the same [sessions] dict, before the model's answer resumes it.  The
    webhook call [requests.post] (line 160) is synchronous: it blocks the
    loop and is not a suspension point.

    A task ([thread]) is the request it serves and its state: not yet
    started ([TRun]), suspended at a model call ([TWait], with the request
    sent and the continuation), or finished ([TDone]).  [advance] runs a
    task to its next suspension point; a scheduling decision ([label])
    accepts a new request, starts a task, or delivers a model answer to a
    suspended one.  [exec] runs a schedule.  The webhook's answers are a
    parameter of the section ([post]).

    The request sent to the model is the turn list at the moment of the
    call: [acreate] serialises [messages] before its first suspension. *)

From S2P Require Import Prelude PyText PyValue Json Store Prompts Proc Handlers Lifecycle.

Inductive tstate : Type :=
| TRun (p : proc pyval)
| TWait (req : chat_request) (k : chat_outcome -> proc pyval)
| TDone (o : outcome pyval).

Record thread : Type := Thread { th_request : request; th_state : tstate }.

(** The event loop: the shared store, the tasks in order of arrival, and
    the model calls answered so far with their answers. *)
Record cfg : Type := Cfg {
  cf_store : store;
  cf_threads : list thread;
  cf_trace : list (chat_request * chat_outcome)
}.

Inductive label : Type :=
| LSpawn (q : request)
| LRun (i : nat)
| LResume (i : nat) (o : chat_outcome).

Section Loop.
Context `{UnicodeDB} `{FloatRuntime}.
Variables date1 date2 : datetime.
Variable post : pystr -> pystr -> Z -> post_outcome.

(** Run a task until it suspends at a model call or finishes: store
    actions and webhook posts happen on the way. *)
Fixpoint advance (p : proc pyval) (st : store) : tstate * store :=
  match p with
  | Ret v => (TDone (Returned v), st)
  | Raise e => (TDone (Raised e), st)
  | Act (AStore o) k => let '(x, st') := op_exec o st in advance (k x) st'
  | Act (AChat req) k => (TWait req k, st)
  | Act (APost url body t) k => advance (k (post url body t)) st
  end.

(** One scheduling decision. *)
Definition step (c : cfg) (l : label) : option cfg :=
  match l with
  | LSpawn q =>
      Some (Cfg (cf_store c) (cf_threads c ++ [Thread q (TRun (handler date1 date2 q))]) (cf_trace c))
  | LRun i =>
      match cf_threads c !! i with
      | Some (Thread q (TRun p)) =>
          let '(s', st') := advance p (cf_store c) in
          Some (Cfg st' (<[i := Thread q s']> (cf_threads c)) (cf_trace c))
      | _ => None
      end
  | LResume i o =>
      match cf_threads c !! i with
      | Some (Thread q (TWait req k)) =>
          let '(s', st') := advance (k o) (cf_store c) in
          Some (Cfg st' (<[i := Thread q s']> (cf_threads c)) (cf_trace c ++ [(req, o)]))
      | _ => None
      end
  end.

Fixpoint exec (c : cfg) (sched : list label) : option cfg :=
  match sched with
  | [] => Some c
  | l :: sched' => c' ← step c l; exec c' sched'
  end.

(** The configurations the loop can reach from a store, by any schedule. *)
Inductive creach (st0 : store) : cfg -> Prop :=
| creach_init : creach st0 (Cfg st0 [] [])
| creach_step c l c' : creach st0 c -> step c l = Some c' -> creach st0 c'.

End Loop.

(** ** What a task may do to the store *)

(** The store actions allowed to a task serving [sid]: reads of any id;
    writes only to [sid], of the initial system prompt or of a user or
    assistant turn. *)
Definition op_ok (sid : pystr) (o : store_op) : Prop :=
  match o with
  | OMem _ | OGet _ => True
  | OSet s ts => s = sid /\ ts = [Turn System CHAT_SYSTEM_PROMPT]
  | OAppend s t => s = sid /\ turn_role t <> System
  | ODel s => s = sid
  end.

(** Every store action of [p], on every path, is allowed to [sid]. *)
Inductive confined (sid : pystr) {A} : proc A -> Prop :=
| confined_ret v : confined sid (Ret v)
| confined_raise e : confined sid (Raise e)
| confined_store o k : op_ok sid o -> (forall x, confined sid (k x)) -> confined sid (Act (AStore o) k)
| confined_chat req k : (forall x, confined sid (k x)) -> confined sid (Act (AChat req) k)
| confined_post url body t k : (forall x, confined sid (k x)) -> confined sid (Act (APost url body t) k).

#[export] Hint Constructors confined : checkin.

Lemma confined_bind {A B} sid (p : proc A) (f : A -> proc B) :
  confined sid p -> (forall v, confined sid (f v)) -> confined sid (p ≫= f).
Proof. induction 1; intros Hf; simpl; auto with checkin. Qed.

Lemma confined_try {A} sid sel (p : proc A) h :
  confined sid p -> (forall e, confined sid (h e)) -> confined sid (try_except sel p h).
Proof. induction 1; intros Hh; simpl; try destruct (sel e); auto with checkin. Qed.

Lemma confined_of_outcome {A} sid (o : outcome A) : confined sid (of_outcome o).
Proof. destruct o; constructor. Qed.

Section Confinement.
Context `{UnicodeDB} `{FloatRuntime}.
Variables date1 date2 : datetime.

Lemma confined_py_post sid url body t : confined sid (py_post url body t).
Proof. unfold py_post. destruct (json_body body); repeat constructor. intros []; constructor. Qed.

(** Prove [confined] of a composite statement by its structure. *)
Ltac confine :=
  repeat first
    [ apply confined_bind | apply confined_try | apply confined_of_outcome
    | apply confined_py_post | progress intros | case_match
    | apply confined_store; [simpl; split; done|]
    | apply confined_store; [simpl; done|]
    | constructor ].

Lemma confined_get_ai_response sid : confined sid (get_ai_response sid).
Proof. unfold get_ai_response, py_get, py_chat, py_append. confine. Qed.

Lemma confined_handler q : confined (target q) (handler date1 date2 q).
Proof.
  destruct q as [r|r|r]; simpl.
  - unfold start_chat, py_set. confine.
  - unfold send_message, py_mem, py_append. confine.
  - unfold submit_chat, py_mem, py_del, get_conversation_summary, deliver, py_get, py_chat,
      http_error, raise_for_status. confine.
Qed.

End Confinement.

(** ** The invariant the loop keeps *)

(** What survives any interleaving: every session starts with the chat
    system prompt and holds no other system turn. *)
Definition shape_session (ts : list turn) : bool :=
  match ts with
  | t :: rest => bool_decide (t = Turn System CHAT_SYSTEM_PROMPT) && forallb (fun u => negb (is_role System u)) rest
  | [] => false
  end.

Definition shape_store (st : store) : Prop := map_Forall (fun _ ts => shape_session ts = true) st.

Definition tstate_ok (sid : pystr) (s : tstate) : Prop :=
  match s with
  | TRun p => confined sid p
  | TWait _ k => forall o, confined sid (k o)
  | TDone _ => True
  end.

Definition cfg_ok (c : cfg) : Prop :=
  shape_store (cf_store c) /\ Forall (fun th => tstate_ok (target (th_request th)) (th_state th)) (cf_threads c).

Lemma shape_session_snoc ts t :
  shape_session ts = true -> turn_role t <> System -> shape_session (ts ++ [t]) = true.
Proof.
  destruct ts as [|u rest]; [done|]. intros Hs Ht. cbn [shape_session app] in *.
  apply andb_true_iff in Hs as [Hu Hs]. rewrite Hu, forallb_app, Hs.
  destruct t as [[] ?]; simpl in *; done.
Qed.

(** A store action allowed to [sid] keeps the shape and leaves the other
    ids alone. *)
Lemma op_exec_ok sid o st :
  op_ok sid o -> shape_store st ->
  shape_store (op_exec o st).2 /\ forall b, b <> sid -> (op_exec o st).2 !! b = st !! b.
Proof.
  intros Ho Hst. destruct o as [s|s ts|s|s t|s]; simpl in *.
  - done.
  - destruct Ho as [-> ->]. split; [by apply map_Forall_insert_2|].
    intros b Hb. unfold st_set. by rewrite lookup_insert_ne.
  - done.
  - destruct Ho as [-> Ht]. unfold st_append. destruct (st !! sid) as [ts|] eqn:E; simpl; [|done].
    split; [|intros b Hb; by rewrite lookup_insert_ne].
    apply map_Forall_insert_2; [|done]. apply shape_session_snoc; [|done].
    exact (map_Forall_lookup_1 _ _ _ _ Hst E).
  - subst s. unfold st_del. destruct (st !! sid) eqn:E; simpl; [|done].
    split; [by apply map_Forall_delete|]. intros b Hb. by rewrite lookup_delete_ne.
Qed.

Section Advance.
Context `{UnicodeDB} `{FloatRuntime}.
Variable post : pystr -> pystr -> Z -> post_outcome.

(** A confined task, run to its next suspension, keeps the shape, leaves
    the other ids alone and stays confined. *)
Lemma advance_ok sid p st :
  confined sid p -> shape_store st ->
  shape_store (advance post p st).2 /\
  (forall b, b <> sid -> (advance post p st).2 !! b = st !! b) /\
  tstate_ok sid (advance post p st).1.
Proof.
  intros Hp. revert st. induction Hp as [v|e|o k Ho Hk IH|req k Hk IH|url body t k Hk IH];
    intros st Hst; simpl; try done.
  - pose proof (op_exec_ok sid o st Ho Hst) as [Hst' Hne].
    destruct (op_exec o st) as [x st'] eqn:E. simpl in *.
    destruct (IH x st' Hst') as (? & Hne' & ?). split; [done|]. split; [|done].
    intros b Hb. rewrite Hne', Hne; done.
  - by apply IH.
Qed.

End Advance.

(** The task a scheduling decision runs. *)
Definition label_task (l : label) : option nat :=
  match l with
  | LSpawn _ => None
  | LRun i | LResume i _ => Some i
  end.

Section Steps.
Context `{UnicodeDB} `{FloatRuntime}.
Variables date1 date2 : datetime.
Variable post : pystr -> pystr -> Z -> post_outcome.

(** A step keeps [cfg_ok], and a session whose entry changes is the one
    the running task serves. *)
Lemma step_ok c l c' :
  cfg_ok c -> step date1 date2 post c l = Some c' ->
  cfg_ok c' /\
  forall b, cf_store c' !! b <> cf_store c !! b ->
    exists i th, label_task l = Some i /\ cf_threads c !! i = Some th /\ target (th_request th) = b.
Proof.
  intros [Hst Hths] Hstep. destruct l as [q|i|i o]; simpl in Hstep.
  - simplify_eq. split; [|done]. split; [done|]. simpl. apply Forall_app. split; [done|].
    repeat constructor. apply confined_handler.
  - destruct (cf_threads c !! i) as [[q [p|req k|r]]|] eqn:Hi; try done.
    pose proof (Forall_lookup_1 _ _ _ _ Hths Hi) as Hp. simpl in Hp.
    destruct (advance_ok post (target q) p (cf_store c) Hp Hst) as (Hst' & Hne & Hs').
    destruct (advance post p (cf_store c)) as [s' st'] eqn:E. simplify_eq. simpl in *.
    split; [split; [done|by apply Forall_insert]|].
    intros b Hb. exists i, (Thread q (TRun p)). split; [done|]. split; [done|].
    simpl. destruct (decide (target q = b)) as [|Hqb]; [done|]. by rewrite Hne in Hb.
  - destruct (cf_threads c !! i) as [[q [p|req k|r]]|] eqn:Hi; try done.
    pose proof (Forall_lookup_1 _ _ _ _ Hths Hi) as Hk. simpl in Hk.
    destruct (advance_ok post (target q) (k o) (cf_store c) (Hk o) Hst) as (Hst' & Hne & Hs').
    destruct (advance post (k o) (cf_store c)) as [s' st'] eqn:E. simplify_eq. simpl in *.
    split; [split; [done|by apply Forall_insert]|].
    intros b Hb. exists i, (Thread q (TWait req k)). split; [done|]. split; [done|].
    simpl. destruct (decide (target q = b)) as [|Hqb]; [done|]. by rewrite Hne in Hb.
Qed.

Lemma creach_ok st0 c : shape_store st0 -> creach date1 date2 post st0 c -> cfg_ok c.
Proof.
  intros Hst0. induction 1 as [|c l c' _ IH Hstep].
  - split; [done|constructor].
  - by apply (step_ok c l c').
Qed.

End Steps.

Section Safety.
Context `{UnicodeDB} `{FloatRuntime}.
Variables date1 date2 : datetime.
Variable post : pystr -> pystr -> Z -> post_outcome.

(** C18. Whatever requests arrive and however the event loop interleaves
    them at their model calls, every session in [sessions] starts with the
    chat system prompt and holds no other system turn. *)
Theorem conc_shape_invariant st0 c :
  shape_store st0 -> creach date1 date2 post st0 c -> shape_store (cf_store c).
Proof. intros Hst0 Hr. exact (proj1 (creach_ok date1 date2 post st0 c Hst0 Hr)). Qed.

(** C19. No cross-session contention: in any interleaving, a step that
    changes the entry of an id in [sessions] is a step of a task serving
    a request addressed to that id. *)
Theorem session_isolation st0 c l c' b :
  shape_store st0 -> creach date1 date2 post st0 c -> step date1 date2 post c l = Some c' ->
  cf_store c' !! b <> cf_store c !! b ->
  exists i th, label_task l = Some i /\ cf_threads c !! i = Some th /\ target (th_request th) = b.
Proof.
  intros Hst0 Hr Hstep. exact (proj2 (step_ok date1 date2 post c l c' (creach_ok date1 date2 post st0 c Hst0 Hr) Hstep) b).
Qed.

End Safety.

(** ** The handlers as tasks *)

Section Tasks.
Context `{UnicodeDB} `{FloatRuntime}.
Variables date1 date2 : datetime.
Variable post : pystr -> pystr -> Z -> post_outcome.

(** How [get_ai_response] ends when its model call is answered with [o],
    in whatever store the task finds on resumption. *)
Definition ai_resume (sid : pystr) (o : chat_outcome) (st : store) : outcome pystr * store :=
  match o with
  | ChatOk c =>
      match st !! sid with
      | Some ts => (Returned c, <[sid := ts ++ [Turn Assistant c]]> st)
      | None => (Raised (Exception (txt "OpenAI API error: " ++ exc_str (KeyError sid))), st)
      end
  | ChatErr e => (Raised (Exception (txt "OpenAI API error: " ++ exc_str e)), st)
  end.

(** What an endpoint answers for the result of [get_ai_response]. *)
Definition endpoint_outcome (o : outcome pystr) : outcome pyval :=
  match o with
  | Returned c => Returned (message_reply c)
  | Raised e => Raised (error_500 e)
  end.

Definition message_resumes (sid : pystr) (k : chat_outcome -> proc pyval) : Prop :=
  forall o st, advance post (k o) st =
    let '(r, st') := ai_resume sid o st in (TDone (endpoint_outcome r), st').

(** [send_message] on a session holding [ts] runs to the model call with
    the user's turn appended; when resumed, it appends the reply to
    whatever the session then holds, or fails if it is gone. *)
Lemma advance_send_message r st ts :
  mr_sessionId r ↦ ts in st ->
  exists k, advance post (send_message r) st =
    (TWait (chat_request_of (ts ++ [Turn User (mr_message r)])) k,
     <[mr_sessionId r := ts ++ [Turn User (mr_message r)]]> st) /\
    message_resumes (mr_sessionId r) k.
Proof.
  intros Hs. unfold send_message. simpl. rewrite (st_mem_Some _ _ _ Hs). simpl.
  rewrite (st_append_Some _ _ _ _ Hs). simpl. unfold st_get. rewrite lookup_insert_eq. simpl.
  eexists. split; [reflexivity|]. intros [c|e] st'; simpl; [|done].
  unfold st_append. destruct (st' !! mr_sessionId r); reflexivity.
Qed.

(** The webhook delivery of [submit_chat] with the webhook answering as
    [post] says. *)
Definition deliver_post (summary : pyval) : outcome unit :=
  match json_body summary with
  | Raised ve => Raised (HTTPException 502 (webhook_detail summary (exc_str ve)))
  | Returned body =>
      match post WEBHOOK_URL body 10 with
      | PostOk r =>
          if status_fails r then Raised (HTTPException 502 (webhook_detail summary (http_error_msg r)))
          else Returned tt
      | PostErr m => Raised (HTTPException 502 (webhook_detail summary m))
      end
  end.

Definition submit_resumes (sid : pystr) (k : chat_outcome -> proc pyval) : Prop :=
  forall o st, advance post (k o) st =
    match summary_of_reply o with
    | Raised e => (TDone (Raised (error_500 e)), st)
    | Returned v =>
        match deliver_post v with
        | Raised e => (TDone (Raised (error_500 e)), st)
        | Returned _ =>
            match st !! sid with
            | Some _ => (TDone (Returned (submit_reply v)), delete sid st)
            | None => (TDone (Raised (error_500 (KeyError sid))), st)
            end
        end
    end.

(** [submit_chat] on a session holding [ts] suspends at the summary
    request for [ts] without touching the store; when resumed it decodes
    the reply, posts it and deletes whatever the session then is. *)
Lemma advance_submit_chat r st ts :
  sr_sessionId r ↦ ts in st ->
  exists k, advance post (submit_chat date1 date2 r) st =
    (TWait (summary_request date1 date2 ts) k, st) /\ submit_resumes (sr_sessionId r) k.
Proof.
  intros Hs. unfold submit_chat. simpl. rewrite (st_mem_Some _ _ _ Hs). simpl.
  unfold st_get. rewrite Hs. simpl.
  eexists. split; [reflexivity|]. intros o st'. unfold summary_of_reply.
  destruct o as [text|e]; simpl; [|done].
  destruct (loads _) as [v|e]; simpl; [|done].
  unfold deliver_post, deliver, py_post. destruct (json_body v) as [body|ve]; simpl; [|done].
  destruct (post _ _ _) as [resp|m]; simpl; [|done].
  rewrite raise_for_status_cases. unfold status_fails. destruct (_ && _); simpl; [done|].
  unfold st_del. by destruct (st' !! sr_sessionId r).
Qed.

End Tasks.

(** ** Races on one session id *)

Section Races.
Context `{UnicodeDB} `{FloatRuntime}.
Variables date1 date2 : datetime.
Variable post : pystr -> pystr -> Z -> post_outcome.

(** C20. Two messages on one session whose model calls overlap: both
    user turns are appended before either reply, the second model call
    sees both messages, and the session ends with two user turns followed
    by two assistant turns, which no sequential order of the requests
    produces (compare C10).  Both requests succeed. *)
Theorem two_messages_interleave r1 r2 st ts c1 c2 :
  mr_sessionId r2 = mr_sessionId r1 -> mr_sessionId r1 ↦ ts in st ->
  exec date1 date2 post (Cfg st [] [])
    [LSpawn (ReqMessage r1); LSpawn (ReqMessage r2); LRun 0; LRun 1;
     LResume 0 (ChatOk c1); LResume 1 (ChatOk c2)] =
  Some (Cfg (<[mr_sessionId r1 := ts ++ [Turn User (mr_message r1); Turn User (mr_message r2);
                                           Turn Assistant c1; Turn Assistant c2]]> st)
            [Thread (ReqMessage r1) (TDone (Returned (message_reply c1)));
             Thread (ReqMessage r2) (TDone (Returned (message_reply c2)))]
            [(chat_request_of (ts ++ [Turn User (mr_message r1)]), ChatOk c1);
             (chat_request_of (ts ++ [Turn User (mr_message r1); Turn User (mr_message r2)]), ChatOk c2)]).
Proof.
  intros Heq Hs. destruct (advance_send_message post r1 st ts Hs) as (k1 & H1 & R1).
  cbn [exec step mbind option_bind cf_threads cf_store cf_trace app lookup list_lookup handler].
  rewrite H1. cbn [mbind option_bind cf_threads cf_store cf_trace insert list_insert lookup list_lookup].
  destruct (advance_send_message post r2 (<[mr_sessionId r1 := ts ++ [Turn User (mr_message r1)]]> st)
              (ts ++ [Turn User (mr_message r1)])) as (k2 & H2 & R2).
  { by rewrite Heq, lookup_insert_eq. }
  rewrite H2. cbn [mbind option_bind cf_threads cf_store cf_trace insert list_insert lookup list_lookup].
  rewrite R1. unfold ai_resume. rewrite Heq, insert_insert_eq, lookup_insert_eq.
  cbn [mbind option_bind cf_threads cf_store cf_trace insert list_insert lookup list_lookup].
  rewrite R2. unfold ai_resume. rewrite Heq, lookup_insert_eq, insert_insert_eq.
  cbn [mbind option_bind cf_threads cf_store cf_trace insert list_insert lookup list_lookup endpoint_outcome app].
  rewrite insert_insert_eq, <- !app_assoc. reflexivity.
Qed.

(** C21. A message sent while the summary of its session is being
    generated: the message succeeds and its reply is stored, but the
    summary was requested from the turns before it and the delivery then
    deletes the session, so the exchange is in neither the summary nor
    the store. *)
Theorem submit_overtakes_message rs rm st ts text v c :
  mr_sessionId rm = sr_sessionId rs -> sr_sessionId rs ↦ ts in st ->
  summary_of_reply (ChatOk text) = Returned v -> deliver_post post v = Returned tt ->
  exec date1 date2 post (Cfg st [] [])
    [LSpawn (ReqSubmit rs); LSpawn (ReqMessage rm); LRun 0; LRun 1;
     LResume 1 (ChatOk c); LResume 0 (ChatOk text)] =
  Some (Cfg (delete (sr_sessionId rs) st)
            [Thread (ReqSubmit rs) (TDone (Returned (submit_reply v)));
             Thread (ReqMessage rm) (TDone (Returned (message_reply c)))]
            [(chat_request_of (ts ++ [Turn User (mr_message rm)]), ChatOk c);
             (summary_request date1 date2 ts, ChatOk text)]).
Proof.
  intros Heq Hs Hv Hd. destruct (advance_submit_chat date1 date2 post rs st ts Hs) as (k1 & H1 & R1).
  cbn [exec step mbind option_bind cf_threads cf_store cf_trace app lookup list_lookup handler].
  rewrite H1. cbn [mbind option_bind cf_threads cf_store cf_trace insert list_insert lookup list_lookup].
  destruct (advance_send_message post rm st ts) as (k2 & H2 & R2); [by rewrite Heq|].
  rewrite H2. cbn [mbind option_bind cf_threads cf_store cf_trace insert list_insert lookup list_lookup].
  rewrite R2. unfold ai_resume. rewrite Heq, lookup_insert_eq, insert_insert_eq.
  cbn [mbind option_bind cf_threads cf_store cf_trace insert list_insert lookup list_lookup endpoint_outcome app].
  rewrite R1, Hv, Hd, lookup_insert_eq. cbn [mbind option_bind cf_threads cf_store cf_trace insert list_insert lookup list_lookup app].
  by rewrite delete_insert_eq.
Qed.

(** C22. A submit that completes while a message of the same session
    awaits its model reply: the summary includes the user's message but
    not the reply; when the reply arrives the session is gone, the
    [append] raises a [KeyError], and the message answers a 500 that
    blames the OpenAI API although the model call succeeded. *)
Theorem message_overtaken_by_submit rm rs st ts text v c :
  sr_sessionId rs = mr_sessionId rm -> mr_sessionId rm ↦ ts in st ->
  summary_of_reply (ChatOk text) = Returned v -> deliver_post post v = Returned tt ->
  exec date1 date2 post (Cfg st [] [])
    [LSpawn (ReqMessage rm); LSpawn (ReqSubmit rs); LRun 0; LRun 1;
     LResume 1 (ChatOk text); LResume 0 (ChatOk c)] =
  Some (Cfg (delete (mr_sessionId rm) st)
            [Thread (ReqMessage rm)
               (TDone (Raised (error_500 (Exception (txt "OpenAI API error: " ++
                                                     exc_str (KeyError (mr_sessionId rm)))))));
             Thread (ReqSubmit rs) (TDone (Returned (submit_reply v)))]
            [(summary_request date1 date2 (ts ++ [Turn User (mr_message rm)]), ChatOk text);
             (chat_request_of (ts ++ [Turn User (mr_message rm)]), ChatOk c)]).
Proof.
  intros Heq Hs Hv Hd. destruct (advance_send_message post rm st ts Hs) as (k1 & H1 & R1).
  cbn [exec step mbind option_bind cf_threads cf_store cf_trace app lookup list_lookup handler].
  rewrite H1. cbn [mbind option_bind cf_threads cf_store cf_trace insert list_insert lookup list_lookup].
  destruct (advance_submit_chat date1 date2 post rs (<[mr_sessionId rm := ts ++ [Turn User (mr_message rm)]]> st)
              (ts ++ [Turn User (mr_message rm)])) as (k2 & H2 & R2).
  { by rewrite Heq, lookup_insert_eq. }
  rewrite H2. cbn [mbind option_bind cf_threads cf_store cf_trace insert list_insert lookup list_lookup].
  rewrite R2, Hv, Hd, Heq, lookup_insert_eq.
  cbn [mbind option_bind cf_threads cf_store cf_trace insert list_insert lookup list_lookup app].
  rewrite R1. unfold ai_resume. rewrite lookup_delete_eq, delete_insert_eq.
  cbn [mbind option_bind cf_threads cf_store cf_trace insert list_insert lookup list_lookup app endpoint_outcome].
  reflexivity.
Qed.

End Races.

(** ** Witnesses *)

Section Witnesses.
Local Existing Instances Latin1DB LexemeFloats.

(** A webhook that accepts every post. *)
Definition w_post (url body : pystr) (t : Z) : post_outcome := w_ok_post.

Definition w_msg (m : string) : MessageRequest := {| mr_sessionId := w_sid; mr_message := txt m |}.

Definition w_c0 : cfg := Cfg w_store [Thread (ReqMessage (w_msg "Acme")) (TRun (send_message (w_msg "Acme")))] [].

Lemma w_shape : shape_store w_store.
Proof. apply map_Forall_insert_2; [vm_compute; reflexivity | apply map_Forall_empty]. Qed.

Lemma w_creach : creach w_date w_date w_post w_store w_c0.
Proof.
  eapply creach_step with (c := Cfg w_store [] []) (l := LSpawn (ReqMessage (w_msg "Acme")));
    [apply creach_init | reflexivity].
Qed.

Lemma conc_shape_invariant_witness :
  shape_store w_store /\ creach w_date w_date w_post w_store w_c0 /\ shape_store (cf_store w_c0).
Proof.
  split; [exact w_shape|]. split; [exact w_creach|].
  exact (conc_shape_invariant w_date w_date w_post w_store w_c0 w_shape w_creach).
Defined.

Lemma session_isolation_witness :
  exists c', step w_date w_date w_post w_c0 (LRun 0) = Some c' /\
    cf_store c' !! w_sid <> cf_store w_c0 !! w_sid /\
    exists i th, label_task (LRun 0) = Some i /\ cf_threads w_c0 !! i = Some th /\
                 target (th_request th) = w_sid.
Proof.
  eexists. split; [reflexivity|].
  assert (Hne : cf_store (Cfg (<[w_sid := w_turns ++ [Turn User (txt "Acme")]]> w_store) [] [])
                  !! w_sid <> cf_store w_c0 !! w_sid).
  { vm_compute. congruence. }
  split; [exact Hne|].
  exact (session_isolation w_date w_date w_post w_store w_c0 (LRun 0) _ w_sid w_shape w_creach
           eq_refl Hne).
Defined.

Lemma two_messages_interleave_witness :
  mr_sessionId (w_msg "Acme") = mr_sessionId (w_msg "Acme Corp") /\ w_store !! w_sid = Some w_turns /\
  exec w_date w_date w_post (Cfg w_store [] [])
    [LSpawn (ReqMessage (w_msg "Acme")); LSpawn (ReqMessage (w_msg "Acme Corp")); LRun 0; LRun 1;
     LResume 0 (ChatOk (txt "Activities?")); LResume 1 (ChatOk (txt "Which activities?"))] =
  Some (Cfg (<[w_sid := w_turns ++ [Turn User (txt "Acme"); Turn User (txt "Acme Corp");
                                     Turn Assistant (txt "Activities?");
                                     Turn Assistant (txt "Which activities?")]]> w_store)
            [Thread (ReqMessage (w_msg "Acme")) (TDone (Returned (message_reply (txt "Activities?"))));
             Thread (ReqMessage (w_msg "Acme Corp"))
               (TDone (Returned (message_reply (txt "Which activities?"))))]
            [(chat_request_of (w_turns ++ [Turn User (txt "Acme")]), ChatOk (txt "Activities?"));
             (chat_request_of (w_turns ++ [Turn User (txt "Acme"); Turn User (txt "Acme Corp")]),
              ChatOk (txt "Which activities?"))]).
Proof.
  split; [reflexivity|]. split; [reflexivity|].
  apply (two_messages_interleave w_date w_date w_post (w_msg "Acme") (w_msg "Acme Corp")); reflexivity.
Defined.

Definition w_submit : SessionRequest := {| sr_sessionId := w_sid |}.

Lemma submit_overtakes_message_witness :
  mr_sessionId (w_msg "Acme") = sr_sessionId w_submit /\ w_store !! sr_sessionId w_submit = Some w_turns /\
  summary_of_reply (ChatOk w_reply) = Returned w_summary /\ deliver_post w_post w_summary = Returned tt /\
  exec w_date w_date w_post (Cfg w_store [] [])
    [LSpawn (ReqSubmit w_submit); LSpawn (ReqMessage (w_msg "Acme")); LRun 0; LRun 1;
     LResume 1 (ChatOk (txt "Activities?")); LResume 0 (ChatOk w_reply)] =
  Some (Cfg (delete w_sid w_store)
            [Thread (ReqSubmit w_submit) (TDone (Returned (submit_reply w_summary)));
             Thread (ReqMessage (w_msg "Acme")) (TDone (Returned (message_reply (txt "Activities?"))))]
            [(chat_request_of (w_turns ++ [Turn User (txt "Acme")]), ChatOk (txt "Activities?"));
             (summary_request w_date w_date w_turns, ChatOk w_reply)]).
Proof.
  do 4 (split; [vm_compute; reflexivity|]).
  apply (submit_overtakes_message w_date w_date w_post w_submit (w_msg "Acme")); vm_compute; reflexivity.
Defined.

Lemma message_overtaken_by_submit_witness :
  sr_sessionId w_submit = mr_sessionId (w_msg "Acme") /\ w_store !! mr_sessionId (w_msg "Acme") = Some w_turns /\
  summary_of_reply (ChatOk w_reply) = Returned w_summary /\ deliver_post w_post w_summary = Returned tt /\
  exec w_date w_date w_post (Cfg w_store [] [])
    [LSpawn (ReqMessage (w_msg "Acme")); LSpawn (ReqSubmit w_submit); LRun 0; LRun 1;
     LResume 1 (ChatOk w_reply); LResume 0 (ChatOk (txt "Activities?"))] =
  Some (Cfg (delete w_sid w_store)
            [Thread (ReqMessage (w_msg "Acme"))
               (TDone (Raised (error_500 (Exception (txt "OpenAI API error: " ++ exc_str (KeyError w_sid))))));
             Thread (ReqSubmit w_submit) (TDone (Returned (submit_reply w_summary)))]
            [(summary_request w_date w_date (w_turns ++ [Turn User (txt "Acme")]), ChatOk w_reply);
             (chat_request_of (w_turns ++ [Turn User (txt "Acme")]), ChatOk (txt "Activities?"))]).
Proof.
  do 4 (split; [vm_compute; reflexivity|]).
  apply (message_overtaken_by_submit w_date w_date w_post (w_msg "Acme") w_submit); vm_compute; reflexivity.
Defined.

End Witnesses.
