(* ===== verification/Liveness.v ===== *)
(** * Liveness: every task of the event loop finishes

    Each endpoint awaits the model at most once on any path: [start_chat]
    and [send_message] in [get_ai_response] (line 198), [submit_chat] in
    [get_conversation_summary] (line 222); the webhook call is blocking.
    [awaits n p] says that every path of [p] passes at most [n] awaits.
    The loop keeps that bound for every task ([task_live]), so a task
    that is started and, if it suspends, resumed with any model answer is
    finished: no request of the program can be left pending by its own
    code (C28). *)

From S2P Require Import Prelude PyText PyValue Json Store Prompts Proc Handlers Lifecycle Concurrency.

(** At most [n] model calls on every path of [p]. *)
Inductive awaits {A} : nat -> proc A -> Prop :=
| aw_ret n v : awaits n (Ret v)
| aw_raise n e : awaits n (Raise e)
| aw_store n o k : (forall x, awaits n (k x)) -> awaits n (Act (AStore o) k)
| aw_post n url body t k : (forall x, awaits n (k x)) -> awaits n (Act (APost url body t) k)
| aw_chat n req k : (forall x, awaits n (k x)) -> awaits (S n) (Act (AChat req) k).

#[export] Hint Constructors awaits : checkin.

Lemma awaits_mono {A} n m (p : proc A) : awaits n p -> (n <= m)%nat -> awaits m p.
Proof.
  intros Hp. revert m. induction Hp; intros m Hm; try (constructor; auto).
  destruct m as [|m]; [lia|]. constructor. intros x. apply H0. lia.
Qed.

Lemma awaits_bind {A B} n m (p : proc A) (f : A -> proc B) :
  awaits n p -> (forall x, awaits m (f x)) -> awaits (n + m) (p ≫= f).
Proof.
  induction 1; intros Hf; simpl; auto with checkin.
  - apply (awaits_mono m); [done|lia].
Qed.

Lemma awaits_bind_0 {A B} n (p : proc A) (f : A -> proc B) :
  awaits 0 p -> (forall x, awaits n (f x)) -> awaits n (p ≫= f).
Proof. apply (awaits_bind 0 n). Qed.

Lemma awaits_bind_r {A B} n (p : proc A) (f : A -> proc B) :
  awaits n p -> (forall x, awaits 0 (f x)) -> awaits n (p ≫= f).
Proof. intros Hp Hf. rewrite <- (Nat.add_0_r n). by apply awaits_bind. Qed.

Lemma awaits_try {A} n sel (p : proc A) h :
  awaits n p -> (forall e, awaits 0 (h e)) -> awaits n (try_except sel p h).
Proof.
  induction 1; intros Hh; simpl; auto with checkin.
  destruct (sel e); [apply (awaits_mono 0); [done|lia] | constructor].
Qed.

Lemma awaits_of_outcome {A} n (o : outcome A) : awaits n (of_outcome o).
Proof. destruct o; constructor. Qed.

Lemma awaits_py_chat req : awaits 1 (py_chat req).
Proof. constructor. intros []; constructor. Qed.

Section Bounds.
Context `{UnicodeDB} `{FloatRuntime}.
Variables date1 date2 : datetime.

Lemma awaits_py_post n url body t : awaits n (py_post url body t).
Proof. unfold py_post. destruct (json_body body); repeat constructor. intros []; constructor. Qed.

(** Prove [awaits] of a composite statement by its structure: a bind is
    split with the model call on one side. *)
Ltac await_bound :=
  repeat first
    [ progress intros | apply awaits_of_outcome | apply awaits_py_post | apply awaits_py_chat
    | apply awaits_try
    | apply awaits_bind_0; [solve [await_bound]|]
    | apply awaits_bind_r; [|solve [await_bound]]
    | case_match | constructor ].

(** Each endpoint awaits the model at most once. *)
Lemma awaits_handler q : awaits 1 (handler date1 date2 q).
Proof.
  destruct q as [r|r|r]; simpl.
  - unfold start_chat, py_set. await_bound.
  - unfold send_message, py_mem, py_append. await_bound.
  - unfold submit_chat, py_mem, py_del, get_conversation_summary, deliver, py_get,
      http_error, raise_for_status. await_bound.
Qed.

End Bounds.

(** ** The loop *)

Section Loop.
Context `{UnicodeDB} `{FloatRuntime}.
Variables date1 date2 : datetime.
Variable post : pystr -> pystr -> Z -> post_outcome.

(** A task with no await left runs to its end. *)
Lemma advance_awaits_0 p st : awaits 0 p -> exists o st', advance post p st = (TDone o, st').
Proof.
  intros Hp. remember 0%nat as n eqn:En. revert st.
  induction Hp as [n v|n e|n o k _ IH|n url body t k _ IH|n req k _ IH]; intros st; simpl;
    try discriminate; eauto.
  destruct (op_exec o st) as [x st']. eauto.
Qed.

(** A task with at most one await left finishes, or suspends with a
    continuation that awaits no more. *)
Lemma advance_awaits_1 p st : awaits 1 p ->
  (exists o st', advance post p st = (TDone o, st')) \/
  (exists req k st', advance post p st = (TWait req k, st') /\ forall x, awaits 0 (k x)).
Proof.
  intros Hp. remember 1%nat as n eqn:En. revert st.
  induction Hp as [n v|n e|n o k _ IH|n url body t k _ IH|n req k Hk IH]; intros st; simpl; eauto.
  - destruct (op_exec o st) as [x st']. eauto.
  - injection En as ->. right. eauto.
Qed.

(** What a task has left: one await at most before it runs, none after
    its await. *)
Definition task_live (s : tstate) : Prop :=
  match s with
  | TRun p => awaits 1 p
  | TWait _ k => forall x, awaits 0 (k x)
  | TDone _ => True
  end.

Lemma advance_live_run p st : awaits 1 p -> task_live (advance post p st).1.
Proof.
  intros Hp. destruct (advance_awaits_1 p st Hp) as [(o & st' & ->)|(req & k & st' & -> & Hk)]; done.
Qed.

Lemma advance_live_resume p st : awaits 0 p -> task_live (advance post p st).1.
Proof. intros Hp. by destruct (advance_awaits_0 p st Hp) as (o & st' & ->). Qed.

Lemma step_live c l c' :
  Forall (fun th => task_live (th_state th)) (cf_threads c) ->
  step date1 date2 post c l = Some c' -> Forall (fun th => task_live (th_state th)) (cf_threads c').
Proof.
  intros Hths Hstep. destruct l as [q|i|i o]; simpl in Hstep.
  - simplify_eq/=. apply Forall_app. split; [done|]. repeat constructor. apply awaits_handler.
  - destruct (cf_threads c !! i) as [[q [p|req k|r]]|] eqn:Hi; try done.
    pose proof (Forall_lookup_1 _ _ _ _ Hths Hi) as Hp.
    pose proof (advance_live_run p (cf_store c) Hp) as Hl.
    destruct (advance post p (cf_store c)) as [s' st']. simplify_eq/=. by apply Forall_insert.
  - destruct (cf_threads c !! i) as [[q [p|req k|r]]|] eqn:Hi; try done.
    pose proof (Forall_lookup_1 _ _ _ _ Hths Hi) as Hk.
    pose proof (advance_live_resume (k o) (cf_store c) (Hk o)) as Hl.
    destruct (advance post (k o) (cf_store c)) as [s' st']. simplify_eq/=. by apply Forall_insert.
Qed.

(** Every task of every reachable configuration keeps its bound. *)
Lemma creach_live st0 c :
  creach date1 date2 post st0 c -> Forall (fun th => task_live (th_state th)) (cf_threads c).
Proof. induction 1; [constructor|]. by eapply step_live. Qed.

(** The schedules of task [i] alone that can finish it, [o] answering
    its model call. *)
Definition finish_scheds (i : nat) (o : chat_outcome) : list (list label) :=
  [[]; [LRun i]; [LResume i o]; [LRun i; LResume i o]].

(** The thread at [i] after it is replaced. *)
Lemma lookup_insert_thread (ths : list thread) i th th' :
  ths !! i = Some th -> <[i := th']> ths !! i = Some th'.
Proof. intros Hi. apply list_lookup_insert_eq. by eapply lookup_lt_Some. Qed.

(** C28. Liveness: in every configuration the loop can reach, whatever
    the requests and the schedule so far, each task finishes when it is
    given its own turns, whatever the model answers: at most one start
    and one resumption, so no endpoint waits on anything but its one
    model call, and none can hang the request that runs it. *)
Theorem task_completes st0 c i th o :
  creach date1 date2 post st0 c -> cf_threads c !! i = Some th ->
  exists sched c' r, sched ∈ finish_scheds i o /\
    exec date1 date2 post c sched = Some c' /\
    cf_threads c' !! i = Some (Thread (th_request th) (TDone r)).
Proof.
  intros Hr Hi. pose proof (Forall_lookup_1 _ _ _ _ (creach_live _ _ Hr) Hi) as Hl.
  destruct c as [st ths tr], th as [q [p|req k|r]]; simpl in *.
  - destruct (advance_awaits_1 p st Hl) as [(r & st' & Ha)|(req & k & st' & Ha & Hk)].
    + exists [LRun i]; simpl. rewrite Hi, Ha. eexists _, r. split; [set_solver|].
      split; [done|]. simpl. by eapply lookup_insert_thread.
    + destruct (advance_awaits_0 (k o) st' (Hk o)) as (r & st'' & Ha').
      exists [LRun i; LResume i o]; simpl. rewrite Hi, Ha. simpl.
      rewrite (lookup_insert_thread _ _ _ _ Hi), Ha'. eexists _, r. split; [set_solver|].
      split; [done|]. simpl. rewrite list_insert_insert_eq. by eapply lookup_insert_thread.
  - destruct (advance_awaits_0 (k o) st (Hl o)) as (r & st' & Ha).
    exists [LResume i o]; simpl. rewrite Hi, Ha. eexists _, r. split; [set_solver|].
    split; [done|]. simpl. by eapply lookup_insert_thread.
  - exists [], (Cfg st ths tr), r. split; [set_solver|]. done.
Qed.

End Loop.

(** ** Witnesses *)

Section Witnesses.
Local Existing Instances Latin1DB LexemeFloats.

Lemma task_completes_witness :
  creach w_date w_date w_post w_store w_c0 /\ cf_threads w_c0 !! 0%nat = Some (Thread (ReqMessage (w_msg "Acme")) (TRun (send_message (w_msg "Acme")))) /\
  exists sched c' r, sched ∈ finish_scheds 0 (ChatOk (txt "Noted.")) /\
    exec w_date w_date w_post w_c0 sched = Some c' /\
    cf_threads c' !! 0%nat = Some (Thread (ReqMessage (w_msg "Acme")) (TDone r)).
Proof.
  split; [exact w_creach|]. split; [reflexivity|].
  exact (task_completes w_date w_date w_post w_store w_c0 0 _ (ChatOk (txt "Noted.")) w_creach eq_refl).
Defined.

End Witnesses.
