(* ===== verification/Isolation.v ===== *)
(** * Isolation: requests on different sessions do not interfere

    Every store action of an endpoint reads or writes the session of its
    own request ([local]): [start_chat], [send_message] and [submit_chat]
    only ever index [sessions] with [request.sessionId] (lines 118, 132,
    136, 150, 185, 200, 206, 219).  So what a task does depends on the
    store only through its own session, and changes no other.  The
    theorem of this file (C29): in any schedule, a request whose session
    no other request of the schedule names ends exactly as it would with
    the loop to itself, running the same steps; its session ends with the
    same contents.  [Serial] goes on to the sequential run (C30). *)

From S2P Require Import Prelude PyText PyValue Json Store Prompts Proc Handlers Lifecycle Concurrency.

(** The session a store action addresses. *)
Definition op_sid (o : store_op) : pystr :=
  match o with OMem s | OSet s _ | OGet s | OAppend s _ | ODel s => s end.

(** Every store action of [p], on every path, addresses [sid]. *)
Inductive local (sid : pystr) {A} : proc A -> Prop :=
| local_ret v : local sid (Ret v)
| local_raise e : local sid (Raise e)
| local_store o k : op_sid o = sid -> (forall x, local sid (k x)) -> local sid (Act (AStore o) k)
| local_chat req k : (forall x, local sid (k x)) -> local sid (Act (AChat req) k)
| local_post url body t k : (forall x, local sid (k x)) -> local sid (Act (APost url body t) k).

#[export] Hint Constructors local : checkin.

Lemma local_bind {A B} sid (p : proc A) (f : A -> proc B) :
  local sid p -> (forall v, local sid (f v)) -> local sid (p ≫= f).
Proof. induction 1; intros Hf; simpl; auto with checkin. Qed.

Lemma local_try {A} sid sel (p : proc A) h :
  local sid p -> (forall e, local sid (h e)) -> local sid (try_except sel p h).
Proof. induction 1; intros Hh; simpl; try destruct (sel e); auto with checkin. Qed.

Lemma local_of_outcome {A} sid (o : outcome A) : local sid (of_outcome o).
Proof. destruct o; constructor. Qed.

(** ** Store actions *)

(** An action answers the same on two stores that agree on its session,
    and leaves them agreeing there. *)
Lemma op_exec_agree o st1 st2 :
  st1 !! op_sid o = st2 !! op_sid o ->
  (op_exec o st1).1 = (op_exec o st2).1 /\ (op_exec o st1).2 !! op_sid o = (op_exec o st2).2 !! op_sid o.
Proof.
  destruct o as [s|s ts|s|s t|s]; simpl; intros Hs;
    unfold st_mem, st_set, st_get, st_append, st_del; rewrite ?Hs.
  - by split.
  - by rewrite !lookup_insert_eq.
  - by split.
  - destruct (st2 !! s) eqn:E; simpl; [by rewrite !lookup_insert_eq | split; congruence].
  - destruct (st2 !! s) eqn:E; simpl; [by rewrite !lookup_delete_eq | split; congruence].
Qed.

(** An action leaves the other sessions alone. *)
Lemma op_exec_other o st b : b <> op_sid o -> (op_exec o st).2 !! b = st !! b.
Proof.
  destruct o as [s|s ts|s|s t|s]; simpl; intros Hb;
    unfold st_set, st_append, st_del; try done.
  - by rewrite lookup_insert_ne.
  - destruct (st !! s); simpl; [by rewrite lookup_insert_ne | done].
  - destruct (st !! s); simpl; [by rewrite lookup_delete_ne | done].
Qed.

Section Advance.
Context `{UnicodeDB} `{FloatRuntime}.
Variables date1 date2 : datetime.
Variable post : pystr -> pystr -> Z -> post_outcome.

(** A task local to [sid], run on two stores that agree on [sid],
    reaches the same state and leaves the stores agreeing on [sid]. *)
Lemma advance_agree sid p st1 st2 :
  local sid p -> st1 !! sid = st2 !! sid ->
  (advance post p st1).1 = (advance post p st2).1 /\
  (advance post p st1).2 !! sid = (advance post p st2).2 !! sid.
Proof.
  intros Hp. revert st1 st2.
  induction Hp as [v|e|o k Ho Hk IH|req k Hk IH|url body t k Hk IH]; intros st1 st2 Hs; simpl; auto.
  subst sid. destruct (op_exec_agree o st1 st2 Hs) as [Hx Hs'].
  destruct (op_exec o st1) as [x1 st1'], (op_exec o st2) as [x2 st2']. simpl in *. subst x2.
  by apply IH.
Qed.

(** A task local to [sid] changes no other session. *)
Lemma advance_other sid p st b :
  local sid p -> b <> sid -> (advance post p st).2 !! b = st !! b.
Proof.
  intros Hp Hb. revert st.
  induction Hp as [v|e|o k Ho Hk IH|req k Hk IH|url body t k Hk IH]; intros st; simpl; auto.
  subst sid. pose proof (op_exec_other o st b Hb) as Ho.
  destruct (op_exec o st) as [x st']. simpl in *. by rewrite IH.
Qed.

(** What a task has left is local to its session. *)
Definition tstate_local (sid : pystr) (s : tstate) : Prop :=
  match s with
  | TRun p => local sid p
  | TWait _ k => forall x, local sid (k x)
  | TDone _ => True
  end.

Lemma advance_local sid p st : local sid p -> tstate_local sid (advance post p st).1.
Proof.
  intros Hp. revert st.
  induction Hp as [v|e|o k Ho Hk IH|req k Hk IH|url body t k Hk IH]; intros st; simpl; auto.
  destruct (op_exec o st) as [x st']. apply IH.
Qed.

End Advance.

Section Handlers.
Context `{UnicodeDB} `{FloatRuntime}.
Variables date1 date2 : datetime.

Lemma local_py_post sid url body t : local sid (py_post url body t).
Proof. unfold py_post. destruct (json_body body); repeat constructor. intros []; constructor. Qed.

(** Prove [local] of a composite statement by its structure. *)
Ltac localize :=
  repeat first
    [ apply local_bind | apply local_try | apply local_of_outcome
    | apply local_py_post | progress intros | case_match
    | apply local_store; [reflexivity|]
    | constructor ].

(** Each endpoint touches only the session its request names. *)
Lemma local_handler q : local (target q) (handler date1 date2 q).
Proof.
  destruct q as [r|r|r]; simpl.
  - unfold start_chat, py_set, get_ai_response, py_get, py_chat, py_append. localize.
  - unfold send_message, py_mem, py_append, get_ai_response, py_get, py_chat. localize.
  - unfold submit_chat, py_mem, py_del, get_conversation_summary, deliver, py_get, py_chat,
      http_error, raise_for_status. localize.
Qed.

End Handlers.

(** ** The schedule of one request *)

(** The labels of [sched] that concern the task of index [i], renamed
    for a loop where it is the only task; [n] counts the tasks spawned
    before [sched]. *)
Fixpoint project (i n : nat) (sched : list label) : list label :=
  match sched with
  | [] => []
  | LSpawn q :: s => (if decide (n = i) then [LSpawn q] else []) ++ project i (S n) s
  | LRun j :: s => (if decide (j = i) then [LRun 0] else []) ++ project i n s
  | LResume j o :: s => (if decide (j = i) then [LResume 0 o] else []) ++ project i n s
  end.

Section Simulation.
Context `{UnicodeDB} `{FloatRuntime}.
Variables date1 date2 : datetime.
Variable post : pystr -> pystr -> Z -> post_outcome.

Lemma exec_app c s1 s2 : exec date1 date2 post c (s1 ++ s2) = c1 ← exec date1 date2 post c s1; exec date1 date2 post c1 s2.
Proof. revert c. induction s1 as [|l s1 IH]; intros c; simpl; [done|]. destruct (step date1 date2 post c l); simpl; auto. Qed.

(** Every task is local to the session of its request. *)
Definition threads_local (c : cfg) : Prop :=
  Forall (fun th => tstate_local (target (th_request th)) (th_state th)) (cf_threads c).

Lemma step_local c l c' : threads_local c -> step date1 date2 post c l = Some c' -> threads_local c'.
Proof.
  unfold threads_local. intros Hths Hstep. destruct l as [q|i|i o]; simpl in Hstep.
  - simplify_eq/=. apply Forall_app. split; [done|]. repeat constructor. apply local_handler.
  - destruct (cf_threads c !! i) as [[q [p|req k|r]]|] eqn:Hi; try done.
    pose proof (advance_local post _ p (cf_store c) (Forall_lookup_1 _ _ _ _ Hths Hi)) as Hl.
    destruct (advance post p (cf_store c)) as [s' st']. simplify_eq/=. by apply Forall_insert.
  - destruct (cf_threads c !! i) as [[q [p|req k|r]]|] eqn:Hi; try done.
    pose proof (advance_local post _ (k o) (cf_store c) (Forall_lookup_1 _ _ _ _ Hths Hi o)) as Hl.
    destruct (advance post (k o) (cf_store c)) as [s' st']. simplify_eq/=. by apply Forall_insert.
Qed.

(** A step keeps every task at its index with its request, and adds a
    task only at the end. *)
Lemma step_threads c l c' j th :
  step date1 date2 post c l = Some c' -> cf_threads c !! j = Some th ->
  exists th', cf_threads c' !! j = Some th' /\ th_request th' = th_request th.
Proof.
  intros Hstep Hj. destruct l as [q|i|i o]; simpl in Hstep.
  - simplify_eq/=. exists th. split; [|done]. by apply lookup_app_l_Some.
  - destruct (cf_threads c !! i) as [[q [p|req k|r]]|] eqn:Hi; try done.
    destruct (advance post p (cf_store c)) as [s' st']. simplify_eq/=.
    destruct (decide (i = j)) as [->|Hij].
    + rewrite Hj in Hi. simplify_eq. eexists. by rewrite list_lookup_insert_eq by (by eapply lookup_lt_Some).
    + exists th. by rewrite list_lookup_insert_ne.
  - destruct (cf_threads c !! i) as [[q [p|req k|r]]|] eqn:Hi; try done.
    destruct (advance post (k o) (cf_store c)) as [s' st']. simplify_eq/=.
    destruct (decide (i = j)) as [->|Hij].
    + rewrite Hj in Hi. simplify_eq. eexists. by rewrite list_lookup_insert_eq by (by eapply lookup_lt_Some).
    + exists th. by rewrite list_lookup_insert_ne.
Qed.

Lemma exec_threads c sched c' j th :
  exec date1 date2 post c sched = Some c' -> cf_threads c !! j = Some th ->
  exists th', cf_threads c' !! j = Some th' /\ th_request th' = th_request th.
Proof.
  revert c th. induction sched as [|l s IH]; intros c th Hex Hj; simpl in Hex; [simplify_eq; eauto|].
  destruct (step date1 date2 post c l) as [c1|] eqn:Hs; [|done]. simpl in Hex.
  destruct (step_threads _ _ _ _ _ Hs Hj) as (th1 & Hj1 & Hr1).
  destruct (IH _ _ Hex Hj1) as (th' & ? & Hr). exists th'. by rewrite Hr, Hr1.
Qed.

(** The loop with task [i] alone mirrors the full loop: same state of
    task [i], same contents of session [sid]. *)
Definition mirrors (i : nat) (sid : pystr) (c c' : cfg) : Prop :=
  cf_store c' !! sid = cf_store c !! sid /\
  cf_threads c' = match cf_threads c !! i with Some th => [th] | None => [] end.

(** How many tasks a label adds. *)
Definition spawns (l : label) : nat := match l with LSpawn _ => 1 | _ => 0 end.

Lemma project_cons i n l s : project i n (l :: s) = project i n [l] ++ project i (n + spawns l) s.
Proof. destruct l; simpl; rewrite ?app_nil_r, ?Nat.add_0_r, ?Nat.add_1_r; done. Qed.

Lemma step_length c l c' :
  step date1 date2 post c l = Some c' -> length (cf_threads c') = (length (cf_threads c) + spawns l)%nat.
Proof.
  destruct l as [q|i|i o]; simpl.
  - intros; simplify_eq/=. rewrite length_app. simpl. lia.
  - destruct (cf_threads c !! i) as [[q [p|req k|r]]|]; try done.
    destruct (advance post p (cf_store c)). intros; simplify_eq/=. rewrite length_insert. lia.
  - destruct (cf_threads c !! i) as [[q [p|req k|r]]|]; try done.
    destruct (advance post (k o) (cf_store c)). intros; simplify_eq/=. rewrite length_insert. lia.
Qed.

(** Spawning at the end of the list leaves the task at [i] where it is,
    unless it is the new one. *)
Lemma lookup_snoc_ne (ths : list thread) th i :
  length ths <> i -> (ths ++ [th]) !! i = ths !! i.
Proof.
  intros Hi. rewrite lookup_app. destruct (ths !! i) eqn:E; [done|].
  apply lookup_ge_None in E. apply lookup_ge_None. simpl. lia.
Qed.

(** Task [j] of [c] runs [p] to its next await: the loop alone mirrors it. *)
Lemma advance_mirror i sid st ths tr st' ths' tr' j q s0 p s1 st1 :
  mirrors i sid (Cfg st ths tr) (Cfg st' ths' tr') -> ths !! j = Some (Thread q s0) ->
  local (target q) p -> advance post p st = (s1, st1) ->
  (j <> i -> target q <> sid) -> (j = i -> target q = sid) ->
  if decide (j = i)
  then exists s1' st1', advance post p st' = (s1', st1') /\ ths' = [Thread q s0] /\
         mirrors i sid (Cfg st1 (<[j := Thread q s1]> ths) tr) (Cfg st1' [Thread q s1'] tr')
  else mirrors i sid (Cfg st1 (<[j := Thread q s1]> ths) tr) (Cfg st' ths' tr').
Proof.
  intros [Hst Hths] Hj Hp Ha Hne Heq. unfold mirrors in *; simpl in *.
  case_decide as Hji.
  - subst j. specialize (Heq eq_refl). subst sid. rewrite Hj in Hths.
    destruct (advance_agree post _ p st' st Hp Hst) as [Hs Hst'].
    destruct (advance post p st') as [s1' st1']. rewrite Ha in Hs, Hst'. simpl in *. subst s1'.
    eexists _, _. split; [done|]. split; [done|]. split; [done|].
    by rewrite list_lookup_insert_eq by (by eapply lookup_lt_Some).
  - rewrite list_lookup_insert_ne by done. split; [|done].
    pose proof (advance_other post _ p st sid Hp (not_eq_sym (Hne Hji))) as Ho.
    rewrite Ha in Ho. simpl in Ho. by rewrite Ho.
Qed.

(** One step of the full loop is mirrored by at most one step of the
    loop alone. *)
Lemma step_mirror i sid c c' l c1 :
  threads_local c -> mirrors i sid c c' -> step date1 date2 post c l = Some c1 ->
  (forall j th, j <> i -> cf_threads c1 !! j = Some th -> target (th_request th) <> sid) ->
  (forall th, cf_threads c1 !! i = Some th -> target (th_request th) = sid) ->
  exists c1', exec date1 date2 post c' (project i (length (cf_threads c)) [l]) = Some c1' /\
    mirrors i sid c1 c1'.
Proof.
  destruct c as [st ths tr], c' as [st' ths' tr']. intros Hloc Hm Hstep Hne Heq.
  assert (Hm2 := Hm). unfold mirrors in Hm2. destruct Hm2 as [Hst Hths]. simpl in *.
  destruct l as [q|j|j o]; simpl in Hstep.
  - injection Hstep as <-. simpl. case_decide as Hi.
    + subst i. rewrite (proj2 (lookup_ge_None ths _)) in Hths by lia. subst ths'.
      eexists. split; [reflexivity|]. split; [done|]. simpl.
      by rewrite lookup_app_r, Nat.sub_diag by lia.
    + exists (Cfg st' ths' tr'). split; [done|]. split; [done|]. simpl. by rewrite lookup_snoc_ne.
  - destruct (ths !! j) as [[q [p|req k|r]]|] eqn:Hj; try done.
    pose proof (Forall_lookup_1 _ _ _ _ Hloc Hj) as Hp. simpl in Hp.
    destruct (advance post p st) as [s1 st1] eqn:Ha. injection Hstep as <-.
    assert (Hq : cf_threads (Cfg st1 (<[j:=Thread q s1]> ths) tr) !! j = Some (Thread q s1))
      by (simpl; rewrite list_lookup_insert_eq; [done|by eapply lookup_lt_Some]).
    pose proof (advance_mirror i sid st ths tr st' ths' tr' j q _ p s1 st1 Hm Hj Hp Ha
                  (fun Hji => Hne j _ Hji Hq) (fun Hji => ltac:(subst j; exact (Heq _ Hq)))) as Hmir.
    case_decide as Hji; cbn [app].
    + destruct Hmir as (s1' & st1' & Ha' & -> & Hmir). subst j. simpl. rewrite Ha'. eauto.
    + eauto.
  - destruct (ths !! j) as [[q [p|req k|r]]|] eqn:Hj; try done.
    pose proof (Forall_lookup_1 _ _ _ _ Hloc Hj o) as Hp. simpl in Hp.
    destruct (advance post (k o) st) as [s1 st1] eqn:Ha. injection Hstep as <-.
    assert (Hq : cf_threads (Cfg st1 (<[j:=Thread q s1]> ths) (tr ++ [(req, o)])) !! j = Some (Thread q s1))
      by (simpl; rewrite list_lookup_insert_eq; [done|by eapply lookup_lt_Some]).
    pose proof (advance_mirror i sid st ths (tr ++ [(req, o)]) st' ths' tr' j q _ (k o) s1 st1
                  Hm Hj Hp Ha (fun Hji => Hne j _ Hji Hq) (fun Hji => ltac:(subst j; exact (Heq _ Hq)))) as Hmir.
    case_decide as Hji; cbn [app].
    + destruct Hmir as (s1' & st1' & Ha' & -> & Hmir). subst j. simpl. rewrite Ha'.
      eexists. split; [reflexivity|]. destruct Hmir as [? ?]. done.
    + eauto.
Qed.

(** The loop alone follows the whole schedule of task [i]. *)
Lemma exec_mirror i sid sched c c' cf :
  threads_local c -> mirrors i sid c c' -> exec date1 date2 post c sched = Some cf ->
  (forall j th, j <> i -> cf_threads cf !! j = Some th -> target (th_request th) <> sid) ->
  (forall th, cf_threads cf !! i = Some th -> target (th_request th) = sid) ->
  exists cf', exec date1 date2 post c' (project i (length (cf_threads c)) sched) = Some cf' /\
    mirrors i sid cf cf'.
Proof.
  revert c c'. induction sched as [|l s IH]; intros c c' Hloc Hm Hex Hne Heq.
  - simpl in Hex. simplify_eq. eauto.
  - simpl in Hex. destruct (step date1 date2 post c l) as [c1|] eqn:Hs; [|done]. simpl in Hex.
    destruct (step_mirror i sid c c' l c1 Hloc Hm Hs) as (c1' & Hex1 & Hm1).
    + intros j th Hji Hj. destruct (exec_threads _ _ _ _ _ Hex Hj) as (th' & Hj' & <-). eauto.
    + intros th Hi. destruct (exec_threads _ _ _ _ _ Hex Hi) as (th' & Hi' & <-). eauto.
    + destruct (IH c1 c1' (step_local _ _ _ Hloc Hs) Hm1 Hex Hne Heq) as (cf' & Hexf & Hmf).
      exists cf'. split; [|done].
      rewrite project_cons, exec_app, Hex1. simpl. by rewrite <- (step_length _ _ _ Hs).
Qed.

(** The loop alone replays a request whose session is its own. *)
Lemma isolated_mirror st0 sched c i th :
  exec date1 date2 post (Cfg st0 [] []) sched = Some c -> cf_threads c !! i = Some th ->
  (forall j th', j <> i -> cf_threads c !! j = Some th' -> target (th_request th') <> target (th_request th)) ->
  exists c', exec date1 date2 post (Cfg st0 [] []) (project i 0 sched) = Some c' /\
    cf_threads c' = [th] /\ cf_store c' !! target (th_request th) = cf_store c !! target (th_request th).
Proof.
  intros Hex Hi Hne.
  destruct (exec_mirror i (target (th_request th)) sched (Cfg st0 [] []) (Cfg st0 [] []) c)
    as (c' & Hex' & Hst & Hths); [constructor | by split | done | done | |].
  - intros th' Hi'. rewrite Hi in Hi'. by simplify_eq.
  - exists c'. split; [done|]. rewrite Hi in Hths. done.
Qed.

(** C29. Requests on different sessions do not interfere: in any
    schedule of the loop, a request whose session no other request of
    the schedule names runs, under the labels of its own task alone,
    exactly as with the loop to itself: the same final state (outcome
    included) and the same contents of its session at the end. *)
Theorem isolated_request_alone st0 sched c i th :
  exec date1 date2 post (Cfg st0 [] []) sched = Some c -> cf_threads c !! i = Some th ->
  (forall j th', j <> i -> cf_threads c !! j = Some th' -> target (th_request th') <> target (th_request th)) ->
  exists c', exec date1 date2 post (Cfg st0 [] []) (project i 0 sched) = Some c' /\
    cf_threads c' = [th] /\ cf_store c' !! target (th_request th) = cf_store c !! target (th_request th).
Proof. exact (isolated_mirror st0 sched c i th). Qed.

End Simulation.

(** ** Witnesses *)

Section Witnesses.
Local Existing Instances Latin1DB LexemeFloats.

(** A message on [w_sid] and a start on another session, their model
    calls overlapping and answered in the other order. *)
Definition w_iso_sched : list label :=
  [LSpawn (ReqMessage (w_msg "Acme")); LSpawn (ReqStart {| sr_sessionId := txt "other" |});
   LRun 0; LRun 1; LResume 1 (ChatOk (txt "Client name?")); LResume 0 (ChatOk (txt "Noted."))].

Definition w_iso_final : cfg :=
  Cfg (<[txt "other" := [Turn System CHAT_SYSTEM_PROMPT; Turn Assistant (txt "Client name?")]]>
       (<[w_sid := w_turns ++ [Turn User (txt "Acme"); Turn Assistant (txt "Noted.")]]> w_store))
    [Thread (ReqMessage (w_msg "Acme")) (TDone (Returned (message_reply (txt "Noted."))));
     Thread (ReqStart {| sr_sessionId := txt "other" |}) (TDone (Returned (message_reply (txt "Client name?"))))]
    [(chat_request_of [Turn System CHAT_SYSTEM_PROMPT], ChatOk (txt "Client name?"));
     (chat_request_of (w_turns ++ [Turn User (txt "Acme")]), ChatOk (txt "Noted."))].

Lemma isolated_request_alone_witness :
  exec w_date w_date w_post (Cfg w_store [] []) w_iso_sched = Some w_iso_final /\
  cf_threads w_iso_final !! 0%nat = Some (Thread (ReqMessage (w_msg "Acme")) (TDone (Returned (message_reply (txt "Noted."))))) /\
  exists c', exec w_date w_date w_post (Cfg w_store [] []) (project 0 0 w_iso_sched) = Some c' /\
    cf_threads c' = [Thread (ReqMessage (w_msg "Acme")) (TDone (Returned (message_reply (txt "Noted."))))] /\
    cf_store c' !! w_sid = cf_store w_iso_final !! w_sid.
Proof.
  assert (Hex : exec w_date w_date w_post (Cfg w_store [] []) w_iso_sched = Some w_iso_final)
    by (vm_compute; reflexivity).
  split; [exact Hex|]. split; [reflexivity|].
  refine (isolated_request_alone w_date w_date w_post w_store w_iso_sched w_iso_final 0 _ Hex eq_refl _).
  intros [|[|j]] th' Hj Hl; [done| |done]. simpl in Hl. injection Hl as <-. vm_compute. discriminate.
Defined.

End Witnesses.
