(* ===== verification/Serial.v ===== *)
(** * Serial: requests on private sessions are serializable

    [Isolation] shows that a request whose session no other request names
    runs, in any schedule, as with the event loop to itself.  This file
    closes the circle with the sequential model of [Handlers]: a task
    alone on the loop, started once and resumed with model answers, does
    what one sequential [run] of its handler does with those answers (the
    webhook answering as [post] does).  Together (C30): whatever the
    interleaving, a finished request on a private session has the outcome
    and leaves its session as one sequential run of its handler from the
    initial store, so the sequential theorems C1-C13 and C26 apply to it. *)

From S2P Require Import Prelude PyText PyValue Json Store Prompts Proc Handlers Lifecycle Concurrency Isolation.

Section Solo.
Context `{UnicodeDB} `{FloatRuntime}.
Variables date1 date2 : datetime.
Variable post : pystr -> pystr -> Z -> post_outcome.

(** The webhook answers a task receives on its way to its next await. *)
Fixpoint adv_replies (p : proc pyval) (st : store) : list reply :=
  match p with
  | Act (AStore o) k => let '(x, st') := op_exec o st in adv_replies (k x) st'
  | Act (APost url body t) k => RPost (post url body t) :: adv_replies (k (post url body t)) st
  | _ => []
  end.

(** A sequential run, forgetting the calls made. *)
Definition run_os (p : proc pyval) (st : store) (rs : list reply)
  : option (outcome pyval * store * list reply) :=
  (fun r => (r.1.1.1, r.1.1.2, r.2)) <$> run p st rs.

(** What is left of a task, run sequentially on the replies [rs]. *)
Definition ts_run (s : tstate) (st : store) (rs : list reply)
  : option (outcome pyval * store * list reply) :=
  match s with
  | TRun p => run_os p st rs
  | TWait _ k => match rs with RChat x :: rs' => run_os (k x) st rs' | _ => None end
  | TDone o => Some (o, st, rs)
  end.

Lemma run_os_chat req k x st rs :
  run_os (Act (AChat req) k) st (RChat x :: rs) = run_os (k x) st rs.
Proof. unfold run_os. simpl. by destruct (run (k x) st rs) as [[[[? ?] ?] ?]|]. Qed.

Lemma run_os_post url body t k r st rs :
  run_os (Act (APost url body t) k) st (RPost r :: rs) = run_os (k r) st rs.
Proof. unfold run_os. simpl. by destruct (run (k r) st rs) as [[[[? ?] ?] ?]|]. Qed.

(** Running a task to its next await is the start of its sequential run. *)
Lemma run_advance p st rs :
  run_os p st (adv_replies p st ++ rs) = ts_run (advance post p st).1 (advance post p st).2 rs.
Proof.
  revert st. induction p as [v|e|[o|req|url body t] k IH]; intros st; try done.
  - specialize (IH (op_exec o st).1 (op_exec o st).2). unfold run_os in *. simpl.
    destruct (op_exec o st) as [x st']. apply IH.
  - simpl. destruct rs as [|[x|r] rs]; [done| |done]. apply run_os_chat.
  - simpl. rewrite run_os_post. apply IH.
Qed.

(** A step of the only task of the loop is a stretch of its run. *)
Lemma step_solo st q s tr l c1 :
  step date1 date2 post (Cfg st [Thread q s] tr) l = Some c1 ->
  (exists q', l = LSpawn q') \/
  exists st1 s1 tr1 pre, c1 = Cfg st1 [Thread q s1] tr1 /\
    forall rs, ts_run s st (pre ++ rs) = ts_run s1 st1 rs.
Proof.
  destruct l as [q'|[|j]|[|j] x]; simpl; eauto; try done.
  - destruct s as [p| |]; [|done..]. destruct (advance post p st) as [s1 st1] eqn:Ha.
    intros [= <-]. right. eexists _, _, _, (adv_replies p st). split; [done|].
    intros rs. cbn [ts_run]. by rewrite run_advance, Ha.
  - destruct s as [|req k|]; [done| |done]. destruct (advance post (k x) st) as [s1 st1] eqn:Ha.
    intros [= <-]. right. eexists _, _, _, (RChat x :: adv_replies (k x) st). split; [done|].
    intros rs. cbn [ts_run app]. by rewrite run_advance, Ha.
Qed.

Lemma exec_length c sched c' :
  exec date1 date2 post c sched = Some c' -> (length (cf_threads c) <= length (cf_threads c'))%nat.
Proof.
  revert c. induction sched as [|l s IH]; intros c Hex; simpl in Hex; [by simplify_eq|].
  destruct (step date1 date2 post c l) as [c1|] eqn:Hs; [|done].
  pose proof (step_length date1 date2 post _ _ _ Hs). apply IH in Hex. lia.
Qed.

(** The only task of the loop, through a whole schedule, does a stretch
    of its sequential run. *)
Lemma exec_solo st q s tr sched st' s' tr' :
  exec date1 date2 post (Cfg st [Thread q s] tr) sched = Some (Cfg st' [Thread q s'] tr') ->
  exists pre, forall rs, ts_run s st (pre ++ rs) = ts_run s' st' rs.
Proof.
  revert st s tr. induction sched as [|l sch IH]; intros st s tr Hex; simpl in Hex.
  - simplify_eq. exists []. done.
  - destruct (step date1 date2 post _ l) as [c1|] eqn:Hs; [|done]. simpl in Hex.
    destruct (step_solo _ _ _ _ _ _ Hs) as [[q' ->]|(st1 & s1 & tr1 & pre & -> & Hpre)].
    + simpl in Hs. simplify_eq. apply exec_length in Hex. simpl in Hex. lia.
    + destruct (IH _ _ _ Hex) as [pre' Hpre']. exists (pre ++ pre'). intros rs.
      by rewrite <- app_assoc, Hpre, Hpre'.
Qed.

(** A schedule that ends with one finished task on a loop that started
    empty is one sequential run of its handler. *)
Lemma exec_solo_run st0 sched st' tr' q o :
  exec date1 date2 post (Cfg st0 [] []) sched = Some (Cfg st' [Thread q (TDone o)] tr') ->
  exists rs tr, run (handler date1 date2 q) st0 rs = Some (o, st', tr, []).
Proof.
  destruct sched as [|[q'|j|j x] sched]; simpl; try done; [|by destruct j..].
  intros Hex. destruct (exec_threads date1 date2 post _ _ _ 0 _ Hex eq_refl) as (th & Hth & Hq).
  simpl in Hth, Hq. simplify_eq. apply exec_solo in Hex as [pre Hpre].
  specialize (Hpre []). rewrite app_nil_r in Hpre. simpl in Hpre. unfold run_os in Hpre.
  destruct (run (handler date1 date2 _) st0 pre) as [[[[o' st''] tr] rs']|] eqn:Hr; [|done].
  simpl in Hpre. simplify_eq. eauto.
Qed.

End Solo.

Section Serializable.
Context `{UnicodeDB} `{FloatRuntime}.
Variables date1 date2 : datetime.
Variable post : pystr -> pystr -> Z -> post_outcome.

(** C30. Requests on private sessions are serializable: in any
    interleaving of the event loop, a finished request whose session no
    other request names has the outcome of one sequential run of its
    handler from the initial store, for some answers of the services,
    and its session ends as that run leaves it. *)
Theorem private_request_serializable st0 sched c i q o :
  exec date1 date2 post (Cfg st0 [] []) sched = Some c ->
  cf_threads c !! i = Some (Thread q (TDone o)) ->
  (forall j th, j <> i -> cf_threads c !! j = Some th -> target (th_request th) <> target q) ->
  exists rs tr st', run (handler date1 date2 q) st0 rs = Some (o, st', tr, []) /\
    st' !! target q = cf_store c !! target q.
Proof.
  intros Hex Hi Hne.
  destruct (isolated_mirror date1 date2 post st0 sched c i _ Hex Hi Hne)
    as ([st' ths' tr'] & Hex' & Hths & Hst). simpl in Hths, Hst. subst ths'.
  destruct (exec_solo_run date1 date2 post _ _ _ _ _ _ Hex') as (rs & tr & Hr).
  by exists rs, tr, st'.
Qed.

End Serializable.

(** ** Witnesses *)

Section Witnesses.
Local Existing Instances Latin1DB LexemeFloats.

Lemma private_request_serializable_witness :
  exec w_date w_date w_post (Cfg w_store [] []) w_iso_sched = Some w_iso_final /\
  cf_threads w_iso_final !! 0%nat =
    Some (Thread (ReqMessage (w_msg "Acme")) (TDone (Returned (message_reply (txt "Noted."))))) /\
  exists rs tr st', run (handler w_date w_date (ReqMessage (w_msg "Acme"))) w_store rs =
      Some (Returned (message_reply (txt "Noted.")), st', tr, []) /\
    st' !! w_sid = cf_store w_iso_final !! w_sid.
Proof.
  assert (Hex : exec w_date w_date w_post (Cfg w_store [] []) w_iso_sched = Some w_iso_final)
    by (vm_compute; reflexivity).
  split; [exact Hex|]. split; [reflexivity|].
  refine (private_request_serializable w_date w_date w_post w_store w_iso_sched w_iso_final 0 _ _ Hex eq_refl _).
  intros [|[|j]] th' Hj Hl; [done| |done]. simpl in Hl. injection Hl as <-. vm_compute. discriminate.
Defined.

End Witnesses.
